(** * Session lifecycle of the Express/Prisma API: a shallow embedding

    The development follows the layering of the repository:
    - [utils/errors.ts] and the error classes of [jsonwebtoken]  (section 1)
    - [jsonwebtoken]'s [sign] / [verify], as a symbolic model     (section 2)
    - the Prisma client over the [users] and [refresh_tokens]
      tables of [prisma/schema.prisma]                            (section 3)
    - [utils/password.ts] and the [jwt] configuration             (section 4)
    - [services/auth.service.ts]                                  (section 5)
    - [middleware/auth.middleware.ts]                             (section 6)
    - [services/user.service.ts] (the writers of the users table) (section 7)
    followed by the invariants of the store and the theorems. *)

From Stdlib Require Import ZArith NArith List String Ascii Bool Lia DecimalString.
Import ListNotations.
Local Open Scope string_scope.
Local Open Scope Z_scope.
Set Warnings "-register-all".

(* ===================================================================== *)
(** ** 1. JavaScript errors *)
(* ===================================================================== *)

(** The classes that can be thrown on the paths modelled here.  The first
    block is [utils/errors.ts]; the second is [jsonwebtoken/lib]; the third
    is the Prisma client runtime; the last is the language's own. *)
Inductive ErrorClass : Type :=
| Error
| AppError
| ValidationError
| AuthenticationError
| AuthorizationError
| NotFoundError
| ConflictError
| RateLimitError
| JsonWebTokenError
| TokenExpiredError
| NotBeforeError
| PrismaClientKnownRequestError
| PrismaClientUnknownRequestError
| TypeError.

Definition ErrorClass_eq_dec (a b : ErrorClass) : {a = b} + {a <> b}.
Proof. decide equality. Defined.

(** [class C extends P]: the direct superclass.  In [jsonwebtoken],
    [TokenExpiredError.prototype = Object.create(JsonWebTokenError.prototype)]
    and likewise for [NotBeforeError]. *)
Definition superclass (c : ErrorClass) : option ErrorClass :=
  match c with
  | Error => None
  | AppError => Some Error
  | ValidationError | AuthenticationError | AuthorizationError
  | NotFoundError | ConflictError | RateLimitError => Some AppError
  | JsonWebTokenError => Some Error
  | TokenExpiredError | NotBeforeError => Some JsonWebTokenError
  | PrismaClientKnownRequestError | PrismaClientUnknownRequestError => Some Error
  | TypeError => Some Error
  end.

(** The prototype chain of a class, itself first.  No chain here is longer
    than three links; the fuel is generous. *)
Fixpoint prototype_chain (fuel : nat) (c : ErrorClass) : list ErrorClass :=
  match fuel with
  | O => []
  | S fuel' =>
      c :: match superclass c with
           | Some p => prototype_chain fuel' p
           | None => []
           end
  end.

Record JsError : Type := mkJsError {
  err_class : ErrorClass;
  message : string;
  statusCode : option Z;
  code : option string
}.

Definition JsError_eq_dec (a b : JsError) : {a = b} + {a <> b}.
Proof.
  decide equality.
  - decide equality. apply string_dec.
  - decide equality. apply Z.eq_dec.
  - apply string_dec.
  - apply ErrorClass_eq_dec.
Defined.

(** [e instanceof C] *)
Definition instanceof (e : JsError) (c : ErrorClass) : bool :=
  existsb (fun k => if ErrorClass_eq_dec k c then true else false)
          (prototype_chain 4 (err_class e)).

(** Constructors of [utils/errors.ts]. *)
Definition new_AuthenticationError (msg : string) : JsError :=
  mkJsError AuthenticationError msg (Some 401) (Some "AUTHENTICATION_ERROR").

Definition new_AuthorizationError (msg : string) : JsError :=
  mkJsError AuthorizationError msg (Some 403) (Some "AUTHORIZATION_ERROR").

Definition new_NotFoundError (resource : string) : JsError :=
  mkJsError NotFoundError (resource ++ " not found") (Some 404) (Some "NOT_FOUND").

Definition new_ConflictError (msg : string) : JsError :=
  mkJsError ConflictError msg (Some 409) (Some "CONFLICT").

(** Errors raised by the libraries. *)
Definition jwt_error (c : ErrorClass) (msg : string) : JsError :=
  mkJsError c msg None None.

(** [P2002] unique constraint, [P2003] foreign key, [P2025] record not found;
    [target] names the constrained column. *)
Definition prisma_error (errcode target : string) : JsError :=
  mkJsError PrismaClientKnownRequestError target None (Some errcode).

Definition prisma_inconsistent : JsError :=
  mkJsError PrismaClientUnknownRequestError
            "Inconsistent query result: Field user is required to return data, got null instead"
            None None.

(** A computation either returns or throws. *)
Inductive Completion (A : Type) : Type :=
| Return (a : A)
| Throw (e : JsError).
Arguments Return {A} a.
Arguments Throw {A} e.

(* ===================================================================== *)
(** ** 2. Tokens: a symbolic model of [jsonwebtoken] *)
(* ===================================================================== *)

(** Row identifiers are [uuid()] values.  The generator never returns the
    same identifier twice; the n-th identifier drawn is modelled by [n]. *)
Definition Uuid : Type := nat.

Inductive Role : Type := USER | ADMIN | SUPER_ADMIN.

Definition Role_eq_dec (a b : Role) : {a = b} + {a <> b}.
Proof. decide equality. Defined.

Inductive TokenType : Type := access | refresh.

Definition TokenType_eq_dec (a b : TokenType) : {a = b} + {a <> b}.
Proof. decide equality. Defined.

Module TokenPayload.
Record t : Type := mk {
  sub : Uuid;
  email : string;
  role : Role;
  type : TokenType
}.

Definition eq_dec (a b : t) : {a = b} + {a <> b}.
Proof.
  decide equality.
  - apply TokenType_eq_dec.
  - apply Role_eq_dec.
  - apply string_dec.
  - apply Nat.eq_dec.
Defined.
End TokenPayload.

(** A string handed around as a token.  [Jws key p iat exp] is the compact
    serialisation that [jwt.sign] produces for claims [p] with the registered
    claims [iat] and [exp] (seconds) under HS256 with [key]: the header is
    constant and HMAC is deterministic, so the string is a function of these
    four values, and two such strings are equal exactly when the values are.
    [NotJws s] is any other string [s]. *)
Inductive JwtString : Type :=
| Jws (key : string) (payload : TokenPayload.t) (iat exp : Z)
| NotJws (s : string).

Definition JwtString_eq_dec (a b : JwtString) : {a = b} + {a <> b}.
Proof.
  decide equality;
    try apply Z.eq_dec; try apply string_dec; apply TokenPayload.eq_dec.
Defined.

(** JavaScript truthiness of a string: everything but the empty one. *)
Definition truthy (s : JwtString) : bool :=
  match s with
  | NotJws "" => false
  | _ => true
  end.

(** [Math.floor(Date.now() / 1000)], with [now] in milliseconds. *)
Definition clockTimestamp (now : Z) : Z := now / 1000.

(** [jwt.sign(payload, secret, { expiresIn })] with a numeric [expiresIn]:
    [iat] is the current second and [exp = iat + expiresIn]. *)
Definition jwt_sign (payload : TokenPayload.t) (secret : string)
           (expiresIn : Z) (now : Z) : JwtString :=
  Jws secret payload (clockTimestamp now) (clockTimestamp now + expiresIn).

(** [jwt.verify(token, secret)]: malformed input and a bad signature throw
    [JsonWebTokenError]; a good signature with [clockTimestamp >= exp]
    throws [TokenExpiredError]. *)
Definition jwt_verify (token : JwtString) (secret : string) (now : Z)
  : Completion TokenPayload.t :=
  match token with
  | NotJws _ => Throw (jwt_error JsonWebTokenError "jwt malformed")
  | Jws key payload _ exp =>
      if string_dec key secret then
        if exp <=? clockTimestamp now
        then Throw (jwt_error TokenExpiredError "jwt expired")
        else Return payload
      else Throw (jwt_error JsonWebTokenError "invalid signature")
  end.

(* ===================================================================== *)
(** ** 3. The Prisma client over [users] and [refresh_tokens] *)
(* ===================================================================== *)

(** [utils/password.ts] stores what [bcrypt.hash] returns: a string that
    embeds the cost, the salt and the digest of the password.  The digest is
    kept symbolic: it stands for the password it was computed from. *)
Module Bcrypt.
Record hash : Type := mk {
  cost : nat;
  salt : string;
  digest_of : string
}.
End Bcrypt.

Module User.
Record t : Type := mk {
  id : Uuid;
  email : string;
  username : string;
  passwordHash : Bcrypt.hash;
  firstName : option string;
  lastName : option string;
  isActive : bool;
  isVerified : bool;
  role : Role;
  lastLoginAt : option Z;
  createdAt : Z;
  updatedAt : Z
}.

Definition set_lastLoginAt (v : option Z) (u : t) : t :=
  mk (id u) (email u) (username u) (passwordHash u) (firstName u) (lastName u)
     (isActive u) (isVerified u) (role u) v (createdAt u) (updatedAt u).

Definition set_isActive (v : bool) (u : t) : t :=
  mk (id u) (email u) (username u) (passwordHash u) (firstName u) (lastName u)
     v (isVerified u) (role u) (lastLoginAt u) (createdAt u) (updatedAt u).

Definition set_email (v : string) (u : t) : t :=
  mk (id u) v (username u) (passwordHash u) (firstName u) (lastName u)
     (isActive u) (isVerified u) (role u) (lastLoginAt u) (createdAt u) (updatedAt u).

Definition set_username (v : string) (u : t) : t :=
  mk (id u) (email u) v (passwordHash u) (firstName u) (lastName u)
     (isActive u) (isVerified u) (role u) (lastLoginAt u) (createdAt u) (updatedAt u).

Definition set_firstName (v : option string) (u : t) : t :=
  mk (id u) (email u) (username u) (passwordHash u) v (lastName u)
     (isActive u) (isVerified u) (role u) (lastLoginAt u) (createdAt u) (updatedAt u).

Definition set_lastName (v : option string) (u : t) : t :=
  mk (id u) (email u) (username u) (passwordHash u) (firstName u) v
     (isActive u) (isVerified u) (role u) (lastLoginAt u) (createdAt u) (updatedAt u).

(** [@updatedAt]: every update stamps the row. *)
Definition set_updatedAt (v : Z) (u : t) : t :=
  mk (id u) (email u) (username u) (passwordHash u) (firstName u) (lastName u)
     (isActive u) (isVerified u) (role u) (lastLoginAt u) (createdAt u) v.
End User.

Module RefreshToken.
Record t : Type := mk {
  id : Uuid;
  token : JwtString;
  userId : Uuid;
  expiresAt : Z;
  isRevoked : bool;
  createdAt : Z
}.

(** [data: { isRevoked: true }] *)
Definition revoke (r : t) : t :=
  mk (id r) (token r) (userId r) (expiresAt r) true (createdAt r).
End RefreshToken.

(** The queries the code issues, in the order they reach the database. *)
Inductive DbCall : Type :=
| user_findUnique
| user_create
| user_update
| user_delete
| refreshToken_findUnique
| refreshToken_create
| refreshToken_update
| refreshToken_updateMany.

Record Db : Type := mkDb {
  users : list User.t;
  refreshTokens : list RefreshToken.t;
  nextUuid : Uuid;
  calls : list DbCall
}.

Definition empty_db : Db := mkDb [] [] O [].

(** Awaited computations over the database: the state survives a throw,
    since nothing here runs inside a transaction. *)
Definition Async (A : Type) : Type := Db -> Db * Completion A.

Definition ret {A} (a : A) : Async A := fun s => (s, Return a).

Definition throw {A} (e : JsError) : Async A := fun s => (s, Throw e).

Definition bind {A B} (m : Async A) (k : A -> Async B) : Async B :=
  fun s =>
    match m s with
    | (s', Return a) => k a s'
    | (s', Throw e) => (s', Throw e)
    end.

(** A synchronous call that may throw, e.g. [jwt.verify]. *)
Definition lift {A} (c : Completion A) : Async A := fun s => (s, c).

Declare Scope async_scope.
Delimit Scope async_scope with async.
Notation "x <- m ;; k" := (bind m (fun x => k))
  (at level 61, m at next level, right associativity) : async_scope.
Notation "m ;;; k" := (bind m (fun _ => k))
  (at level 61, right associativity) : async_scope.
Local Open Scope async_scope.

Definition logged (c : DbCall) : Async unit :=
  fun s => (mkDb (users s) (refreshTokens s) (nextUuid s) (calls s ++ [c]), Return tt).

Definition get_users : Async (list User.t) := fun s => (s, Return (users s)).

Definition get_refreshTokens : Async (list RefreshToken.t) :=
  fun s => (s, Return (refreshTokens s)).

Definition put_users (us : list User.t) : Async unit :=
  fun s => (mkDb us (refreshTokens s) (nextUuid s) (calls s), Return tt).

Definition put_refreshTokens (rs : list RefreshToken.t) : Async unit :=
  fun s => (mkDb (users s) rs (nextUuid s) (calls s), Return tt).

(** [@default(uuid())] *)
Definition uuid : Async Uuid :=
  fun s => (mkDb (users s) (refreshTokens s) (S (nextUuid s)) (calls s),
            Return (nextUuid s)).

Module prisma.

(** The [where] clauses of [findUnique], one per unique column. *)
Inductive UserWhereUnique : Type :=
| where_id (i : Uuid)
| where_email (e : string)
| where_username (n : string).

Definition user_matches (w : UserWhereUnique) (u : User.t) : bool :=
  match w with
  | where_id i => Nat.eqb (User.id u) i
  | where_email e => String.eqb (User.email u) e
  | where_username n => String.eqb (User.username u) n
  end.

Module user.

Definition findUnique (w : UserWhereUnique) : Async (option User.t) :=
  logged user_findUnique ;;;
  us <- get_users ;;
  ret (find (user_matches w) us).

(** [create({ data: { email, username, passwordHash, firstName, lastName } })];
    the other columns take the defaults of the schema.  The unique
    indexes on [email] and [username] are enforced by the database. *)
Definition create (email username : string) (passwordHash : Bcrypt.hash)
           (firstName lastName : option string) (now : Z) : Async User.t :=
  logged user_create ;;;
  us <- get_users ;;
  if existsb (user_matches (where_email email)) us
  then throw (prisma_error "P2002" "email")
  else if existsb (user_matches (where_username username)) us
  then throw (prisma_error "P2002" "username")
  else
    i <- uuid ;;
    let u := User.mk i email username passwordHash firstName lastName
                     true false USER None now now in
    put_users (us ++ [u]) ;;;
    ret u.

(** [update({ where: { id }, data })]; [f] applies [data] to the row.  The
    callers either leave the unique columns alone or have just looked the
    new value up and found it free. *)
Definition update (i : Uuid) (f : User.t -> User.t) (now : Z) : Async User.t :=
  logged user_update ;;;
  us <- get_users ;;
  match find (user_matches (where_id i)) us with
  | None => throw (prisma_error "P2025" "User")
  | Some u =>
      let u' := User.set_updatedAt now (f u) in
      put_users (map (fun x => if user_matches (where_id i) x then u' else x) us) ;;;
      ret u'
  end.

(** [delete({ where: { id } })]; the relation is [onDelete: Cascade]. *)
Definition delete (i : Uuid) : Async unit :=
  logged user_delete ;;;
  us <- get_users ;;
  match find (user_matches (where_id i)) us with
  | None => throw (prisma_error "P2025" "User")
  | Some _ =>
      rs <- get_refreshTokens ;;
      put_users (filter (fun x => negb (user_matches (where_id i) x)) us) ;;;
      put_refreshTokens
        (filter (fun r => negb (Nat.eqb (RefreshToken.userId r) i)) rs)
  end.

End user.

Module refreshToken.

Definition has_token (t : JwtString) (r : RefreshToken.t) : bool :=
  if JwtString_eq_dec (RefreshToken.token r) t then true else false.

(** [findUnique({ where: { token }, include: { user: true } })] *)
Definition findUnique (t : JwtString)
  : Async (option (RefreshToken.t * User.t)) :=
  logged refreshToken_findUnique ;;;
  rs <- get_refreshTokens ;;
  match find (has_token t) rs with
  | None => ret None
  | Some r =>
      us <- get_users ;;
      match find (user_matches (where_id (RefreshToken.userId r))) us with
      | Some u => ret (Some (r, u))
      | None => throw prisma_inconsistent
      end
  end.

(** [create({ data: { token, userId, expiresAt } })]: [token] is
    [@unique], [userId] references [users.id]. *)
Definition create (t : JwtString) (userId : Uuid) (expiresAt : Z) (now : Z)
  : Async RefreshToken.t :=
  logged refreshToken_create ;;;
  rs <- get_refreshTokens ;;
  us <- get_users ;;
  if existsb (has_token t) rs
  then throw (prisma_error "P2002" "token")
  else if negb (existsb (user_matches (where_id userId)) us)
  then throw (prisma_error "P2003" "user_id")
  else
    i <- uuid ;;
    let r := RefreshToken.mk i t userId expiresAt false now in
    put_refreshTokens (rs ++ [r]) ;;;
    ret r.

(** [update({ where: { id }, data: { isRevoked: true } })] *)
Definition update_revoke (i : Uuid) : Async unit :=
  logged refreshToken_update ;;;
  rs <- get_refreshTokens ;;
  if existsb (fun r => Nat.eqb (RefreshToken.id r) i) rs
  then put_refreshTokens
         (map (fun r => if Nat.eqb (RefreshToken.id r) i
                        then RefreshToken.revoke r else r) rs)
  else throw (prisma_error "P2025" "RefreshToken").

(** [updateMany({ where, data: { isRevoked: true } })]: never throws on
    an empty match. *)
Definition updateMany_revoke (where_ : RefreshToken.t -> bool) : Async unit :=
  logged refreshToken_updateMany ;;;
  rs <- get_refreshTokens ;;
  put_refreshTokens
    (map (fun r => if where_ r then RefreshToken.revoke r else r) rs).

End refreshToken.

End prisma.

(* ===================================================================== *)
(** ** 4. [utils/password.ts] and [config/index.ts] *)
(* ===================================================================== *)

Definition SALT_ROUNDS : nat := 12.

(** [bcrypt.hash(password, SALT_ROUNDS)]; the salt is drawn at random by the
    library and so is an input here. *)
Definition hashPassword (salt password : string) : Bcrypt.hash :=
  Bcrypt.mk SALT_ROUNDS salt password.

(** The key material bcrypt reads from a password: the bytes of the
    password followed by a NUL byte, repeated cyclically, of which the key
    schedule consumes the first 72.  Passwords that agree on these 72 bytes
    have the same digest under the same salt and cost. *)
Fixpoint cycle_take (n : nat) (whole rest : list ascii) : list ascii :=
  match n with
  | O => []
  | S n' =>
      match rest with
      | c :: rest' => c :: cycle_take n' whole rest'
      | [] =>
          match whole with
          | c :: whole' => c :: cycle_take n' whole whole'
          | [] => []
          end
      end
  end.

Definition bcrypt_key (password : string) : string :=
  let bytes := (list_ascii_of_string password ++ [Ascii.zero])%list in
  string_of_list_ascii (cycle_take 72 bytes bytes).

(** [bcrypt.compare(password, hashedPassword)]: the digest is recomputed
    from [password] with the salt and cost of [hashedPassword] and compared. *)
Definition verifyPassword (password : string) (hashedPassword : Bcrypt.hash) : bool :=
  String.eqb (bcrypt_key password) (bcrypt_key (Bcrypt.digest_of hashedPassword)).

(** The [jwt] block of the configuration snapshot.  [getEnvVar] refuses an
    empty [JWT_SECRET], so [secret] is never the empty string. *)
Module config.
Record jwt : Type := mk {
  secret : string;
  accessTokenExpiresIn : string;
  refreshTokenExpiresIn : string
}.
End config.

(* ===================================================================== *)
(** ** 5. [services/auth.service.ts] *)
(* ===================================================================== *)

Record TokenPair : Type := mkTokenPair {
  accessToken : JwtString;
  refreshToken : JwtString
}.

(** [\d] *)
Definition is_digit (c : ascii) : bool :=
  ((48 <=? N_of_ascii c) && (N_of_ascii c <=? 57))%N.

(** [parseInt(digits, 10)] on a string of decimal digits: the integer the
    digits spell.  The code's result is the JavaScript number nearest to
    it, which is that integer as long as it is at most 2^53; what is proved
    of the value of a parse below is proved inside that range. *)
Definition parseInt (digits : list ascii) : Z :=
  fold_left (fun acc c => 10 * acc + (Z.of_N (N_of_ascii c) - 48)) digits 0.

(** [parseDuration]: the pattern [/^(\d+)([smhd])$/] is one or more digits
    followed by exactly one unit letter; anything else is 900. *)
Definition parseDuration (duration : string) : Z :=
  match rev (list_ascii_of_string duration) with
  | unit :: (_ :: _) as rdigits =>
      if forallb is_digit rdigits then
        let value := parseInt (rev rdigits) in
        if Ascii.eqb unit "s" then value
        else if Ascii.eqb unit "m" then value * 60
        else if Ascii.eqb unit "h" then value * 60 * 60
        else if Ascii.eqb unit "d" then value * 60 * 60 * 24
        else 900
      else 900
  | _ => 900
  end.

(** The time zone of the Node process, as ECMAScript's [Date] sees it:
    [LocalTZA tz t isUTC] is the offset of local time from UTC in
    milliseconds, at the UTC instant [t] when [isUTC] holds and at the local
    time value [t] otherwise. *)
Record TimeZone : Type := mkTimeZone { LocalTZA : Z -> bool -> Z }.

Definition msPerDay : Z := 86400000.

(** ECMAScript's [LocalTime(t)] and [UTC(t)]. *)
Definition LocalTime (tz : TimeZone) (t : Z) : Z := t + LocalTZA tz t true.
Definition UTC (tz : TimeZone) (t : Z) : Z := t - LocalTZA tz t false.

(** [d.setDate(d.getDate() + days)] on the time value [d]: the day of the
    month is read and written in local time, so the date moves by [days]
    local calendar days at the same wall-clock time ([MakeDay] adds [days]
    to the day number of the local time value), and the result is converted
    back to UTC with the offset in force at that local time. *)
Definition setDate_getDate_plus (tz : TimeZone) (days : Z) (d : Z) : Z :=
  UTC tz (LocalTime tz d + days * msPerDay).

(** A zone whose offset never changes; [Etc_UTC] is the one with offset 0. *)
Definition fixed_offset (offset : Z) : TimeZone := mkTimeZone (fun _ _ => offset).
Definition Etc_UTC : TimeZone := fixed_offset 0.

(** A zone whose offset changes once, at the UTC instant [transition], from
    [before] to [after] (a daylight-saving change).  A local time that the
    change skips or repeats is read with the offset in force before it. *)
Definition one_transition (transition before after : Z) : TimeZone :=
  mkTimeZone (fun t isUTC =>
    if isUTC
    then if t <? transition then before else after
    else if t <? transition + Z.max before after then before else after).

(** [Number.MAX_SAFE_INTEGER], 2^53 - 1: the non-negative integers up to
    2^53 are JavaScript numbers, and sums and products of them that stay in
    that range are computed exactly. *)
Definition MAX_SAFE_INTEGER : Z := 9007199254740991.

(** What the service reads from the process it runs in: the [jwt] block of
    the configuration snapshot and the time zone. *)
Record Host : Type := mkHost { host_jwt :> config.jwt; TZ : TimeZone }.

Definition generateTokens (cfg : Host) (now : Z)
           (id : Uuid) (email : string) (role : Role) : Async TokenPair :=
  let accessPayload := TokenPayload.mk id email role access in
  let refreshPayload := TokenPayload.mk id email role refresh in
  let accessExpiresIn := parseDuration (config.accessTokenExpiresIn cfg) in
  let refreshExpiresIn := parseDuration (config.refreshTokenExpiresIn cfg) in
  let accessToken := jwt_sign accessPayload (config.secret cfg) accessExpiresIn now in
  let refreshToken := jwt_sign refreshPayload (config.secret cfg) refreshExpiresIn now in
  let expiresAt := setDate_getDate_plus (TZ cfg) 7 now in
  _ <- prisma.refreshToken.create refreshToken id expiresAt now ;;
  ret (mkTokenPair accessToken refreshToken).

(** Values that occur in the objects the service returns. *)
Inductive JsValue : Type :=
| VUndefined
| VNull
| VBool (b : bool)
| VString (s : string)
| VUuid (i : Uuid)
| VRole (r : Role)
| VDate (ms : Z)
| VHash (h : Bcrypt.hash)
| VToken (t : JwtString)
| VArray (items : list JsValue)
| VObject (fields : list (string * JsValue)).

Definition JsObject : Type := list (string * JsValue).

(** Property access [o.k]; a missing property reads as [undefined]. *)
Fixpoint get (o : JsObject) (k : string) : JsValue :=
  match o with
  | [] => VUndefined
  | (k', v) :: o' => if String.eqb k' k then v else get o' k
  end.

Definition keys (o : JsObject) : list string := List.map fst o.

Definition nullable (v : option string) : JsValue :=
  match v with Some s => VString s | None => VNull end.

Definition nullable_date (v : option Z) : JsValue :=
  match v with Some d => VDate d | None => VNull end.

(** The object Prisma returns for a [users] row: every scalar column. *)
Definition userObject (u : User.t) : JsObject :=
  [ ("id", VUuid (User.id u));
    ("email", VString (User.email u));
    ("username", VString (User.username u));
    ("passwordHash", VHash (User.passwordHash u));
    ("firstName", nullable (User.firstName u));
    ("lastName", nullable (User.lastName u));
    ("isActive", VBool (User.isActive u));
    ("isVerified", VBool (User.isVerified u));
    ("role", VRole (User.role u));
    ("lastLoginAt", nullable_date (User.lastLoginAt u));
    ("createdAt", VDate (User.createdAt u));
    ("updatedAt", VDate (User.updatedAt u)) ].

Definition toSafeUser (user : JsObject) : JsObject :=
  [ ("id", get user "id");
    ("email", get user "email");
    ("username", get user "username");
    ("firstName", get user "firstName");
    ("lastName", get user "lastName");
    ("role", get user "role");
    ("isActive", get user "isActive");
    ("isVerified", get user "isVerified");
    ("createdAt", get user "createdAt") ].

Record AuthResult : Type := mkAuthResult {
  user : JsObject;
  tokens : TokenPair
}.

Definition TokenPair_object (p : TokenPair) : JsObject :=
  [ ("accessToken", VToken (accessToken p));
    ("refreshToken", VToken (refreshToken p)) ].

(** [{ user: toSafeUser(user), tokens }] as the controller serialises it. *)
Definition AuthResult_object (r : AuthResult) : JsObject :=
  [ ("user", VObject (user r)); ("tokens", VObject (TokenPair_object (tokens r))) ].

(** Does the property [k] occur in [v] at any depth? *)
Fixpoint mentions (k : string) (v : JsValue) : bool :=
  match v with
  | VObject fields =>
      (fix go (fs : list (string * JsValue)) : bool :=
         match fs with
         | [] => false
         | (k', v') :: fs' => String.eqb k' k || mentions k v' || go fs'
         end) fields
  | VArray items =>
      (fix any (vs : list JsValue) : bool :=
         match vs with
         | [] => false
         | v' :: vs' => mentions k v' || any vs'
         end) items
  | _ => false
  end.

Record RegisterInput : Type := mkRegisterInput {
  reg_email : string;
  reg_username : string;
  reg_password : string;
  reg_firstName : option string;
  reg_lastName : option string
}.

Record LoginInput : Type := mkLoginInput {
  login_email : string;
  login_password : string
}.

Definition register (cfg : Host) (now : Z) (salt : string) (data : RegisterInput)
  : Async AuthResult :=
  existingEmail <- prisma.user.findUnique (prisma.where_email (reg_email data)) ;;
  match existingEmail with
  | Some _ => throw (new_ConflictError "Email already registered")
  | None =>
      existingUsername <-
        prisma.user.findUnique (prisma.where_username (reg_username data)) ;;
      match existingUsername with
      | Some _ => throw (new_ConflictError "Username already taken")
      | None =>
          let passwordHash := hashPassword salt (reg_password data) in
          u <- prisma.user.create (reg_email data) (reg_username data) passwordHash
                 (reg_firstName data) (reg_lastName data) now ;;
          tokens <- generateTokens cfg now (User.id u) (User.email u) (User.role u) ;;
          ret (mkAuthResult (toSafeUser (userObject u)) tokens)
      end
  end.

Definition login (cfg : Host) (now : Z) (data : LoginInput) : Async AuthResult :=
  found <- prisma.user.findUnique (prisma.where_email (login_email data)) ;;
  match found with
  | None => throw (new_AuthenticationError "Invalid email or password")
  | Some u =>
      if negb (User.isActive u)
      then throw (new_AuthenticationError "Account is disabled")
      else
        let isValidPassword := verifyPassword (login_password data) (User.passwordHash u) in
        if negb isValidPassword
        then throw (new_AuthenticationError "Invalid email or password")
        else
          _ <- prisma.user.update (User.id u) (User.set_lastLoginAt (Some now)) now ;;
          tokens <- generateTokens cfg now (User.id u) (User.email u) (User.role u) ;;
          ret (mkAuthResult (toSafeUser (userObject u)) tokens)
  end.

(** [try { payload = jwt.verify(...) } catch { throw new AuthenticationError(...) }] *)
Definition verify_refresh (cfg : config.jwt) (now : Z) (t : JwtString)
  : Completion TokenPayload.t :=
  match jwt_verify t (config.secret cfg) now with
  | Return payload => Return payload
  | Throw _ => Throw (new_AuthenticationError "Invalid refresh token")
  end.

Definition refreshAccessToken (cfg : Host) (now : Z) (refreshToken : JwtString)
  : Async TokenPair :=
  payload <- lift (verify_refresh cfg now refreshToken) ;;
  if TokenType_eq_dec (TokenPayload.type payload) refresh then
    storedToken <- prisma.refreshToken.findUnique refreshToken ;;
    match storedToken with
    | None => throw (new_AuthenticationError "Token has been revoked")
    | Some (row, owner) =>
        if RefreshToken.isRevoked row
        then throw (new_AuthenticationError "Token has been revoked")
        else if RefreshToken.expiresAt row <? now
        then throw (new_AuthenticationError "Token has expired")
        else
          prisma.refreshToken.update_revoke (RefreshToken.id row) ;;;
          generateTokens cfg now (User.id owner) (User.email owner) (User.role owner)
    end
  else throw (new_AuthenticationError "Invalid token type").

Definition logout (userId : Uuid) (refreshToken : option JwtString) : Async unit :=
  match refreshToken with
  | Some t =>
      if truthy t
      then prisma.refreshToken.updateMany_revoke
             (fun r => prisma.refreshToken.has_token t r
                       && Nat.eqb (RefreshToken.userId r) userId)
      else prisma.refreshToken.updateMany_revoke
             (fun r => Nat.eqb (RefreshToken.userId r) userId)
  | None =>
      prisma.refreshToken.updateMany_revoke
        (fun r => Nat.eqb (RefreshToken.userId r) userId)
  end.

Definition getCurrentUser (userId : Uuid) : Async JsObject :=
  found <- prisma.user.findUnique (prisma.where_id userId) ;;
  match found with
  | None => throw (new_NotFoundError "User")
  | Some u => ret (toSafeUser (userObject u))
  end.

(* ===================================================================== *)
(** ** 6. [middleware/auth.middleware.ts] *)
(* ===================================================================== *)

(** The [Authorization] header: ["Bearer " + rest], or a string that does
    not start with ["Bearer "]. *)
Inductive AuthorizationHeader : Type :=
| Bearer (rest : JwtString)
| NotBearer (s : string).

Record Request : Type := mkRequest {
  authorization : option AuthorizationHeader
}.

Record RequestUser : Type := mkRequestUser {
  ru_id : Uuid;
  ru_email : string;
  ru_role : Role
}.

(** What the middleware hands to [next]: nothing, after attaching
    [req.user], or an error. *)
Inductive Next : Type :=
| next (attached : RequestUser)
| next_error (e : JsError).

Definition extractToken (req : Request) : option JwtString :=
  match authorization req with
  | Some (Bearer rest) => Some rest
  | _ => None
  end.

(** The body of the [try] block of [authenticate]. *)
Definition authenticate_try (cfg : config.jwt) (now : Z) (req : Request)
  : Async RequestUser :=
  match extractToken req with
  | None => throw (new_AuthenticationError "No token provided")
  | Some token =>
      if negb (truthy token)
      then throw (new_AuthenticationError "No token provided")
      else
        payload <- lift (jwt_verify token (config.secret cfg) now) ;;
        if TokenType_eq_dec (TokenPayload.type payload) access then
          found <- prisma.user.findUnique (prisma.where_id (TokenPayload.sub payload)) ;;
          match found with
          | None => throw (new_AuthenticationError "User not found or inactive")
          | Some u =>
              if negb (User.isActive u)
              then throw (new_AuthenticationError "User not found or inactive")
              else ret (mkRequestUser (User.id u) (User.email u) (User.role u))
          end
        else throw (new_AuthenticationError "Invalid token type")
  end.

(** The [catch] block of [authenticate], tests in source order. *)
Definition authenticate_catch (error : JsError) : Next :=
  if instanceof error JsonWebTokenError
  then next_error (new_AuthenticationError "Invalid token")
  else if instanceof error TokenExpiredError
  then next_error (new_AuthenticationError "Token expired")
  else next_error error.

Definition authenticate (cfg : config.jwt) (now : Z) (req : Request) (s : Db)
  : Db * Next :=
  match authenticate_try cfg now req s with
  | (s', Return u) => (s', next u)
  | (s', Throw error) => (s', authenticate_catch error)
  end.

Definition Role_eqb (a b : Role) : bool :=
  if Role_eq_dec a b then true else false.

(** [authorize(allowedRoles)] applied to a request whose [req.user] is
    [attached]. *)
Definition authorize (allowedRoles : list Role) (attached : option RequestUser)
  : option JsError :=
  match attached with
  | None => Some (new_AuthenticationError "User not authenticated")
  | Some u =>
      if negb (existsb (Role_eqb (ru_role u)) allowedRoles)
      then Some (new_AuthorizationError "Insufficient permissions")
      else None
  end.

(* ===================================================================== *)
(** ** 7. [services/user.service.ts]: the other writers of the store *)
(* ===================================================================== *)

Record UpdateUserInput : Type := mkUpdateUserInput {
  upd_email : option string;
  upd_username : option string;
  upd_firstName : option string;
  upd_lastName : option string;
  upd_isActive : option bool
}.

Definition apply_opt {A} (v : option A) (set : A -> User.t -> User.t) (u : User.t)
  : User.t :=
  match v with Some a => set a u | None => u end.

(** [data] of [prisma.user.update({ where: { id }, data })] in [updateUser]:
    an [undefined] property leaves the column as it is. *)
Definition apply_update (data : UpdateUserInput) (u : User.t) : User.t :=
  apply_opt (upd_isActive data) User.set_isActive
    (apply_opt (upd_lastName data) (fun v => User.set_lastName (Some v))
       (apply_opt (upd_firstName data) (fun v => User.set_firstName (Some v))
          (apply_opt (upd_username data) User.set_username
             (apply_opt (upd_email data) User.set_email u)))).

(** [data.email && data.email !== existing.email] *)
Definition changes (v : option string) (current : string) : option string :=
  match v with
  | Some x => if String.eqb x "" then None
              else if String.eqb x current then None else Some x
  | None => None
  end.

Definition updateUser (now : Z) (id : Uuid) (data : UpdateUserInput) : Async unit :=
  existing <- prisma.user.findUnique (prisma.where_id id) ;;
  match existing with
  | None => throw (new_NotFoundError "User")
  | Some e =>
      emailExists <-
        match changes (upd_email data) (User.email e) with
        | Some x => prisma.user.findUnique (prisma.where_email x)
        | None => ret None
        end ;;
      match emailExists with
      | Some _ => throw (new_ConflictError "Email already in use")
      | None =>
          usernameExists <-
            match changes (upd_username data) (User.username e) with
            | Some x => prisma.user.findUnique (prisma.where_username x)
            | None => ret None
            end ;;
          match usernameExists with
          | Some _ => throw (new_ConflictError "Username already in use")
          | None =>
              _ <- prisma.user.update id (apply_update data) now ;;
              ret tt
          end
      end
  end.

Definition deleteUser (now : Z) (id : Uuid) : Async unit :=
  found <- prisma.user.findUnique (prisma.where_id id) ;;
  match found with
  | None => throw (new_NotFoundError "User")
  | Some _ =>
      _ <- prisma.user.update id (User.set_isActive false) now ;;
      ret tt
  end.

Definition hardDeleteUser (id : Uuid) : Async unit :=
  found <- prisma.user.findUnique (prisma.where_id id) ;;
  match found with
  | None => throw (new_NotFoundError "User")
  | Some _ => prisma.user.delete id
  end.

(* ===================================================================== *)
(** ** 8. Runs of the service *)
(* ===================================================================== *)

(** The entry points that reach the database. *)
Inductive Op : Type :=
| op_register (salt : string) (data : RegisterInput)
| op_login (data : LoginInput)
| op_refresh (t : JwtString)
| op_logout (userId : Uuid) (t : option JwtString)
| op_getCurrentUser (userId : Uuid)
| op_authenticate (req : Request)
| op_updateUser (id : Uuid) (data : UpdateUserInput)
| op_deleteUser (id : Uuid)
| op_hardDeleteUser (id : Uuid).

(** The store after one call made at time [now], whatever its outcome. *)
Definition exec (cfg : Host) (now : Z) (op : Op) (s : Db) : Db :=
  match op with
  | op_register salt data => fst (register cfg now salt data s)
  | op_login data => fst (login cfg now data s)
  | op_refresh t => fst (refreshAccessToken cfg now t s)
  | op_logout userId t => fst (logout userId t s)
  | op_getCurrentUser userId => fst (getCurrentUser userId s)
  | op_authenticate req => fst (authenticate cfg now req s)
  | op_updateUser id data => fst (updateUser now id data s)
  | op_deleteUser id => fst (deleteUser now id s)
  | op_hardDeleteUser id => fst (hardDeleteUser id s)
  end.

(** A run is a list of calls, each stamped with the time it is made at. *)
Fixpoint run (cfg : Host) (trace : list (Z * Op)) (s : Db) : Db :=
  match trace with
  | [] => s
  | (now, op) :: rest => run cfg rest (exec cfg now op s)
  end.

(** Time does not go backwards along a run that starts at [clock]. *)
Fixpoint chronological (clock : Z) (trace : list (Z * Op)) : Prop :=
  match trace with
  | [] => True
  | (now, _) :: rest => clock <= now /\ chronological now rest
  end.

(** The time of the last call of a run that starts at [clock]. *)
Fixpoint end_of (clock : Z) (trace : list (Z * Op)) : Z :=
  match trace with
  | [] => clock
  | (now, _) :: rest => end_of now rest
  end.

(** *** Invariants of the store *)

(** The row was written by [generateTokens]: its token is signed with the
    configured secret for the owner of the row, no later than [clock]. *)
Definition issued (cfg : config.jwt) (clock : Z) (r : RefreshToken.t) : Prop :=
  exists payload iat exp,
    RefreshToken.token r = Jws (config.secret cfg) payload iat exp
    /\ TokenPayload.sub payload = RefreshToken.userId r
    /\ iat <= clockTimestamp clock.

Record wf (cfg : config.jwt) (clock : Z) (s : Db) : Prop := mk_wf {
  wf_issued : Forall (issued cfg clock) (refreshTokens s);
  wf_unique : NoDup (List.map RefreshToken.token (refreshTokens s));
  wf_owner : forall r, In r (refreshTokens s) ->
             exists u, In u (users s) /\ User.id u = RefreshToken.userId r;
  wf_ids : forall u, In u (users s) -> (User.id u < nextUuid s)%nat
}.

(** [t] can never again pass the store check: either its row is there and
    revoked, or the row went away together with its owner, whose identifier
    is never drawn again. *)
Definition dead (t : JwtString) (s : Db) : Prop :=
  match t with
  | NotJws _ => True
  | Jws _ payload _ _ =>
      (TokenPayload.sub payload < nextUuid s)%nat
      /\ (forall r, In r (refreshTokens s) -> RefreshToken.token r = t ->
                    RefreshToken.isRevoked r = true
                    /\ RefreshToken.userId r = TokenPayload.sub payload)
      /\ ((exists r, In r (refreshTokens s) /\ RefreshToken.token r = t)
          \/ (forall u, In u (users s) -> User.id u <> TokenPayload.sub payload))
  end.

(** The row stored for [t], as [findUnique] sees it. *)
Definition stored (t : JwtString) (s : Db) : option RefreshToken.t :=
  find (prisma.refreshToken.has_token t) (refreshTokens s).

(** The check of [refreshAccessToken] on the stored expiry. *)
Definition elapsed (expiresAt now : Z) : bool := expiresAt <? now.

(** *** A scenario used by the examples *)

Definition cfg0 : Host := mkHost (config.mk "s3cret" "15m" "7d") Etc_UTC.

Definition alice : RegisterInput :=
  mkRegisterInput "a@x.com" "alice" "Passw0rd" None None.

Definition bob : RegisterInput :=
  mkRegisterInput "b@x.com" "bob" "Passw0rd" None None.

(** Alice registers at t = 5 s and Bob at t = 6 s. *)
Definition db_two_users : Db :=
  run cfg0 [(5000, op_register "salt-a" alice); (6000, op_register "salt-b" bob)] empty_db.

Definition alice_refresh_token : JwtString :=
  Jws "s3cret" (TokenPayload.mk 0%nat "a@x.com" USER refresh) 5 604805.

Definition alice_access_token : JwtString :=
  Jws "s3cret" (TokenPayload.mk 0%nat "a@x.com" USER access) 5 905.

Definition bob_refresh_token : JwtString :=
  Jws "s3cret" (TokenPayload.mk 2%nat "b@x.com" USER refresh) 6 604806.

(** *** Stores and tokens named in the statements *)

Definition log_call (c : DbCall) (s : Db) : Db :=
  mkDb (users s) (refreshTokens s) (nextUuid s) (calls s ++ [c]).

(** The store after [update({ where: { id }, data: { isRevoked: true } })]. *)
Definition revoke_by_id (i : Uuid) (s : Db) : Db :=
  mkDb (users s)
       (List.map (fun r => if Nat.eqb (RefreshToken.id r) i
                           then RefreshToken.revoke r else r) (refreshTokens s))
       (nextUuid s) (calls s ++ [refreshToken_update]).

(** The refresh token [generateTokens] signs for [owner] at [now]. *)
Definition minted (cfg : config.jwt) (now : Z) (id : Uuid) (email : string)
           (role : Role) : TokenPair :=
  mkTokenPair
    (jwt_sign (TokenPayload.mk id email role access) (config.secret cfg)
              (parseDuration (config.accessTokenExpiresIn cfg)) now)
    (jwt_sign (TokenPayload.mk id email role refresh) (config.secret cfg)
              (parseDuration (config.refreshTokenExpiresIn cfg)) now).

Definition minted_row (cfg : Host) (now : Z) (id : Uuid) (email : string)
           (role : Role) (s : Db) : RefreshToken.t :=
  RefreshToken.mk (nextUuid s) (refreshToken (minted cfg now id email role)) id
                  (setDate_getDate_plus (TZ cfg) 7 now) false now.

(** A user reaches the client through [register], [login] or
    [getCurrentUser] (the [/auth/me] handler): [data] is what the controller
    sends back, [projection] the user object inside it. *)
Inductive serializes (cfg : Host) (s : Db) : JsValue -> JsObject -> Prop :=
| by_register now salt data r :
    snd (register cfg now salt data s) = Return r ->
    serializes cfg s (VObject (AuthResult_object r)) (user r)
| by_login now data r :
    snd (login cfg now data s) = Return r ->
    serializes cfg s (VObject (AuthResult_object r)) (user r)
| by_getCurrentUser userId o :
    snd (getCurrentUser userId s) = Return o ->
    serializes cfg s (VObject o) o.

(** A token pair is issued at [now] by [register], [login] or
    [refreshAccessToken], leaving the store [s']. *)
Inductive issuance (cfg : Host) (now : Z) (s : Db) : Db -> TokenPair -> Prop :=
| issued_by_register salt data s' r :
    register cfg now salt data s = (s', Return r) -> issuance cfg now s s' (tokens r)
| issued_by_login data s' r :
    login cfg now data s = (s', Return r) -> issuance cfg now s s' (tokens r)
| issued_by_refresh t s' pair :
    refreshAccessToken cfg now t s = (s', Return pair) -> issuance cfg now s s' pair.

Definition email_taken (e : string) (s : Db) : bool :=
  existsb (prisma.user_matches (prisma.where_email e)) (users s).

Definition username_taken (n : string) (s : Db) : bool :=
  existsb (prisma.user_matches (prisma.where_username n)) (users s).

(** The account that [login] finds for an e-mail address. *)
Definition account (e : string) (s : Db) : option User.t :=
  find (prisma.user_matches (prisma.where_email e)) (users s).

(** Alice registers at t = 5 s and logs in again at t = 8 s: two sessions. *)
Definition db_two_sessions : Db :=
  run cfg0 [(5000, op_register "salt-a" alice);
            (8000, op_login (mkLoginInput "a@x.com" "Passw0rd"))] empty_db.

(** Alice registers at t = 5 s and is deactivated at t = 5.2 s. *)
Definition db_disabled : Db :=
  run cfg0 [(5000, op_register "salt-a" alice); (5200, op_deleteUser 0%nat)] empty_db.

(** The store with the account [i] switched to [isActive = b]. *)
Definition with_isActive (i : Uuid) (b : bool) (s : Db) : Db :=
  mkDb (List.map (fun u => if Nat.eqb (User.id u) i then User.set_isActive b u else u)
                 (users s))
       (refreshTokens s) (nextUuid s) (calls s).

(** The validity window a signed token carries, in seconds. *)
Definition embedded_window (t : JwtString) : option Z :=
  match t with
  | Jws _ _ iat exp => Some (exp - iat)
  | NotJws _ => None
  end.

(** [TZ=America/New_York] around 8 March 2026, when the clocks go forward
    at 07:00 UTC, from UTC-5 to UTC-4. *)
Definition America_New_York : TimeZone :=
  one_transition 1772953200000 (-18000000) (-14400000).

(** A deployment with [JWT_REFRESH_TOKEN_EXPIRES_IN=167h] on such a host. *)
Definition host_dst : Host :=
  mkHost (config.mk "s3cret" "15m" "167h") America_New_York.

(** The same deployment with [JWT_REFRESH_TOKEN_EXPIRES_IN=1d]. *)
Definition cfg1 : Host := mkHost (config.mk "s3cret" "15m" "1d") Etc_UTC.

(** Under [cfg1], Alice registers at t = 5 s. *)
Definition db_short : Db := run cfg1 [(5000, op_register "salt-a" alice)] empty_db.

(** Under [cfg1], Alice registers at t = 5 s and is deactivated at t = 5.2 s. *)
Definition db_short_disabled : Db :=
  run cfg1 [(5000, op_register "salt-a" alice); (5200, op_deleteUser 0%nat)] empty_db.

Definition alice_short_token : JwtString :=
  Jws "s3cret" (TokenPayload.mk 0%nat "a@x.com" USER refresh) 5 86405.

(* --------------------------------------------------------------------- *)
(** *** [utils/response.ts], [middleware/error.middleware.ts],
        [controllers/auth.controller.ts] and [config/index.ts] *)
(* --------------------------------------------------------------------- *)

(** [res.status(statusCode).json(response)], or [res.status(204).send()]
    with no body. *)
Record HttpResponse : Type := mkHttpResponse {
  status : Z;
  json : option JsValue
}.

Definition sendSuccess (data : JsValue) (msg : string) (statusCode : Z) : HttpResponse :=
  mkHttpResponse statusCode
    (Some (VObject [("success", VBool true); ("message", VString msg); ("data", data)])).

Definition sendCreated (data : JsValue) (msg : string) : HttpResponse :=
  sendSuccess data msg 201.

Definition sendNoContent : HttpResponse := mkHttpResponse 204 None.

(** [sendError(res, message, statusCode = 500, errors?)]: an [undefined]
    status takes the default, a present [errors] object is attached. *)
Definition sendError (msg : string) (statusCode : option Z) (errors : option JsValue)
  : HttpResponse :=
  mkHttpResponse
    (match statusCode with Some c => c | None => 500 end)
    (Some (VObject ([("success", VBool false); ("message", VString msg)]
                    ++ match errors with
                       | Some v => [("errors", v)]
                       | None => []
                       end))).

(** [err.name]: the library classes set it, the classes of
    [utils/errors.ts] inherit ["Error"]. *)
Definition name (e : JsError) : string :=
  match err_class e with
  | JsonWebTokenError => "JsonWebTokenError"
  | TokenExpiredError => "TokenExpiredError"
  | NotBeforeError => "NotBeforeError"
  | PrismaClientKnownRequestError => "PrismaClientKnownRequestError"
  | PrismaClientUnknownRequestError => "PrismaClientUnknownRequestError"
  | TypeError => "TypeError"
  | _ => "Error"
  end.

(** A [ZodIssue], as far as the two formatters read it: [path], whose
    elements are property names and array indices, and [message]. *)
Inductive PathSegment : Type :=
| seg_key (property : string)
| seg_index (i : N).

Record ZodIssue : Type := mkZodIssue {
  issue_path : list PathSegment;
  issue_message : string
}.

(** What [Array.prototype.join] makes of a path element. *)
Definition segment_string (p : PathSegment) : string :=
  match p with
  | seg_key property => property
  | seg_index i => NilEmpty.string_of_uint (N.to_uint i)
  end.

(** [err.path.join('.') || fallback]; [formatZodErrors] has no fallback,
    which is the fallback [""]. *)
Definition issue_key (fallback : string) (err : ZodIssue) : string :=
  let joined := String.concat "." (List.map segment_string (issue_path err)) in
  if String.eqb joined "" then fallback else joined.

(** The [errors] object under construction: its own properties, in the
    order [JSON.stringify] visits them. *)
Definition ErrorsRecord : Type := list (string * list string).

(** An own property name that is an array index, the canonical decimal
    form of an integer below 2^32 - 1.  Such properties come first, in
    ascending order; the others follow in the order of their creation. *)
Definition array_index (k : string) : option N :=
  match NilEmpty.uint_of_string k with
  | Some d =>
      let n := N.of_uint d in
      if String.eqb (NilEmpty.string_of_uint (N.to_uint n)) k && (n <? 4294967295)%N
      then Some n
      else None
  | None => None
  end.

Definition own_property (k : string) (o : ErrorsRecord) : option (list string) :=
  option_map snd (find (fun kv => String.eqb (fst kv) k) o).

Fixpoint insert_index (n : N) (k : string) (v : list string) (o : ErrorsRecord)
  : ErrorsRecord :=
  match o with
  | [] => [(k, v)]
  | kv :: o' =>
      match array_index (fst kv) with
      | Some n' => if (n' <? n)%N then kv :: insert_index n k v o' else (k, v) :: o
      | None => (k, v) :: o
      end
  end.

(** [errors[k] = v] for a [k] that is not yet an own property. *)
Definition define_property (k : string) (v : list string) (o : ErrorsRecord)
  : ErrorsRecord :=
  match array_index k with
  | Some n => insert_index n k v o
  | None => (o ++ [(k, v)])%list
  end.

(** [errors[k].push(m)] for an own property [k]. *)
Definition push_property (k : string) (m : string) (o : ErrorsRecord) : ErrorsRecord :=
  List.map (fun kv => if String.eqb (fst kv) k then (fst kv, (snd kv ++ [m])%list) else kv)
           o.

(** The properties an object literal inherits from [Object.prototype].
    [errors[path]] finds the inherited value for these names: it is truthy,
    so no array is stored, and it has no [push]. *)
Definition Object_prototype_names : list string :=
  [ "constructor"; "__defineGetter__"; "__defineSetter__"; "hasOwnProperty";
    "__lookupGetter__"; "__lookupSetter__"; "isPrototypeOf";
    "propertyIsEnumerable"; "toString"; "valueOf"; "__proto__"; "toLocaleString" ].

Definition inherited (k : string) : bool :=
  existsb (String.eqb k) Object_prototype_names.

(** What [errors[path].push(...)] throws when [errors[path]] is an
    inherited value. *)
Definition push_is_not_a_function : JsError :=
  mkJsError TypeError "errors[path].push is not a function" None None.

(** The loop shared by [formatZodErrors] and [validate]:
    [issues.forEach(err => { if (!errors[path]) errors[path] = [];
    errors[path].push(err.message) })]. *)
Fixpoint collect_issues (fallback : string) (issues : list ZodIssue)
         (errors : ErrorsRecord) : Completion ErrorsRecord :=
  match issues with
  | [] => Return errors
  | err :: rest =>
      let path := issue_key fallback err in
      match own_property path errors with
      | Some _ =>
          collect_issues fallback rest (push_property path (issue_message err) errors)
      | None =>
          if inherited path
          then Throw push_is_not_a_function
          else collect_issues fallback rest
                 (define_property path [issue_message err] errors)
      end
  end.

Definition formatZodErrors (issues : list ZodIssue) : Completion ErrorsRecord :=
  collect_issues "" issues [].

(** An [errors] object that is made of [issues]: every property is the
    key of an issue and holds one or more messages, each the message of an
    issue with that key; no property shadows an inherited one. *)
Definition collected (fallback : string) (issues : list ZodIssue)
           (errors : ErrorsRecord) : Prop :=
  forall k msgs,
    In (k, msgs) errors ->
    inherited k = false
    /\ msgs <> []
    /\ forall m, In m msgs ->
         exists i, In i issues /\ issue_key fallback i = k /\ issue_message i = m.

(** A [Record<string, string[]>] as a value. *)
Definition errors_value (errors : ErrorsRecord) : JsValue :=
  VObject (List.map (fun kv => (fst kv, VArray (List.map VString (snd kv)))) errors).

(** What reaches [errorHandler]: a [ZodError] with its issues, an error
    object of one of the classes above together with its [errors] property,
    if it has one, or a [PrismaClientValidationError]. *)
Inductive CaughtError : Type :=
| caught_ZodError (issues : list ZodIssue)
| caught (err : JsError) (errors : option JsValue)
| caught_PrismaClientValidationError (msg : string).

(** The tests of [errorHandler] that follow the one for [ZodError], on an
    error object of one of the classes above. *)
Definition errorHandler_on (isProduction : bool) (err : JsError)
           (errors : option JsValue) : HttpResponse :=
  if instanceof err ValidationError
  then sendError (message err) (statusCode err) errors
  else if instanceof err AppError
  then sendError (message err) (statusCode err) None
  else if instanceof err PrismaClientKnownRequestError
  then match code err with
       | Some "P2002" => sendError "A record with this value already exists" (Some 409) None
       | Some "P2025" => sendError "Record not found" (Some 404) None
       | Some "P2003" => sendError "Related record not found" (Some 400) None
       | _ => sendError "Database error" (Some 500) None
       end
  else if String.eqb (name err) "JsonWebTokenError"
  then sendError "Invalid token" (Some 401) None
  else if String.eqb (name err) "TokenExpiredError"
  then sendError "Token expired" (Some 401) None
  else sendError (if isProduction then "Internal server error" else message err)
                 (Some 500) None.

(** [errorHandler]: it returns the response it has sent, or throws what
    [formatZodErrors] throws. *)
Definition errorHandler (isProduction : bool) (c : CaughtError)
  : Completion HttpResponse :=
  match c with
  | caught_ZodError issues =>
      match formatZodErrors issues with
      | Return errors =>
          Return (sendError "Validation failed" (Some 400) (Some (errors_value errors)))
      | Throw e => Throw e
      end
  | caught err errors => Return (errorHandler_on isProduction err errors)
  | caught_PrismaClientValidationError _ =>
      Return (sendError "Invalid data provided" (Some 400) None)
  end.

(** A thrown error as [next(error)] passes it on, and what [errorHandler]
    answers: none of the errors of the services is a [ZodError] or carries
    an [errors] property. *)
Definition next_to_errorHandler (isProduction : bool) (e : JsError) : HttpResponse :=
  errorHandler_on isProduction e None.

(** What [schema.parseAsync(req[source])] settles to: the validated value,
    or a [ZodError] with its issues. *)
Inductive Parsed (A : Type) : Type :=
| parsed (value : A)
| ZodError (issues : list ZodIssue).
Arguments parsed {A} value.
Arguments ZodError {A} issues.

(** [validate(schema, source)] once [parseAsync] has settled: it calls
    [next()] with the validated value in place of [req[source]], or sends
    the 400 answer itself; what the loop throws rejects the promise the
    middleware returned, and nothing is sent. *)
Inductive Validated (A : Type) : Type :=
| validated_next (value : A)
| validated_sent (response : HttpResponse).
Arguments validated_next {A} value.
Arguments validated_sent {A} response.

Definition validate {A : Type} (source : string) (outcome : Parsed A)
  : Completion (Validated A) :=
  match outcome with
  | parsed value => Return (validated_next value)
  | ZodError issues =>
      match collect_issues source issues [] with
      | Return errors =>
          Return (validated_sent
                    (sendError "Validation failed" (Some 400) (Some (errors_value errors))))
      | Throw e => Throw e
      end
  end.

(** The issues [logoutSchema], [z.object({ refreshToken:
    z.string().optional() })], can report: one at the root, when the body is
    not an object, or one at [refreshToken], when that is not a string. *)
Definition logoutSchema_issue (err : ZodIssue) : Prop :=
  issue_path err = [] \/ issue_path err = [seg_key "refreshToken"].

(** [controllers/auth.controller.ts]: each handler answers or calls
    [next(error)], which Express routes to [errorHandler]. *)
Module authService.
Definition register := register.
Definition login := login.
Definition refreshAccessToken := refreshAccessToken.
Definition logout := logout.
Definition getCurrentUser := getCurrentUser.
End authService.

Module authController.

Definition register (isProduction : bool) (cfg : Host) (now : Z) (salt : string)
           (body : RegisterInput) (s : Db) : Db * HttpResponse :=
  match authService.register cfg now salt body s with
  | (s', Return result) =>
      (s', sendCreated (VObject (AuthResult_object result)) "User registered successfully")
  | (s', Throw error) => (s', next_to_errorHandler isProduction error)
  end.

Definition login (isProduction : bool) (cfg : Host) (now : Z)
           (body : LoginInput) (s : Db) : Db * HttpResponse :=
  match authService.login cfg now body s with
  | (s', Return result) =>
      (s', sendSuccess (VObject (AuthResult_object result)) "Login successful" 200)
  | (s', Throw error) => (s', next_to_errorHandler isProduction error)
  end.

Definition refresh (isProduction : bool) (cfg : Host) (now : Z)
           (body_refreshToken : JwtString) (s : Db) : Db * HttpResponse :=
  match authService.refreshAccessToken cfg now body_refreshToken s with
  | (s', Return tokens) =>
      (s', sendSuccess (VObject (TokenPair_object tokens)) "Token refreshed successfully" 200)
  | (s', Throw error) => (s', next_to_errorHandler isProduction error)
  end.

(** [req.user] is what [authenticate] attached, if anything. *)
Definition logout (isProduction : bool) (req_user : option RequestUser)
           (body_refreshToken : option JwtString) (s : Db) : Db * HttpResponse :=
  match req_user with
  | None => (s, sendNoContent)
  | Some u =>
      match authService.logout (ru_id u) body_refreshToken s with
      | (s', Return _) => (s', sendNoContent)
      | (s', Throw error) => (s', next_to_errorHandler isProduction error)
      end
  end.

Definition me (isProduction : bool) (req_user : option RequestUser) (s : Db)
  : Db * HttpResponse :=
  match req_user with
  | None =>
      (s, next_to_errorHandler isProduction
            (mkJsError Error "User not found in request" None None))
  | Some u =>
      match authService.getCurrentUser (ru_id u) s with
      | (s', Return safe) =>
          (s', sendSuccess (VObject safe) "User retrieved successfully" 200)
      | (s', Throw error) => (s', next_to_errorHandler isProduction error)
      end
  end.

End authController.

(** [routes/v1/auth.routes.ts], for a request that has passed the rate
    limiter and the body parser: the chains [authenticate, validate(logoutSchema), logout] and
    [authenticate, me], with [next(error)] skipping to [errorHandler].
    [body] is what [logoutSchema] makes of the request body. *)
Module authRoutes.

Definition post_logout (isProduction : bool) (cfg : Host) (now : Z) (req : Request)
           (body : Parsed (option JwtString)) (s : Db)
  : Db * Completion HttpResponse :=
  match authenticate cfg now req s with
  | (s', next attached) =>
      match validate "body" body with
      | Return (validated_next body_refreshToken) =>
          let (s'', response) :=
            authController.logout isProduction (Some attached) body_refreshToken s' in
          (s'', Return response)
      | Return (validated_sent response) => (s', Return response)
      | Throw e => (s', Throw e)
      end
  | (s', next_error e) => (s', Return (next_to_errorHandler isProduction e))
  end.

Definition get_me (isProduction : bool) (cfg : Host) (now : Z) (req : Request)
           (s : Db) : Db * HttpResponse :=
  match authenticate cfg now req s with
  | (s', next attached) => authController.me isProduction (Some attached) s'
  | (s', next_error e) => (s', next_to_errorHandler isProduction e)
  end.

End authRoutes.

(** [config/index.ts].  [process.env] maps a name to a string or nothing. *)
Definition Env : Type := string -> option string.

(** [process.env[key] || defaultValue], refusing [undefined]. *)
Definition getEnvVar (env : Env) (key : string) (defaultValue : option string)
  : Completion string :=
  let value :=
    match env key with
    | Some v => if String.eqb v "" then defaultValue else Some v
    | None => defaultValue
    end in
  match value with
  | None => Throw (mkJsError Error ("Missing required environment variable: " ++ key)
                             None None)
  | Some v => Return v
  end.

Record AppConfig : Type := mkAppConfig {
  cfg_env : string;
  cfg_isProduction : bool;
  cfg_isDevelopment : bool;
  cfg_databaseUrl : string;
  cfg_jwt : config.jwt
}.

(** The properties of the [config] object literal that can throw or that
    the code modelled here reads, evaluated in source order. *)
Definition load_config (env : Env) : Completion AppConfig :=
  match getEnvVar env "NODE_ENV" (Some "development") with
  | Throw e => Throw e
  | Return node_env =>
      match getEnvVar env "HOST" (Some "0.0.0.0") with
      | Throw e => Throw e
      | Return _ =>
          match getEnvVar env "DATABASE_URL" None with
          | Throw e => Throw e
          | Return databaseUrl =>
              match getEnvVar env "JWT_SECRET" None with
              | Throw e => Throw e
              | Return secret =>
                  match getEnvVar env "JWT_ACCESS_TOKEN_EXPIRES_IN" (Some "15m") with
                  | Throw e => Throw e
                  | Return accessIn =>
                      match getEnvVar env "JWT_REFRESH_TOKEN_EXPIRES_IN" (Some "7d") with
                      | Throw e => Throw e
                      | Return refreshIn =>
                          Return (mkAppConfig node_env
                                    (String.eqb node_env "production")
                                    (String.eqb node_env "development")
                                    databaseUrl
                                    (config.mk secret accessIn refreshIn))
                      end
                  end
              end
          end
      end
  end.

(** [services/user.service.ts]: [select: safeUserSelect] on a row. *)
Definition safeUserSelect (u : User.t) : JsObject :=
  [ ("id", VUuid (User.id u));
    ("email", VString (User.email u));
    ("username", VString (User.username u));
    ("firstName", nullable (User.firstName u));
    ("lastName", nullable (User.lastName u));
    ("role", VRole (User.role u));
    ("isActive", VBool (User.isActive u));
    ("isVerified", VBool (User.isVerified u));
    ("createdAt", VDate (User.createdAt u));
    ("updatedAt", VDate (User.updatedAt u)) ].

Definition getUserById (id : Uuid) : Async JsObject :=
  found <- prisma.user.findUnique (prisma.where_id id) ;;
  match found with
  | None => throw (new_NotFoundError "User")
  | Some u => ret (safeUserSelect u)
  end.

(** The three tables-only components of a store. *)
Definition tables (s : Db) : list User.t * list RefreshToken.t * Uuid :=
  (users s, refreshTokens s, nextUuid s).

(** The unit letters of [parseDuration] and their length in seconds. *)
Definition unit_seconds (unit : ascii) : option Z :=
  if Ascii.eqb unit "s" then Some 1
  else if Ascii.eqb unit "m" then Some 60
  else if Ascii.eqb unit "h" then Some 3600
  else if Ascii.eqb unit "d" then Some 86400
  else None.

(** A store that differs from [s] in its log of queries only. *)
Definition log_call_many (s logged_ : Db) : Db :=
  mkDb (users s) (refreshTokens s) (nextUuid s) (calls logged_).

(** *** Elementary transitions of the tables *)

(** Every call changes the tables by a sequence of the following moves;
    the log of queries is left out of the picture. *)
Inductive tstep (cfg : config.jwt) (now : Z) (s s' : Db) : Prop :=
| ts_same :
    users s' = users s -> refreshTokens s' = refreshTokens s ->
    nextUuid s' = nextUuid s -> tstep cfg now s s'
| ts_user_added (u : User.t) :
    users s' = (users s ++ [u])%list -> User.id u = nextUuid s ->
    refreshTokens s' = refreshTokens s -> nextUuid s' = S (nextUuid s) ->
    tstep cfg now s s'
| ts_users_updated (g : User.t -> User.t) :
    (forall u, User.id (g u) = User.id u) ->
    users s' = List.map g (users s) ->
    refreshTokens s' = refreshTokens s -> nextUuid s' = nextUuid s ->
    tstep cfg now s s'
| ts_user_deleted (i : Uuid) :
    users s' = filter (fun x => negb (Nat.eqb (User.id x) i)) (users s) ->
    refreshTokens s' =
      filter (fun r => negb (Nat.eqb (RefreshToken.userId r) i)) (refreshTokens s) ->
    nextUuid s' = nextUuid s -> tstep cfg now s s'
| ts_token_issued (r : RefreshToken.t) (payload : TokenPayload.t) (exp : Z) :
    refreshTokens s' = (refreshTokens s ++ [r])%list ->
    RefreshToken.token r = Jws (config.secret cfg) payload (clockTimestamp now) exp ->
    TokenPayload.sub payload = RefreshToken.userId r ->
    (exists u, In u (users s) /\ User.id u = RefreshToken.userId r) ->
    ~ In (RefreshToken.token r) (List.map RefreshToken.token (refreshTokens s)) ->
    users s' = users s -> nextUuid s' = S (nextUuid s) ->
    tstep cfg now s s'
| ts_revoked (p : RefreshToken.t -> bool) :
    refreshTokens s' =
      List.map (fun r => if p r then RefreshToken.revoke r else r) (refreshTokens s) ->
    users s' = users s -> nextUuid s' = nextUuid s ->
    tstep cfg now s s'.

Inductive tsteps (cfg : config.jwt) (now : Z) : Db -> Db -> Prop :=
| tsteps_refl s : tsteps cfg now s s
| tsteps_cons s s' s'' :
    tstep cfg now s s' -> tsteps cfg now s' s'' -> tsteps cfg now s s''.

(** A computation all of whose effects are elementary transitions. *)
Definition stepping (cfg : config.jwt) (now : Z) {A} (m : Async A) : Prop :=
  forall s, tsteps cfg now s (fst (m s)).

(* ===================================================================== *)
(** ** 9. Basic facts *)
(* ===================================================================== *)

Ltac async_unfold :=
  unfold bind, ret, throw, lift, logged, get_users, get_refreshTokens,
    put_users, put_refreshTokens, uuid in *.

Lemma tsteps_trans cfg now s1 s2 s3 :
  tsteps cfg now s1 s2 -> tsteps cfg now s2 s3 -> tsteps cfg now s1 s3.
Proof.
  induction 1; intros H3; [assumption|].
  eapply tsteps_cons; eauto.
Qed.

Lemma tsteps_one cfg now s s' : tstep cfg now s s' -> tsteps cfg now s s'.
Proof. intros H. eapply tsteps_cons; [exact H | apply tsteps_refl]. Qed.

Lemma stepping_ret cfg now A (a : A) : stepping cfg now (ret a).
Proof. intros s. apply tsteps_refl. Qed.

Lemma stepping_throw cfg now A (e : JsError) : stepping cfg now (@throw A e).
Proof. intros s. apply tsteps_refl. Qed.

Lemma stepping_lift cfg now A (c : Completion A) : stepping cfg now (lift c).
Proof. intros s. apply tsteps_refl. Qed.

Lemma stepping_bind cfg now A B (m : Async A) (k : A -> Async B) :
  stepping cfg now m -> (forall a, stepping cfg now (k a)) ->
  stepping cfg now (bind m k).
Proof.
  intros Hm Hk s. unfold bind.
  specialize (Hm s). destruct (m s) as [s' [a|e]]; simpl in *.
  - eapply tsteps_trans; [exact Hm | apply Hk].
  - exact Hm.
Qed.

Lemma stepping_logged cfg now c : stepping cfg now (logged c).
Proof. intros s. apply tsteps_one. apply ts_same; reflexivity. Qed.

Lemma stepping_get_users cfg now : stepping cfg now get_users.
Proof. intros s. apply tsteps_refl. Qed.

Lemma stepping_get_refreshTokens cfg now : stepping cfg now get_refreshTokens.
Proof. intros s. apply tsteps_refl. Qed.

Create HintDb stepping.

#[local] Hint Resolve stepping_ret stepping_throw stepping_lift stepping_logged
  stepping_get_users stepping_get_refreshTokens : stepping.

Ltac stepping_auto :=
  repeat first
    [ solve [ eauto with stepping ]
    | match goal with
      | |- stepping _ _ (match ?x with _ => _ end) => destruct x
      | |- stepping _ _ (if ?x then _ else _) => destruct x
      end
    | apply stepping_bind; [ | intros ? ] ].

Lemma stepping_user_findUnique cfg now w : stepping cfg now (prisma.user.findUnique w).
Proof. unfold prisma.user.findUnique. stepping_auto. Qed.

Lemma find_user_id i us u :
  find (prisma.user_matches (prisma.where_id i)) us = Some u ->
  In u us /\ User.id u = i.
Proof.
  intros H. apply find_some in H. destruct H as [Hin Hm].
  simpl in Hm. apply Nat.eqb_eq in Hm. auto.
Qed.

Lemma stepping_user_create cfg now e n h f l :
  stepping cfg now (prisma.user.create e n h f l now).
Proof.
  intros s. unfold prisma.user.create. async_unfold. simpl.
  destruct (existsb _ (users s)); simpl.
  { apply tsteps_one, ts_same; reflexivity. }
  destruct (existsb _ (users s)); simpl.
  { apply tsteps_one, ts_same; reflexivity. }
  apply tsteps_one.
  eapply ts_user_added; simpl; reflexivity.
Qed.

Lemma stepping_user_update cfg now i f :
  (forall u, User.id (f u) = User.id u) ->
  stepping cfg now (prisma.user.update i f now).
Proof.
  intros Hf s. unfold prisma.user.update. async_unfold. simpl.
  destruct (find _ (users s)) as [u|] eqn:Hfind; simpl.
  - apply find_user_id in Hfind. destruct Hfind as [_ Hid].
    apply tsteps_one.
    apply ts_users_updated with
      (g := fun x => if prisma.user_matches (prisma.where_id i) x
                     then User.set_updatedAt now (f u) else x);
      simpl; try reflexivity.
    intros x. destruct (Nat.eqb (User.id x) i) eqn:E; [|reflexivity].
    apply Nat.eqb_eq in E. simpl. rewrite Hf. congruence.
  - apply tsteps_one, ts_same; reflexivity.
Qed.

Lemma stepping_user_delete cfg now i : stepping cfg now (prisma.user.delete i).
Proof.
  intros s. unfold prisma.user.delete. async_unfold. simpl.
  destruct (find _ (users s)); simpl.
  - apply tsteps_one. apply ts_user_deleted with (i := i); reflexivity.
  - apply tsteps_one, ts_same; reflexivity.
Qed.

Lemma stepping_refreshToken_findUnique cfg now t :
  stepping cfg now (prisma.refreshToken.findUnique t).
Proof.
  unfold prisma.refreshToken.findUnique. stepping_auto.
Qed.

Lemma has_token_true t r :
  prisma.refreshToken.has_token t r = true <-> RefreshToken.token r = t.
Proof.
  unfold prisma.refreshToken.has_token.
  destruct (JwtString_eq_dec (RefreshToken.token r) t); split; congruence.
Qed.

Lemma existsb_has_token t rs :
  existsb (prisma.refreshToken.has_token t) rs = true <->
  In t (List.map RefreshToken.token rs).
Proof.
  rewrite existsb_exists, in_map_iff. split.
  - intros [r [Hin H]]. apply has_token_true in H. eauto.
  - intros [r [H Hin]]. exists r. split; [assumption|]. now apply has_token_true.
Qed.

Lemma existsb_user_id i us :
  existsb (prisma.user_matches (prisma.where_id i)) us = true <->
  exists u, In u us /\ User.id u = i.
Proof.
  rewrite existsb_exists. split; intros [u [Hin H]]; exists u; split; auto.
  - simpl in H. now apply Nat.eqb_eq.
  - simpl. now apply Nat.eqb_eq.
Qed.

Lemma stepping_refreshToken_create cfg now payload exp userId expiresAt :
  TokenPayload.sub payload = userId ->
  stepping cfg now
    (prisma.refreshToken.create
       (Jws (config.secret cfg) payload (clockTimestamp now) exp) userId expiresAt now).
Proof.
  intros Hsub s. unfold prisma.refreshToken.create. async_unfold. simpl.
  destruct (existsb (prisma.refreshToken.has_token _) _) eqn:Hdup; simpl.
  { apply tsteps_one, ts_same; reflexivity. }
  destruct (existsb (prisma.user_matches _) _) eqn:Hfk; simpl.
  - apply tsteps_one.
    eapply ts_token_issued; simpl; try reflexivity.
    + exact Hsub.
    + now apply existsb_user_id.
    + intros Hin. apply existsb_has_token in Hin. simpl in Hin. congruence.
  - apply tsteps_one, ts_same; reflexivity.
Qed.

Lemma stepping_update_revoke cfg now i :
  stepping cfg now (prisma.refreshToken.update_revoke i).
Proof.
  intros s. unfold prisma.refreshToken.update_revoke. async_unfold. simpl.
  destruct (existsb _ (refreshTokens s)); simpl.
  - apply tsteps_one. eapply ts_revoked; simpl; reflexivity.
  - apply tsteps_one, ts_same; reflexivity.
Qed.

Lemma stepping_updateMany_revoke cfg now p :
  stepping cfg now (prisma.refreshToken.updateMany_revoke p).
Proof.
  intros s. unfold prisma.refreshToken.updateMany_revoke. async_unfold. simpl.
  apply tsteps_one. eapply ts_revoked; simpl; reflexivity.
Qed.

#[local] Hint Resolve stepping_user_findUnique stepping_user_create
  stepping_user_delete stepping_refreshToken_findUnique
  stepping_update_revoke stepping_updateMany_revoke : stepping.

Lemma stepping_generateTokens (cfg : Host) now id email role :
  stepping cfg now (generateTokens cfg now id email role).
Proof.
  unfold generateTokens. apply stepping_bind.
  - unfold jwt_sign. apply stepping_refreshToken_create. reflexivity.
  - intros. apply stepping_ret.
Qed.

#[local] Hint Resolve stepping_generateTokens : stepping.

(** *** Every entry point moves the tables by elementary transitions *)

Lemma apply_update_id data u : User.id (apply_update data u) = User.id u.
Proof.
  unfold apply_update, apply_opt.
  destruct (upd_isActive data), (upd_lastName data), (upd_firstName data),
    (upd_username data), (upd_email data); reflexivity.
Qed.

Lemma stepping_update_lastLoginAt cfg now i v :
  stepping cfg now (prisma.user.update i (User.set_lastLoginAt v) now).
Proof. apply stepping_user_update. reflexivity. Qed.

Lemma stepping_update_isActive cfg now i v :
  stepping cfg now (prisma.user.update i (User.set_isActive v) now).
Proof. apply stepping_user_update. reflexivity. Qed.

Lemma stepping_update_data cfg now i data :
  stepping cfg now (prisma.user.update i (apply_update data) now).
Proof. apply stepping_user_update. apply apply_update_id. Qed.

#[local] Hint Resolve stepping_update_lastLoginAt stepping_update_isActive
  stepping_update_data : stepping.

Lemma stepping_register (cfg : Host) now salt data : stepping cfg now (register cfg now salt data).
Proof. unfold register. stepping_auto. Qed.

Lemma stepping_login (cfg : Host) now data : stepping cfg now (login cfg now data).
Proof. unfold login. stepping_auto. Qed.

Lemma stepping_refreshAccessToken (cfg : Host) now t :
  stepping cfg now (refreshAccessToken cfg now t).
Proof. unfold refreshAccessToken. stepping_auto. Qed.

Lemma stepping_logout cfg now userId t : stepping cfg now (logout userId t).
Proof. unfold logout. stepping_auto. Qed.

Lemma stepping_getCurrentUser cfg now userId : stepping cfg now (getCurrentUser userId).
Proof. unfold getCurrentUser. stepping_auto. Qed.

Lemma stepping_authenticate_try cfg now req :
  stepping cfg now (authenticate_try cfg now req).
Proof. unfold authenticate_try. stepping_auto. Qed.

Lemma stepping_updateUser cfg now id data : stepping cfg now (updateUser now id data).
Proof. unfold updateUser. stepping_auto. Qed.

Lemma stepping_deleteUser cfg now id : stepping cfg now (deleteUser now id).
Proof. unfold deleteUser. stepping_auto. Qed.

Lemma stepping_hardDeleteUser cfg now id : stepping cfg now (hardDeleteUser id).
Proof. unfold hardDeleteUser. stepping_auto. Qed.

Lemma exec_tsteps (cfg : Host) now op s : tsteps cfg now s (exec cfg now op s).
Proof.
  destruct op; simpl.
  - apply stepping_register.
  - apply stepping_login.
  - apply stepping_refreshAccessToken.
  - apply (stepping_logout cfg now).
  - apply (stepping_getCurrentUser cfg now).
  - unfold authenticate.
    pose proof (stepping_authenticate_try cfg now req s) as H.
    destruct (authenticate_try cfg now req s) as [s' [u|e]]; exact H.
  - apply stepping_updateUser.
  - apply stepping_deleteUser.
  - apply (stepping_hardDeleteUser cfg now).
Qed.

(** *** The invariants are kept by every transition *)

Lemma issued_mono cfg clock now r :
  clock <= now -> issued cfg clock r -> issued cfg now r.
Proof.
  intros Hle (p & iat & exp & Ht & Hs & Hi).
  exists p, iat, exp. repeat split; try assumption.
  unfold clockTimestamp in *.
  pose proof (Z.div_le_mono clock now 1000 ltac:(lia) Hle). lia.
Qed.

Lemma wf_mono cfg clock now s : clock <= now -> wf cfg clock s -> wf cfg now s.
Proof.
  intros Hle [H1 H2 H3 H4]. constructor; try assumption.
  eapply Forall_impl; [|exact H1]. intros r. now apply issued_mono.
Qed.

Lemma wf_empty cfg clock : wf cfg clock empty_db.
Proof.
  constructor; simpl.
  - constructor.
  - constructor.
  - intros r [].
  - intros u [].
Qed.

Lemma issued_revoke cfg clock r : issued cfg clock r -> issued cfg clock (RefreshToken.revoke r).
Proof. intros H. exact H. Qed.

Lemma map_revoke_tokens (p : RefreshToken.t -> bool) rs :
  List.map RefreshToken.token
    (List.map (fun r => if p r then RefreshToken.revoke r else r) rs)
  = List.map RefreshToken.token rs.
Proof.
  rewrite map_map. apply map_ext. intros r. destruct (p r); reflexivity.
Qed.

Lemma in_map_revoke (p : RefreshToken.t -> bool) rs r' :
  In r' (List.map (fun r => if p r then RefreshToken.revoke r else r) rs) ->
  exists r, In r rs /\ RefreshToken.token r' = RefreshToken.token r
            /\ RefreshToken.userId r' = RefreshToken.userId r
            /\ RefreshToken.id r' = RefreshToken.id r
            /\ RefreshToken.expiresAt r' = RefreshToken.expiresAt r
            /\ (RefreshToken.isRevoked r = true -> RefreshToken.isRevoked r' = true)
            /\ (r' = r \/ (p r = true /\ r' = RefreshToken.revoke r)).
Proof.
  intros H. apply in_map_iff in H. destruct H as [r [Hr Hin]].
  exists r. subst r'. destruct (p r); simpl; intuition.
Qed.

Lemma NoDup_filter_map {A B} (f : A -> B) (p : A -> bool) l :
  NoDup (List.map f l) -> NoDup (List.map f (filter p l)).
Proof.
  induction l as [|a l IH]; simpl; intros H; [constructor|].
  inversion H as [|? ? Hn Hd]; subst.
  destruct (p a); simpl; [|auto].
  constructor; [|auto].
  intros Hin. apply Hn. apply in_map_iff in Hin. destruct Hin as [x [Hx Hin]].
  apply filter_In in Hin. apply in_map_iff. exists x. tauto.
Qed.

Lemma NoDup_snoc {A} (l : list A) (a : A) :
  NoDup l -> ~ In a l -> NoDup (l ++ [a]).
Proof.
  induction l as [|x l IH]; simpl; intros Hd Hn.
  - constructor; [intros [] | constructor].
  - inversion Hd; subst. constructor.
    + intros Hin. apply in_app_or in Hin. simpl in Hin. intuition.
    + apply IH; [assumption | tauto].
Qed.

Lemma wf_tstep cfg now s s' : wf cfg now s -> tstep cfg now s s' -> wf cfg now s'.
Proof.
  intros [H1 H2 H3 H4] Hstep.
  destruct Hstep as [Hu Hr Hn | u Hu Hid Hr Hn | g Hg Hu Hr Hn | i Hu Hr Hn
                    | r p exp Hr Ht Hs Hown Hfresh Hu Hn | p Hr Hu Hn].
  - constructor; rewrite ?Hu, ?Hr, ?Hn; assumption.
  - constructor; rewrite ?Hu, ?Hr, ?Hn; try assumption.
    + intros r Hin. destruct (H3 r Hin) as [x [Hx Hxid]].
      exists x. split; [apply in_or_app; now left | assumption].
    + intros x Hin. apply in_app_or in Hin. destruct Hin as [Hin|[<-|[]]].
      * specialize (H4 x Hin). lia.
      * lia.
  - constructor; rewrite ?Hu, ?Hr, ?Hn; try assumption.
    + intros r Hin. destruct (H3 r Hin) as [x [Hx Hxid]].
      exists (g x). split; [now apply in_map | now rewrite Hg].
    + intros x Hin. apply in_map_iff in Hin. destruct Hin as [y [<- Hy]].
      rewrite Hg. now apply H4.
  - constructor; rewrite ?Hu, ?Hr, ?Hn.
    + rewrite Forall_forall in *. intros r Hin. apply filter_In in Hin.
      apply H1. tauto.
    + now apply NoDup_filter_map.
    + intros r Hin. apply filter_In in Hin. destruct Hin as [Hin Hne].
      destruct (H3 r Hin) as [x [Hx Hxid]].
      exists x. split; [|assumption]. apply filter_In. split; [assumption|].
      now rewrite Hxid.
    + intros x Hin. apply filter_In in Hin. apply H4. tauto.
  - constructor; rewrite ?Hu, ?Hr, ?Hn.
    + apply Forall_app. split; [assumption|]. constructor; [|constructor].
      exists p, (clockTimestamp now), exp. repeat split; try assumption. lia.
    + rewrite map_app. simpl.
      now apply NoDup_snoc.
    + intros x Hin. apply in_app_or in Hin. destruct Hin as [Hin|[<-|[]]].
      * now apply H3.
      * exact Hown.
    + intros x Hin. specialize (H4 x Hin). lia.
  - constructor; rewrite ?Hu, ?Hr, ?Hn; try assumption.
    + rewrite Forall_forall in *. intros r' Hin.
      apply in_map_iff in Hin. destruct Hin as [r [<- Hin]].
      destruct (p r); [apply issued_revoke|]; now apply H1.
    + now rewrite map_revoke_tokens.
    + intros r' Hin. apply in_map_revoke in Hin.
      destruct Hin as (r & Hin & _ & Hid & _).
      rewrite Hid. now apply H3.
Qed.

Lemma wf_tsteps cfg now s s' : tsteps cfg now s s' -> wf cfg now s -> wf cfg now s'.
Proof. induction 1; intros Hwf; [assumption|]. eauto using wf_tstep. Qed.

Lemma wf_exec (cfg : Host) clock now op s :
  wf cfg clock s -> clock <= now -> wf cfg now (exec cfg now op s).
Proof.
  intros Hwf Hle. eapply wf_tsteps; [apply exec_tsteps|].
  eapply wf_mono; eassumption.
Qed.

Lemma wf_run (cfg : Host) trace : forall clock s,
  wf cfg clock s -> chronological clock trace ->
  wf cfg (end_of clock trace) (run cfg trace s).
Proof.
  induction trace as [|[now op] rest IH]; intros clock s Hwf Hch; simpl in *.
  - exact Hwf.
  - destruct Hch as [Hle Hch].
    exact (IH now (exec cfg now op s) (wf_exec _ _ _ _ _ Hwf Hle) Hch).
Qed.

Lemma dead_tstep cfg now t s s' : dead t s -> tstep cfg now s s' -> dead t s'.
Proof.
  destruct t as [key payload iat exp | str]; [|intros; exact I].
  unfold dead. intros (D1 & D2 & D3) Hstep.
  destruct Hstep as [Hu Hr Hn | u Hu Hid Hr Hn | g Hg Hu Hr Hn | i Hu Hr Hn
                    | r p e Hr Ht Hs Hown Hfresh Hu Hn | q Hr Hu Hn];
    rewrite ?Hu, ?Hr, ?Hn.
  - auto.
  - split; [|split]; [lia | assumption |].
    destruct D3 as [D3|D3]; [now left | right].
    intros x Hin. apply in_app_or in Hin. destruct Hin as [Hin|[<-|[]]].
    + now apply D3.
    + lia.
  - split; [|split]; [assumption | assumption |].
    destruct D3 as [D3|D3]; [now left | right].
    intros x Hin. apply in_map_iff in Hin. destruct Hin as [y [<- Hy]].
    rewrite Hg. now apply D3.
  - split; [|split]; [assumption | |].
    + intros r Hin. apply filter_In in Hin. apply D2. tauto.
    + destruct (Nat.eq_dec i (TokenPayload.sub payload)) as [->|Hne].
      * right. intros x Hin. apply filter_In in Hin. destruct Hin as [_ Hx].
        apply negb_true_iff, Nat.eqb_neq in Hx. exact Hx.
      * destruct D3 as [[r [Hin Htok]]|D3].
        -- left. exists r. split; [|assumption]. apply filter_In.
           split; [assumption|].
           destruct (D2 r Hin Htok) as [_ Huid]. rewrite Huid.
           apply negb_true_iff, Nat.eqb_neq. congruence.
        -- right. intros x Hin. apply filter_In in Hin. apply D3. tauto.
  - assert (Hnot : RefreshToken.token r <> Jws key payload iat exp).
    { intros Heq. destruct D3 as [[r0 [Hin0 Htok0]]|D3].
      - apply Hfresh. rewrite Heq, <- Htok0. now apply in_map.
      - rewrite Ht in Heq. injection Heq as _ Hp _ _. subst p.
        destruct Hown as [u [Hin Hid]]. apply (D3 u Hin). congruence. }
    split; [|split]; [lia | |].
    + intros x Hin Htok. apply in_app_or in Hin. destruct Hin as [Hin|[<-|[]]].
      * now apply D2.
      * contradiction.
    + destruct D3 as [[r0 [Hin0 Htok0]]|D3]; [left | now right].
      exists r0. split; [apply in_or_app; now left | assumption].
  - split; [|split]; [assumption | |].
    + intros r' Hin Htok. apply in_map_revoke in Hin.
      destruct Hin as (r & Hin & Ht & Hid & _ & _ & Hrev & _).
      rewrite Ht in Htok. destruct (D2 r Hin Htok) as [Hr1 Hr2].
      split; [now apply Hrev | congruence].
    + destruct D3 as [[r [Hin Htok]]|D3]; [left | now right].
      exists (if q r then RefreshToken.revoke r else r). split.
      * apply in_map_iff. exists r. auto.
      * destruct (q r); exact Htok.
Qed.

Lemma dead_tsteps cfg now t s s' : tsteps cfg now s s' -> dead t s -> dead t s'.
Proof. induction 1; intros Hd; [assumption|]. eauto using dead_tstep. Qed.

Lemma dead_run (cfg : Host) t trace : forall s, dead t s -> dead t (run cfg trace s).
Proof.
  induction trace as [|[now op] rest IH]; intros s Hd; simpl; [assumption|].
  apply IH. eapply dead_tsteps; [apply exec_tsteps | assumption].
Qed.

(** *** [generateTokens] and [refreshAccessToken], case by case *)

Lemma generateTokens_eq (cfg : Host) now id email role s :
  generateTokens cfg now id email role s =
  let s1 := log_call refreshToken_create s in
  if existsb (prisma.refreshToken.has_token
                (refreshToken (minted cfg now id email role))) (refreshTokens s)
  then (s1, Throw (prisma_error "P2002" "token"))
  else if negb (existsb (prisma.user_matches (prisma.where_id id)) (users s))
  then (s1, Throw (prisma_error "P2003" "user_id"))
  else (mkDb (users s) (refreshTokens s ++ [minted_row cfg now id email role s])
             (S (nextUuid s)) (calls s ++ [refreshToken_create]),
        Return (minted cfg now id email role)).
Proof.
  unfold generateTokens, prisma.refreshToken.create, minted, minted_row, log_call.
  async_unfold. simpl.
  destruct (existsb (prisma.refreshToken.has_token _) _); [reflexivity|].
  destruct (existsb (prisma.user_matches _) _); reflexivity.
Qed.

Lemma refreshAccessToken_eq (cfg : Host) now t s :
  refreshAccessToken cfg now t s =
  match verify_refresh cfg now t with
  | Throw e => (s, Throw e)
  | Return payload =>
      if TokenType_eq_dec (TokenPayload.type payload) refresh then
        let s1 := log_call refreshToken_findUnique s in
        match stored t s with
        | None => (s1, Throw (new_AuthenticationError "Token has been revoked"))
        | Some row =>
            match find (prisma.user_matches (prisma.where_id (RefreshToken.userId row)))
                       (users s) with
            | None => (s1, Throw prisma_inconsistent)
            | Some owner =>
                if RefreshToken.isRevoked row
                then (s1, Throw (new_AuthenticationError "Token has been revoked"))
                else if elapsed (RefreshToken.expiresAt row) now
                then (s1, Throw (new_AuthenticationError "Token has expired"))
                else generateTokens cfg now (User.id owner) (User.email owner)
                       (User.role owner) (revoke_by_id (RefreshToken.id row) s1)
            end
        end
      else (s, Throw (new_AuthenticationError "Invalid token type"))
  end.
Proof.
  unfold refreshAccessToken, stored, elapsed. async_unfold.
  destruct (verify_refresh cfg now t) as [payload|e]; [|reflexivity].
  destruct (TokenType_eq_dec _ _); [|reflexivity].
  unfold prisma.refreshToken.findUnique. async_unfold. simpl.
  destruct (find (prisma.refreshToken.has_token t) (refreshTokens s)) as [row|] eqn:Hrow;
    [|reflexivity].
  simpl.
  destruct (find (prisma.user_matches _) (users s)) as [owner|]; [|reflexivity].
  simpl.
  destruct (RefreshToken.isRevoked row); [reflexivity|].
  destruct (RefreshToken.expiresAt row <? now); [reflexivity|].
  unfold prisma.refreshToken.update_revoke. async_unfold. simpl.
  assert (Hex : existsb (fun r => Nat.eqb (RefreshToken.id r) (RefreshToken.id row))
                        (refreshTokens s) = true).
  { apply existsb_exists. exists row. apply find_some in Hrow.
    split; [tauto | apply Nat.eqb_refl]. }
  rewrite Hex. simpl. reflexivity.
Qed.

Lemma bind_Return_inv {A B} (m : Async A) (k : A -> Async B) s s' b :
  bind m k s = (s', Return b) ->
  exists a s1, m s = (s1, Return a) /\ k a s1 = (s', Return b).
Proof.
  unfold bind. destruct (m s) as [s1 [a|e]]; intros H; [eauto | discriminate].
Qed.

Lemma find_existsb {A} (p : A -> bool) l :
  existsb p l = match find p l with Some _ => true | None => false end.
Proof.
  induction l as [|a l IH]; simpl; [reflexivity|].
  destruct (p a); simpl; [reflexivity | exact IH].
Qed.

Lemma find_snoc_fresh {A} (p : A -> bool) l a :
  existsb p l = false -> p a = true -> find p (l ++ [a]) = Some a.
Proof.
  induction l as [|x l IH]; simpl; intros Hn Ha.
  - now rewrite Ha.
  - destruct (p x); [discriminate | auto].
Qed.

Lemma generateTokens_Return (cfg : Host) now id email role s s' pair :
  generateTokens cfg now id email role s = (s', Return pair) ->
  pair = minted cfg now id email role
  /\ existsb (prisma.refreshToken.has_token (refreshToken pair)) (refreshTokens s) = false
  /\ users s' = users s
  /\ refreshTokens s' = (refreshTokens s ++ [minted_row cfg now id email role s])%list
  /\ stored (refreshToken pair) s' = Some (minted_row cfg now id email role s)
  /\ nextUuid s' = S (nextUuid s).
Proof.
  rewrite generateTokens_eq. simpl.
  destruct (existsb (prisma.refreshToken.has_token _) _) eqn:Hdup; [discriminate|].
  destruct (negb _); [discriminate|].
  intros H. injection H as <- <-. simpl.
  repeat split; try assumption.
  unfold stored. simpl. apply find_snoc_fresh; [assumption|].
  apply has_token_true. reflexivity.
Qed.

(* ===================================================================== *)
(** ** 10. The Authorization Gate *)
(* ===================================================================== *)

Lemma instanceof_expired_is_jwt_error msg :
  instanceof (jwt_error TokenExpiredError msg) JsonWebTokenError = true.
Proof. reflexivity. Qed.

Lemma authenticate_catch_library_error c msg :
  c = JsonWebTokenError \/ c = TokenExpiredError \/ c = NotBeforeError ->
  authenticate_catch (jwt_error c msg) = next_error (new_AuthenticationError "Invalid token").
Proof. intros [->|[->| ->]]; reflexivity. Qed.

Lemma app_error_passes_through msg :
  authenticate_catch (new_AuthenticationError msg)
  = next_error (new_AuthenticationError msg).
Proof. reflexivity. Qed.

(** The second test of the [catch] block is dead: no run of the Gate ever
    reports ["Token expired"]. *)
Lemma authenticate_never_reports_expired cfg now req s :
  snd (authenticate cfg now req s) <> next_error (new_AuthenticationError "Token expired").
Proof.
  unfold authenticate, authenticate_try.
  destruct (extractToken req) as [token|]; [|simpl; discriminate].
  destruct (truthy token); simpl; [|discriminate].
  async_unfold.
  destruct token as [key payload iat exp | str]; simpl; [|discriminate].
  destruct (string_dec key (config.secret cfg)); simpl; [|discriminate].
  destruct (exp <=? clockTimestamp now); simpl; [discriminate|].
  destruct (TokenType_eq_dec _ _); simpl; [|discriminate].
  unfold prisma.user.findUnique. async_unfold. simpl.
  destruct (find _ (users s)) as [u|]; simpl; [|discriminate].
  destruct (User.isActive u); simpl; discriminate.
Qed.

(** C3 (what the code does).  A bearer token whose signature does not
    verify and a correctly signed bearer token whose expiry has elapsed are
    answered alike: in both cases the Gate hands
    AuthenticationError("Invalid token") to [next] and leaves the store
    untouched.  [jwt.verify] does raise the two distinct classes, but
    [TokenExpiredError] extends [JsonWebTokenError], so the first
    [instanceof] test of the [catch] block takes both and the branch that
    would answer "Token expired" is never reached. *)
Theorem authenticate_expired_reports_invalid_token
        cfg now key payload iat exp s
        (Hfail : key <> config.secret cfg \/ exp <= clockTimestamp now) :
  authenticate cfg now (mkRequest (Some (Bearer (Jws key payload iat exp)))) s
  = (s, next_error (new_AuthenticationError "Invalid token")).
Proof.
  unfold authenticate, authenticate_try. simpl. async_unfold. simpl.
  destruct (string_dec key (config.secret cfg)) as [Heq|Hne]; simpl.
  - destruct Hfail as [Hk|He]; [contradiction|].
    apply Z.leb_le in He. rewrite He. reflexivity.
  - reflexivity.
Qed.

Lemma authenticate_expired_reports_invalid_token_witness :
  jwt_verify alice_access_token (config.secret cfg0) 906000
  = Throw (jwt_error TokenExpiredError "jwt expired")
  /\ authenticate cfg0 906000 (mkRequest (Some (Bearer alice_access_token))) db_two_users
     = (db_two_users, next_error (new_AuthenticationError "Invalid token")).
Proof.
  split; [reflexivity|].
  apply (authenticate_expired_reports_invalid_token
           cfg0 906000 "s3cret" (TokenPayload.mk 0%nat "a@x.com" USER access) 5 905
           db_two_users).
  right. vm_compute. discriminate.
Defined.

(** C6.  A bearer token that passes [jwt.verify] (correct signature, expiry
    not elapsed) and whose [type] is not "access" is rejected with
    AuthenticationError("Invalid token type"); the store, query log
    included, is exactly as before, so no user lookup took place. *)
Theorem gate_rejects_non_access_token cfg now token payload s
        (Hverify : jwt_verify token (config.secret cfg) now = Return payload)
        (Htype : TokenPayload.type payload <> access) :
  authenticate cfg now (mkRequest (Some (Bearer token))) s
  = (s, next_error (new_AuthenticationError "Invalid token type")).
Proof.
  unfold authenticate, authenticate_try. simpl.
  assert (Ht : truthy token = true).
  { destruct token as [k p i e|str]; [reflexivity | discriminate]. }
  rewrite Ht. simpl. async_unfold. rewrite Hverify.
  destruct (TokenType_eq_dec (TokenPayload.type payload) access); [contradiction|].
  reflexivity.
Qed.

Lemma gate_rejects_non_access_token_witness :
  authenticate cfg0 9000 (mkRequest (Some (Bearer alice_refresh_token))) db_two_users
  = (db_two_users, next_error (new_AuthenticationError "Invalid token type")).
Proof.
  apply (gate_rejects_non_access_token cfg0 9000 alice_refresh_token
           (TokenPayload.mk 0%nat "a@x.com" USER refresh) db_two_users).
  - reflexivity.
  - simpl. discriminate.
Defined.

(* ===================================================================== *)
(** ** 11. [login], [register] and the safe user projection *)
(* ===================================================================== *)

Lemma login_unknown_email (cfg : Host) now data s :
  account (login_email data) s = None ->
  snd (login cfg now data s) = Throw (new_AuthenticationError "Invalid email or password").
Proof.
  unfold account, login, prisma.user.findUnique. async_unfold. simpl.
  intros ->. reflexivity.
Qed.

Lemma login_wrong_password (cfg : Host) now data s u :
  account (login_email data) s = Some u -> User.isActive u = true ->
  verifyPassword (login_password data) (User.passwordHash u) = false ->
  snd (login cfg now data s) = Throw (new_AuthenticationError "Invalid email or password").
Proof.
  unfold account, login, prisma.user.findUnique. async_unfold. simpl.
  intros -> -> ->. reflexivity.
Qed.

Lemma login_disabled (cfg : Host) now data s u :
  account (login_email data) s = Some u -> User.isActive u = false ->
  snd (login cfg now data s) = Throw (new_AuthenticationError "Account is disabled").
Proof.
  unfold account, login, prisma.user.findUnique. async_unfold. simpl.
  intros -> ->. reflexivity.
Qed.

(** C4.  A login with an e-mail address that has no account and a login
    with the address of an active account and a wrong password raise the
    same error, an AuthenticationError with the message "Invalid email or
    password" (the two error values are equal, so the messages are
    byte-identical); a login against an account with isActive = false,
    whatever the password, raises an AuthenticationError with the different
    message "Account is disabled". *)
Theorem login_error_messages
        (cfg : Host) now1 now2 now3 s1 s2 s3 unknown wrong disabled u2 u3
        (Hunknown : account (login_email unknown) s1 = None)
        (Hknown : account (login_email wrong) s2 = Some u2)
        (Hactive : User.isActive u2 = true)
        (Hwrong : verifyPassword (login_password wrong) (User.passwordHash u2) = false)
        (Hfound : account (login_email disabled) s3 = Some u3)
        (Hdisabled : User.isActive u3 = false) :
  exists e e',
    snd (login cfg now1 unknown s1) = Throw e
    /\ snd (login cfg now2 wrong s2) = Throw e
    /\ err_class e = AuthenticationError
    /\ message e = "Invalid email or password"
    /\ snd (login cfg now3 disabled s3) = Throw e'
    /\ err_class e' = AuthenticationError
    /\ message e' = "Account is disabled"
    /\ message e' <> message e.
Proof.
  exists (new_AuthenticationError "Invalid email or password"),
         (new_AuthenticationError "Account is disabled").
  split; [now apply login_unknown_email|].
  split; [now apply login_wrong_password with (u := u2)|].
  split; [reflexivity|]. split; [reflexivity|].
  split; [now apply login_disabled with (u := u3)|].
  split; [reflexivity|]. split; [reflexivity|].
  simpl. discriminate.
Qed.

Lemma login_error_messages_witness :
  exists e e',
    snd (login cfg0 9000 (mkLoginInput "nobody@x.com" "Passw0rd") db_two_users) = Throw e
    /\ snd (login cfg0 9500 (mkLoginInput "a@x.com" "wrong") db_two_users) = Throw e
    /\ err_class e = AuthenticationError
    /\ message e = "Invalid email or password"
    /\ snd (login cfg0 9900 (mkLoginInput "a@x.com" "Passw0rd") db_disabled) = Throw e'
    /\ err_class e' = AuthenticationError
    /\ message e' = "Account is disabled"
    /\ message e' <> message e.
Proof.
  refine (login_error_messages cfg0 9000 9500 9900 db_two_users db_two_users db_disabled
            (mkLoginInput "nobody@x.com" "Passw0rd") (mkLoginInput "a@x.com" "wrong")
            (mkLoginInput "a@x.com" "Passw0rd")
            (User.mk 0%nat "a@x.com" "alice" (Bcrypt.mk 12 "salt-a" "Passw0rd")
                     None None true false USER None 5000 5000)
            (User.mk 0%nat "a@x.com" "alice" (Bcrypt.mk 12 "salt-a" "Passw0rd")
                     None None false false USER None 5000 5200)
            _ _ _ _ _ _); reflexivity.
Defined.

(** C7.  [register] fails with a ConflictError (status 409) when the e-mail
    address is already registered or when the username is already taken.
    The e-mail address is looked up first: whenever it is taken the message
    is "Email already registered", also when the username is taken too; the
    message "Username already taken" is reported only when the address is
    free.  Nothing is written to either table. *)
Theorem register_conflict_precedence (cfg : Host) now salt data s
        (Hconflict : email_taken (reg_email data) s = true
                     \/ username_taken (reg_username data) s = true) :
  exists e,
    snd (register cfg now salt data s) = Throw e
    /\ err_class e = ConflictError
    /\ statusCode e = Some 409
    /\ message e = (if email_taken (reg_email data) s
                    then "Email already registered"
                    else "Username already taken")
    /\ users (fst (register cfg now salt data s)) = users s
    /\ refreshTokens (fst (register cfg now salt data s)) = refreshTokens s.
Proof.
  unfold email_taken, username_taken in *.
  rewrite !find_existsb in *.
  unfold register, prisma.user.findUnique. async_unfold. simpl.
  destruct (find (prisma.user_matches (prisma.where_email _)) (users s)); simpl.
  - eexists. repeat split; reflexivity.
  - destruct (find (prisma.user_matches (prisma.where_username _)) (users s)); simpl.
    + eexists. repeat split; reflexivity.
    + destruct Hconflict; discriminate.
Qed.

Lemma register_conflict_precedence_witness :
  exists e,
    snd (register cfg0 9000 "salt-c"
           (mkRegisterInput "a@x.com" "bob" "Passw0rd" None None) db_two_users) = Throw e
    /\ err_class e = ConflictError
    /\ statusCode e = Some 409
    /\ message e = "Email already registered"
    /\ users (fst (register cfg0 9000 "salt-c"
           (mkRegisterInput "a@x.com" "bob" "Passw0rd" None None) db_two_users))
       = users db_two_users
    /\ refreshTokens (fst (register cfg0 9000 "salt-c"
           (mkRegisterInput "a@x.com" "bob" "Passw0rd" None None) db_two_users))
       = refreshTokens db_two_users.
Proof.
  apply (register_conflict_precedence cfg0 9000 "salt-c"
           (mkRegisterInput "a@x.com" "bob" "Passw0rd" None None) db_two_users).
  left. reflexivity.
Defined.

Lemma toSafeUser_keys o :
  keys (toSafeUser o)
  = ["id"; "email"; "username"; "firstName"; "lastName"; "role";
     "isActive"; "isVerified"; "createdAt"].
Proof. reflexivity. Qed.

Lemma safe_row_mentions_no_hash u :
  mentions "passwordHash" (VObject (toSafeUser (userObject u))) = false.
Proof.
  destruct u as [i e n h f l a v r ll c up].
  destruct f, l; reflexivity.
Qed.

Lemma safe_result_mentions_no_hash u pair :
  mentions "passwordHash"
    (VObject (AuthResult_object (mkAuthResult (toSafeUser (userObject u)) pair))) = false.
Proof.
  destruct u as [i e n h f l a v r ll c up].
  destruct f, l; reflexivity.
Qed.

Lemma snd_bind_Return_inv {A B} (m : Async A) (k : A -> Async B) s b :
  snd (bind m k s) = Return b ->
  exists a s1, m s = (s1, Return a) /\ snd (k a s1) = Return b.
Proof.
  unfold bind. destruct (m s) as [s1 [a|e]]; simpl; intros H; [eauto | discriminate].
Qed.

Lemma register_Return_user (cfg : Host) now salt data s r :
  snd (register cfg now salt data s) = Return r ->
  exists u pair, r = mkAuthResult (toSafeUser (userObject u)) pair.
Proof.
  unfold register. intros H.
  apply snd_bind_Return_inv in H. destruct H as (e1 & s1 & _ & H).
  destruct e1; [discriminate|].
  apply snd_bind_Return_inv in H. destruct H as (e2 & s2 & _ & H).
  destruct e2; [discriminate|].
  apply snd_bind_Return_inv in H. destruct H as (u & s3 & _ & H).
  apply snd_bind_Return_inv in H. destruct H as (pair & s4 & _ & H).
  simpl in H. injection H as <-. exists u, pair. reflexivity.
Qed.

Lemma login_Return_user (cfg : Host) now data s r :
  snd (login cfg now data s) = Return r ->
  exists u pair, r = mkAuthResult (toSafeUser (userObject u)) pair.
Proof.
  unfold login. intros H.
  apply snd_bind_Return_inv in H. destruct H as (found & s1 & _ & H).
  destruct found as [u|]; [|discriminate].
  destruct (negb (User.isActive u)); [discriminate|].
  destruct (negb (verifyPassword _ _)); [discriminate|].
  apply snd_bind_Return_inv in H. destruct H as (u' & s2 & _ & H).
  apply snd_bind_Return_inv in H. destruct H as (pair & s3 & _ & H).
  simpl in H. injection H as <-. exists u, pair. reflexivity.
Qed.

Lemma getCurrentUser_Return_user userId s o :
  snd (getCurrentUser userId s) = Return o ->
  exists u, o = toSafeUser (userObject u).
Proof.
  unfold getCurrentUser. intros H.
  apply snd_bind_Return_inv in H. destruct H as (found & s1 & _ & H).
  destruct found as [u|]; [|discriminate].
  simpl in H. injection H as <-. eauto.
Qed.

(** C9.  Whenever [register], [login] or [getCurrentUser] returns, the user
    object handed to the client has exactly the nine properties id, email,
    username, firstName, lastName, role, isActive, isVerified and createdAt:
    [passwordHash] is not among them, and the property name does not occur
    at any depth of the data the controller serialises. *)
Theorem safe_user_excludes_passwordHash cfg s data projection
        (Hsent : serializes cfg s data projection) :
  keys projection
  = ["id"; "email"; "username"; "firstName"; "lastName"; "role";
     "isActive"; "isVerified"; "createdAt"]
  /\ ~ In "passwordHash" (keys projection)
  /\ mentions "passwordHash" data = false.
Proof.
  assert (Hno : ~ In "passwordHash"
                  ["id"; "email"; "username"; "firstName"; "lastName"; "role";
                   "isActive"; "isVerified"; "createdAt"]).
  { simpl. intros H. repeat (destruct H as [H|H]; [discriminate|]). exact H. }
  destruct Hsent as [now salt rd r H | now ld r H | userId o H].
  - apply register_Return_user in H. destruct H as (u & pair & ->). simpl.
    split; [reflexivity|]. split; [exact Hno|].
    apply (safe_result_mentions_no_hash u pair).
  - apply login_Return_user in H. destruct H as (u & pair & ->). simpl.
    split; [reflexivity|]. split; [exact Hno|].
    apply (safe_result_mentions_no_hash u pair).
  - apply getCurrentUser_Return_user in H. destruct H as [u ->].
    split; [reflexivity|]. split; [exact Hno|]. apply safe_row_mentions_no_hash.
Qed.

Lemma safe_user_excludes_passwordHash_witness :
  snd (getCurrentUser 0%nat db_two_users)
  = Return (toSafeUser (userObject
      (User.mk 0%nat "a@x.com" "alice" (Bcrypt.mk 12 "salt-a" "Passw0rd")
               None None true false USER None 5000 5000)))
  /\ ~ In "passwordHash" (keys (toSafeUser (userObject
      (User.mk 0%nat "a@x.com" "alice" (Bcrypt.mk 12 "salt-a" "Passw0rd")
               None None true false USER None 5000 5000)))).
Proof.
  split; [reflexivity|].
  apply (safe_user_excludes_passwordHash cfg0 db_two_users
           (VObject (toSafeUser (userObject
              (User.mk 0%nat "a@x.com" "alice" (Bcrypt.mk 12 "salt-a" "Passw0rd")
                       None None true false USER None 5000 5000))))).
  apply (by_getCurrentUser cfg0 db_two_users 0%nat). reflexivity.
Defined.

(* ===================================================================== *)
(** ** 12. Issuance and logout *)
(* ===================================================================== *)

Lemma issuance_generateTokens (cfg : Host) now s s' pair :
  issuance cfg now s s' pair ->
  exists s0 id email role, generateTokens cfg now id email role s0 = (s', Return pair).
Proof.
  intros [salt data s1 r H | data s1 r H | t s1 p H].
  - unfold register in H.
    apply bind_Return_inv in H. destruct H as (e1 & x1 & _ & H).
    destruct e1; [discriminate|].
    apply bind_Return_inv in H. destruct H as (e2 & x2 & _ & H).
    destruct e2; [discriminate|].
    apply bind_Return_inv in H. destruct H as (u & x3 & _ & H).
    apply bind_Return_inv in H. destruct H as (pr & x4 & Hg & H).
    unfold ret in H. injection H as <- <-. simpl. eauto.
  - unfold login in H.
    apply bind_Return_inv in H. destruct H as (found & x1 & _ & H).
    destruct found as [u|]; [|discriminate].
    destruct (negb (User.isActive u)); [discriminate|].
    destruct (negb (verifyPassword _ _)); [discriminate|].
    apply bind_Return_inv in H. destruct H as (u' & x2 & _ & H).
    apply bind_Return_inv in H. destruct H as (pr & x3 & Hg & H).
    unfold ret in H. injection H as <- <-. simpl. eauto.
  - rewrite refreshAccessToken_eq in H.
    destruct (verify_refresh cfg now t) as [payload|e]; [|discriminate].
    destruct (TokenType_eq_dec _ _); [|discriminate].
    simpl in H.
    destruct (stored t s) as [row|]; [|discriminate].
    destruct (find _ (users s)) as [owner|]; [|discriminate].
    destruct (RefreshToken.isRevoked row); [discriminate|].
    destruct (elapsed _ _); [discriminate|].
    eauto.
Qed.

Lemma parseDuration_default_refresh : parseDuration "7d" = 604800.
Proof. reflexivity. Qed.

(** C5 (amended).  Whenever [register], [login] or [refreshAccessToken] issues a pair
    at time [now], the row found in the store for the new refresh token has
    createdAt = now and an expiresAt that is the same local wall-clock time
    seven calendar days later: now + 604 800 000 ms, shifted by the change
    of the host's UTC offset between issuance and that local time.  The
    configured durations do not enter it.  The signed token itself carries
    the window parseDuration(refreshTokenExpiresIn) seconds (as long as that
    number and the expiry computed from it are exact in a JavaScript
    number).  On a host whose UTC offset never changes the stored window is
    exactly 604 800 000 ms, and the two windows have the same length exactly
    when the configured duration is 604 800 s, seven days. *)
Theorem stored_expiry_is_seven_local_days (cfg : Host) now s s' pair
        (Hissued : issuance cfg now s s' pair)
        (Hexact : 0 <= clockTimestamp now
                  /\ clockTimestamp now
                     + parseDuration (config.refreshTokenExpiresIn cfg)
                     <= MAX_SAFE_INTEGER) :
  exists row,
    stored (refreshToken pair) s' = Some row
    /\ RefreshToken.createdAt row = now
    /\ RefreshToken.expiresAt row
       = now + 604800000
         + (LocalTZA (TZ cfg) now true
            - LocalTZA (TZ cfg) (now + LocalTZA (TZ cfg) now true + 604800000) false)
    /\ embedded_window (refreshToken pair)
       = Some (parseDuration (config.refreshTokenExpiresIn cfg))
    /\ (forall offset,
          (forall t isUTC, LocalTZA (TZ cfg) t isUTC = offset) ->
          RefreshToken.expiresAt row = now + 604800000
          /\ (1000 * parseDuration (config.refreshTokenExpiresIn cfg)
              = RefreshToken.expiresAt row - RefreshToken.createdAt row
              <-> parseDuration (config.refreshTokenExpiresIn cfg) = 604800)).
Proof.
  apply issuance_generateTokens in Hissued.
  destruct Hissued as (s0 & id & email & role & Hg).
  apply generateTokens_Return in Hg.
  destruct Hg as (-> & _ & _ & _ & Hstored & _).
  exists (minted_row cfg now id email role s0).
  split; [exact Hstored|].
  unfold minted_row, minted, jwt_sign, setDate_getDate_plus, UTC, LocalTime, msPerDay.
  cbn [refreshToken RefreshToken.expiresAt RefreshToken.createdAt embedded_window].
  change (7 * 86400000) with 604800000.
  split; [reflexivity|]. split; [lia|].
  split; [f_equal; lia|].
  intros offset Hfixed. rewrite !Hfixed. lia.
Qed.

Lemma stored_expiry_is_seven_local_days_witness :
  exists row,
    stored (Jws "s3cret" (TokenPayload.mk 0%nat "a@x.com" USER refresh) 8 86408)
           (fst (login cfg1 8000 (mkLoginInput "a@x.com" "Passw0rd") db_two_users))
    = Some row
    /\ RefreshToken.createdAt row = 8000
    /\ RefreshToken.expiresAt row = 8000 + 604800000 + (0 - 0)
    /\ Some (86408 - 8) = Some 86400
    /\ (forall offset,
          (forall (t : Z) (isUTC : bool), 0 = offset) ->
          RefreshToken.expiresAt row = 8000 + 604800000
          /\ (1000 * 86400 = RefreshToken.expiresAt row - RefreshToken.createdAt row
              <-> 86400 = 604800)).
Proof.
  apply (stored_expiry_is_seven_local_days cfg1 8000 db_two_users
           (fst (login cfg1 8000 (mkLoginInput "a@x.com" "Passw0rd") db_two_users))
           (mkTokenPair
              (Jws "s3cret" (TokenPayload.mk 0%nat "a@x.com" USER access) 8 908)
              (Jws "s3cret" (TokenPayload.mk 0%nat "a@x.com" USER refresh) 8 86408))).
  - apply (issued_by_login cfg1 8000 db_two_users
             (mkLoginInput "a@x.com" "Passw0rd") _
             (mkAuthResult
                (toSafeUser (userObject
                   (User.mk 0%nat "a@x.com" "alice" (Bcrypt.mk 12 "salt-a" "Passw0rd")
                            None None true false USER None 5000 5000)))
                (mkTokenPair
                   (Jws "s3cret" (TokenPayload.mk 0%nat "a@x.com" USER access) 8 908)
                   (Jws "s3cret" (TokenPayload.mk 0%nat "a@x.com" USER refresh) 8 86408)))).
    vm_compute. reflexivity.
  - split; vm_compute; discriminate.
Defined.

(** C5, the claim as the specification words it.  On [host_dst], in New
    York with the refresh duration configured as 167 hours, Alice logs in
    on 5 March 2026 at 12:00 UTC.  The row stored for her refresh token
    expires on 12 March at 11:00 UTC, the same wall-clock time seven
    calendar days later and 601 200 000 ms after the login, an hour short
    of seven days of 24 hours; and the token carries a window of 601 200 s:
    the two windows agree although the configured duration is not seven
    days. *)
Lemma stored_expiry_dst_counterexample :
  exists row,
    stored (Jws "s3cret" (TokenPayload.mk 0%nat "a@x.com" USER refresh)
                1772712000 1773313200)
           (fst (login host_dst 1772712000000 (mkLoginInput "a@x.com" "Passw0rd")
                       db_two_users))
    = Some row
    /\ snd (login host_dst 1772712000000 (mkLoginInput "a@x.com" "Passw0rd") db_two_users)
       = Return (mkAuthResult
                   (toSafeUser (userObject
                      (User.mk 0%nat "a@x.com" "alice" (Bcrypt.mk 12 "salt-a" "Passw0rd")
                               None None true false USER None 5000 5000)))
                   (mkTokenPair
                      (Jws "s3cret" (TokenPayload.mk 0%nat "a@x.com" USER access)
                           1772712000 1772712900)
                      (Jws "s3cret" (TokenPayload.mk 0%nat "a@x.com" USER refresh)
                           1772712000 1773313200)))
    /\ RefreshToken.createdAt row = 1772712000000
    /\ RefreshToken.expiresAt row = 1772712000000 + 601200000
    /\ RefreshToken.expiresAt row <> 1772712000000 + 604800000
    /\ embedded_window
         (Jws "s3cret" (TokenPayload.mk 0%nat "a@x.com" USER refresh)
              1772712000 1773313200)
       = Some (parseDuration (config.refreshTokenExpiresIn host_dst))
    /\ 1000 * parseDuration (config.refreshTokenExpiresIn host_dst)
       = RefreshToken.expiresAt row - RefreshToken.createdAt row
    /\ parseDuration (config.refreshTokenExpiresIn host_dst) <> 604800.
Proof.
  eexists. split; [vm_compute; reflexivity|].
  vm_compute. repeat split; discriminate.
Qed.

Ltac frame_close :=
  repeat split; intros;
  repeat match goal with
         | H : Some _ = Some _ |- _ => injection H as H; subst
         | H : _ \/ _ |- _ => destruct H
         end;
  try discriminate; try congruence; try reflexivity.

Lemma logout_eq userId t s :
  logout userId t s
  = (mkDb (users s)
          (List.map (fun r =>
             if match t with
                | Some t' =>
                    if truthy t'
                    then prisma.refreshToken.has_token t' r
                         && Nat.eqb (RefreshToken.userId r) userId
                    else Nat.eqb (RefreshToken.userId r) userId
                | None => Nat.eqb (RefreshToken.userId r) userId
                end
             then RefreshToken.revoke r else r) (refreshTokens s))
          (nextUuid s) (calls s ++ [refreshToken_updateMany]),
     Return tt).
Proof.
  unfold logout, prisma.refreshToken.updateMany_revoke. async_unfold.
  destruct t as [t'|]; [destruct (truthy t')|]; reflexivity.
Qed.

(** C8 (amended).  [logout] always returns, and it writes nothing but
    isRevoked flags: the users table is as before, and the refresh-token
    table has the same rows in the same order, each with its id, token,
    userId, expiresAt and createdAt as before and never un-revoked.  A row
    of another user is left exactly as it was.  With a non-empty token
    argument [t], a row whose token is not [t] is left exactly as it was and
    a row of [userId] with token [t] ends revoked.  Without a token
    argument, or with the empty string for it, every row of [userId] ends
    revoked. *)
Theorem logout_frame userId t s :
  snd (logout userId t s) = Return tt
  /\ users (fst (logout userId t s)) = users s
  /\ List.length (refreshTokens (fst (logout userId t s)))
     = List.length (refreshTokens s)
  /\ forall n r, nth_error (refreshTokens s) n = Some r ->
       exists r',
         nth_error (refreshTokens (fst (logout userId t s))) n = Some r'
         /\ RefreshToken.id r' = RefreshToken.id r
         /\ RefreshToken.token r' = RefreshToken.token r
         /\ RefreshToken.userId r' = RefreshToken.userId r
         /\ RefreshToken.expiresAt r' = RefreshToken.expiresAt r
         /\ RefreshToken.createdAt r' = RefreshToken.createdAt r
         /\ (RefreshToken.isRevoked r = true -> RefreshToken.isRevoked r' = true)
         /\ (RefreshToken.userId r <> userId -> r' = r)
         /\ (forall t', t = Some t' -> truthy t' = true ->
               (RefreshToken.token r <> t' -> r' = r)
               /\ (RefreshToken.token r = t' -> RefreshToken.userId r = userId ->
                   RefreshToken.isRevoked r' = true))
         /\ ((t = None \/ t = Some (NotJws "")) -> RefreshToken.userId r = userId ->
             RefreshToken.isRevoked r' = true).
Proof.
  rewrite logout_eq. simpl.
  split; [reflexivity|]. split; [reflexivity|].
  split; [apply length_map|].
  intros n r Hn.
  rewrite nth_error_map, Hn. simpl.
  eexists. split; [reflexivity|].
  destruct (Nat.eqb (RefreshToken.userId r) userId) eqn:Huid.
  - apply Nat.eqb_eq in Huid.
    destruct t as [t'|].
    + destruct (truthy t') eqn:Htr.
      * destruct (prisma.refreshToken.has_token t' r) eqn:Hhas; simpl.
        -- apply has_token_true in Hhas. frame_close.
        -- assert (Hne : RefreshToken.token r <> t').
           { intros Heq. apply has_token_true in Heq. congruence. }
           frame_close.
      * simpl. frame_close.
    + simpl. frame_close.
  - apply Nat.eqb_neq in Huid.
    assert (Hcond : (match t with
                     | Some t' =>
                         if truthy t'
                         then prisma.refreshToken.has_token t' r && false
                         else false
                     | None => false
                     end) = false).
    { destruct t as [t'|]; [|reflexivity].
      destruct (truthy t'); [apply andb_false_r | reflexivity]. }
    rewrite Hcond. frame_close.
Qed.

(** C8 (as stated, refuted).  Alice holds two sessions, neither of whose
    tokens is the empty string.  [logout] for her with the empty string as
    token argument matches no row on the token, yet both of her rows end
    revoked: the empty string is falsy, so the call takes the branch of the
    omitted argument. *)
Lemma logout_empty_token_revokes_all :
  List.map RefreshToken.userId (refreshTokens db_two_sessions) = [0%nat; 0%nat]
  /\ List.map RefreshToken.isRevoked (refreshTokens db_two_sessions) = [false; false]
  /\ List.map (prisma.refreshToken.has_token (NotJws ""))
              (refreshTokens db_two_sessions) = [false; false]
  /\ List.map RefreshToken.isRevoked
       (refreshTokens (fst (logout 0%nat (Some (NotJws "")) db_two_sessions)))
     = [true; true].
Proof. vm_compute. repeat split; reflexivity. Qed.

(* ===================================================================== *)
(** ** 13. Refresh-token rotation *)
(* ===================================================================== *)

Lemma verify_refresh_Return cfg now t payload :
  verify_refresh cfg now t = Return payload ->
  exists iat exp,
    t = Jws (config.secret cfg) payload iat exp /\ clockTimestamp now < exp.
Proof.
  unfold verify_refresh, jwt_verify.
  destruct t as [key p iat exp|str]; [|discriminate].
  destruct (string_dec key (config.secret cfg)) as [->|]; [|discriminate].
  destruct (exp <=? clockTimestamp now) eqn:E; [discriminate|].
  intros H. injection H as <-. apply Z.leb_gt in E. eauto.
Qed.

Lemma verify_refresh_signed cfg now payload iat exp :
  verify_refresh cfg now (Jws (config.secret cfg) payload iat exp)
  = if exp <=? clockTimestamp now
    then Throw (new_AuthenticationError "Invalid refresh token")
    else Return payload.
Proof.
  unfold verify_refresh, jwt_verify.
  destruct (string_dec (config.secret cfg) (config.secret cfg)); [|contradiction].
  destruct (exp <=? clockTimestamp now); reflexivity.
Qed.

Lemma stored_Some t s row :
  stored t s = Some row -> In row (refreshTokens s) /\ RefreshToken.token row = t.
Proof.
  unfold stored. intros H. apply find_some in H.
  destruct H as [Hin H]. apply has_token_true in H. auto.
Qed.

Lemma find_owner_exists us i :
  (exists u, In u us /\ User.id u = i) ->
  exists owner, find (prisma.user_matches (prisma.where_id i)) us = Some owner.
Proof.
  intros H. apply existsb_user_id in H. rewrite find_existsb in H.
  destruct (find _ us) as [owner|]; [eauto | discriminate].
Qed.

(** What a successful call went through. *)
Lemma refresh_Return_inv (cfg : Host) now t s s1 pair :
  refreshAccessToken cfg now t s = (s1, Return pair) ->
  exists payload iat exp row owner,
    t = Jws (config.secret cfg) payload iat exp
    /\ TokenPayload.type payload = refresh
    /\ clockTimestamp now < exp
    /\ stored t s = Some row
    /\ RefreshToken.isRevoked row = false
    /\ elapsed (RefreshToken.expiresAt row) now = false
    /\ find (prisma.user_matches (prisma.where_id (RefreshToken.userId row))) (users s)
       = Some owner
    /\ generateTokens cfg now (User.id owner) (User.email owner) (User.role owner)
         (revoke_by_id (RefreshToken.id row) (log_call refreshToken_findUnique s))
       = (s1, Return pair).
Proof.
  rewrite refreshAccessToken_eq.
  destruct (verify_refresh cfg now t) as [payload|e] eqn:Hv; [|discriminate].
  apply verify_refresh_Return in Hv. destruct Hv as (iat & exp & -> & Hexp).
  destruct (TokenType_eq_dec _ _) as [Hty|]; [|discriminate].
  simpl.
  destruct (stored _ s) as [row|] eqn:Hrow; [|discriminate].
  destruct (find _ (users s)) as [owner|] eqn:Hown; [|discriminate].
  destruct (RefreshToken.isRevoked row) eqn:Hrev; [discriminate|].
  destruct (elapsed _ _) eqn:Hel; [discriminate|].
  intros H. exists payload, iat, exp, row, owner. repeat split; assumption.
Qed.

Lemma NoDup_map_inj {A B} (f : A -> B) l a b :
  NoDup (List.map f l) -> In a l -> In b l -> f a = f b -> a = b.
Proof.
  induction l as [|x l IH]; simpl; intros Hd Ha Hb Hf; [contradiction|].
  inversion Hd as [|? ? Hn Hd']; subst.
  destruct Ha as [->|Ha], Hb as [->|Hb].
  - reflexivity.
  - exfalso. apply Hn. rewrite Hf. now apply in_map.
  - exfalso. apply Hn. rewrite <- Hf. now apply in_map.
  - now apply IH.
Qed.

Lemma find_map_same {A} (p : A -> bool) (g : A -> A) l :
  (forall x, p (g x) = p x) ->
  find p (List.map g l) = option_map g (find p l).
Proof.
  intros Hp. induction l as [|x l IH]; simpl; [reflexivity|].
  rewrite Hp. destruct (p x); [reflexivity | exact IH].
Qed.

Lemma find_app_Some {A} (p : A -> bool) l l' x :
  find p l = Some x -> find p (l ++ l') = Some x.
Proof.
  induction l as [|y l IH]; simpl; [discriminate|].
  destruct (p y); [trivial | exact IH].
Qed.

Lemma has_token_revoke_if t (q : RefreshToken.t -> bool) r :
  prisma.refreshToken.has_token t (if q r then RefreshToken.revoke r else r)
  = prisma.refreshToken.has_token t r.
Proof. destruct (q r); reflexivity. Qed.

(** The row of [t] after the rotation step. *)
Lemma stored_revoke_by_id t i s :
  stored t (revoke_by_id i s)
  = option_map (fun r => if Nat.eqb (RefreshToken.id r) i
                         then RefreshToken.revoke r else r) (stored t s).
Proof.
  unfold stored, revoke_by_id. simpl.
  apply find_map_same. intros r.
  apply (has_token_revoke_if t (fun r => Nat.eqb (RefreshToken.id r) i)).
Qed.

(** A token on which [refreshAccessToken] has returned is dead afterwards. *)
Lemma refresh_Return_dead (cfg : Host) clock now t s s1 pair :
  wf cfg clock s ->
  refreshAccessToken cfg now t s = (s1, Return pair) ->
  dead t s1
  /\ exists row, stored t s1 = Some row /\ RefreshToken.isRevoked row = true.
Proof.
  intros [W1 W2 W3 W4] H.
  apply refresh_Return_inv in H.
  destruct H as (payload & iat & exp & row & owner & -> & Hty & Hexp & Hrow
                 & Hrev & Hel & Hown & Hg).
  set (t := Jws (config.secret cfg) payload iat exp) in *.
  set (s0 := revoke_by_id (RefreshToken.id row) (log_call refreshToken_findUnique s)) in *.
  assert (Hrow0 : stored t s0 = Some (RefreshToken.revoke row)).
  { unfold s0. rewrite stored_revoke_by_id.
    change (stored t (log_call refreshToken_findUnique s)) with (stored t s).
    rewrite Hrow. simpl. now rewrite Nat.eqb_refl. }
  apply stored_Some in Hrow. destruct Hrow as [Hin Htok].
  apply generateTokens_Return in Hg.
  destruct Hg as (Hpair & Hdup & Hus & Hrs & Hst & Hnext).
  assert (Hsub : RefreshToken.userId row = TokenPayload.sub payload).
  { rewrite Forall_forall in W1. destruct (W1 row Hin) as (p & i & e & Hp & Hs & _).
    rewrite Htok in Hp. unfold t in Hp. injection Hp as -> _ _. now symmetry. }
  assert (Hstored1 : stored t s1 = Some (RefreshToken.revoke row)).
  { unfold stored in *. rewrite Hrs. now apply find_app_Some. }
  split; [|exists (RefreshToken.revoke row); split; [assumption | reflexivity]].
  unfold dead, t. fold t. split; [|split].
  - rewrite Hnext. simpl.
    destruct (W3 row Hin) as [u [Hu Hid]]. specialize (W4 u Hu). lia.
  - intros r Hr Hrt. rewrite Hrs in Hr.
    apply in_app_or in Hr. destruct Hr as [Hr|[<-|[]]].
    + simpl in Hr. apply in_map_iff in Hr. destruct Hr as [r0 [<- Hr0]].
      assert (r0 = row).
      { apply (NoDup_map_inj RefreshToken.token (refreshTokens s)); try assumption.
        rewrite Htok.
        destruct (Nat.eqb (RefreshToken.id r0) (RefreshToken.id row)); exact Hrt. }
      subst r0. rewrite Nat.eqb_refl. simpl. auto.
    + exfalso. simpl in Hrt.
      assert (Ht : existsb (prisma.refreshToken.has_token (refreshToken pair))
                           (refreshTokens s0) = true).
      { apply existsb_exists. exists (RefreshToken.revoke row). split.
        - apply (find_some _ _ Hrow0).
        - apply has_token_true. rewrite Hpair. simpl. congruence. }
      congruence.
  - left. exists (RefreshToken.revoke row). split.
    + apply (find_some _ _ Hstored1).
    + exact Htok.
Qed.

(** A dead token is turned away by every later call. *)
Lemma refresh_dead_fails (cfg : Host) clock now payload iat exp s :
  wf cfg clock s ->
  TokenPayload.type payload = refresh ->
  dead (Jws (config.secret cfg) payload iat exp) s ->
  snd (refreshAccessToken cfg now (Jws (config.secret cfg) payload iat exp) s)
  = Throw (new_AuthenticationError
             (if exp <=? clockTimestamp now
              then "Invalid refresh token" else "Token has been revoked")).
Proof.
  intros [W1 W2 W3 W4] Hty (D1 & D2 & D3).
  rewrite refreshAccessToken_eq, verify_refresh_signed.
  destruct (exp <=? clockTimestamp now); [reflexivity|].
  destruct (TokenType_eq_dec _ _); [|contradiction].
  simpl.
  destruct (stored _ s) as [row|] eqn:Hrow; [|reflexivity].
  apply stored_Some in Hrow. destruct Hrow as [Hin Htok].
  destruct (find_owner_exists _ _ (W3 row Hin)) as [owner ->].
  destruct (D2 row Hin Htok) as [-> _]. reflexivity.
Qed.

Lemma issued_token_older cfg clock now id email role d r :
  issued cfg clock r ->
  clockTimestamp clock < clockTimestamp now ->
  prisma.refreshToken.has_token
    (jwt_sign (TokenPayload.mk id email role refresh) (config.secret cfg) d now) r = false.
Proof.
  intros (p & iat & exp & Ht & _ & Hi) Hlt.
  destruct (prisma.refreshToken.has_token _ r) eqn:E; [|reflexivity].
  apply has_token_true in E. rewrite Ht in E. unfold jwt_sign in E.
  injection E as _ Hiat _. lia.
Qed.

(** The refresh token of a pair just returned is accepted at any later
    second inside both of its validity windows: the one it carries and the
    one of its row. *)
Lemma minted_token_accepted (cfg : Host) clock now now' t s s1 pair row' :
  wf cfg clock s -> clock <= now ->
  refreshAccessToken cfg now t s = (s1, Return pair) ->
  clockTimestamp now < clockTimestamp now' ->
  clockTimestamp now'
  < clockTimestamp now + parseDuration (config.refreshTokenExpiresIn cfg) ->
  stored (refreshToken pair) s1 = Some row' ->
  elapsed (RefreshToken.expiresAt row') now' = false ->
  exists pair', snd (refreshAccessToken cfg now' (refreshToken pair) s1) = Return pair'.
Proof.
  intros Hwf Hle H Hlater Hjwt Hrow' Hstore.
  assert (Hwf1 : wf cfg now s1).
  { replace s1 with (fst (refreshAccessToken cfg now t s)) by now rewrite H.
    eapply wf_tsteps; [apply stepping_refreshAccessToken|].
    eapply wf_mono; eassumption. }
  apply refresh_Return_inv in H.
  destruct H as (payload & iat & exp & row & owner & -> & Hty & Hexp & Hrow
                 & Hrev & Hel & Hown & Hg).
  apply generateTokens_Return in Hg.
  destruct Hg as (-> & Hdup & Hus & Hrs & Hst & Hnext).
  simpl in Hus.
  pose proof (find_user_id _ _ _ Hown) as [Hoin Hoid].
  rewrite refreshAccessToken_eq.
  unfold minted at 1. cbn [refreshToken]. unfold jwt_sign at 1.
  rewrite verify_refresh_signed.
  assert (E : (clockTimestamp now + parseDuration (config.refreshTokenExpiresIn cfg)
               <=? clockTimestamp now') = false) by (apply Z.leb_gt; lia).
  rewrite E. cbn [TokenPayload.type].
  destruct (TokenType_eq_dec refresh refresh); [|contradiction].
  cbv zeta.
  change (Jws (config.secret cfg)
              (TokenPayload.mk (User.id owner) (User.email owner) (User.role owner) refresh)
              (clockTimestamp now)
              (clockTimestamp now + parseDuration (config.refreshTokenExpiresIn cfg)))
    with (refreshToken (minted cfg now (User.id owner) (User.email owner)
                               (User.role owner))).
  rewrite Hst in Hrow'. injection Hrow' as <-.
  rewrite Hst. cbn [minted_row RefreshToken.userId RefreshToken.isRevoked
                    RefreshToken.expiresAt RefreshToken.id] in Hstore |- *.
  rewrite Hus, Hoid, Hown, Hstore.
  rewrite generateTokens_eq. cbv zeta.
  assert (Hfresh : existsb
            (prisma.refreshToken.has_token
               (refreshToken (minted cfg now' (User.id owner) (User.email owner)
                                     (User.role owner))))
            (refreshTokens
               (revoke_by_id
                  (nextUuid (revoke_by_id (RefreshToken.id row)
                               (log_call refreshToken_findUnique s)))
                  (log_call refreshToken_findUnique s1))) = false).
  { apply not_true_is_false. intros Hex. apply existsb_exists in Hex.
    destruct Hex as [r [Hr Hhas]]. simpl in Hr.
    apply in_map_iff in Hr. destruct Hr as [r0 [<- Hr0]].
    assert (Hhas0 : prisma.refreshToken.has_token
                      (refreshToken (minted cfg now' (User.id owner) (User.email owner)
                                            (User.role owner))) r0 = true).
    { cbv beta in Hhas. destruct (Nat.eqb (RefreshToken.id r0) _); exact Hhas. }
    destruct Hwf1 as [W1 _ _ _]. rewrite Forall_forall in W1.
    unfold minted in Hhas0. cbn [refreshToken] in Hhas0.
    rewrite (issued_token_older cfg now now' _ _ _ _ r0 (W1 r0 Hr0) Hlater) in Hhas0.
    discriminate. }
  rewrite Hfresh.
  assert (Hfk : existsb (prisma.user_matches (prisma.where_id (User.id owner)))
                  (users (revoke_by_id
                     (nextUuid (revoke_by_id (RefreshToken.id row)
                                  (log_call refreshToken_findUnique s)))
                     (log_call refreshToken_findUnique s1))) = true).
  { simpl. rewrite Hus. apply existsb_user_id. eauto. }
  rewrite Hfk. simpl. eauto.
Qed.

Lemma existsb_map_same {A} (p : A -> bool) (g : A -> A) l :
  (forall x, p (g x) = p x) -> existsb p (List.map g l) = existsb p l.
Proof.
  intros Hp. induction l as [|x l IH]; simpl; [reflexivity|].
  now rewrite Hp, IH.
Qed.

(** The outcome of a call whose token passes [jwt.verify] as a refresh
    token, read off the store: the two rejections of the store check, and
    on the passing path the result of the insert of the new row. *)
Lemma refresh_store_check (cfg : Host) clock now t payload s :
  wf cfg clock s ->
  verify_refresh cfg now t = Return payload ->
  TokenPayload.type payload = refresh ->
  match stored t s with
  | None =>
      snd (refreshAccessToken cfg now t s)
      = Throw (new_AuthenticationError "Token has been revoked")
  | Some row =>
      if RefreshToken.isRevoked row
      then snd (refreshAccessToken cfg now t s)
           = Throw (new_AuthenticationError "Token has been revoked")
      else if elapsed (RefreshToken.expiresAt row) now
      then snd (refreshAccessToken cfg now t s)
           = Throw (new_AuthenticationError "Token has expired")
      else exists owner,
          find (prisma.user_matches (prisma.where_id (RefreshToken.userId row))) (users s)
          = Some owner
          /\ snd (refreshAccessToken cfg now t s)
             = if existsb (prisma.refreshToken.has_token
                             (refreshToken (minted cfg now (User.id owner)
                                              (User.email owner) (User.role owner))))
                          (refreshTokens s)
               then Throw (prisma_error "P2002" "token")
               else Return (minted cfg now (User.id owner) (User.email owner)
                                   (User.role owner))
  end.
Proof.
  intros [W1 W2 W3 W4] Hv Hty.
  rewrite refreshAccessToken_eq, Hv.
  destruct (TokenType_eq_dec _ _); [|contradiction].
  cbv zeta.
  destruct (stored t s) as [row|] eqn:Hrow; [|reflexivity].
  apply stored_Some in Hrow. destruct Hrow as [Hin Htok].
  destruct (find_owner_exists _ _ (W3 row Hin)) as [owner Hown]. rewrite Hown.
  destruct (RefreshToken.isRevoked row); [reflexivity|].
  destruct (elapsed _ _); [reflexivity|].
  exists owner. split; [reflexivity|].
  rewrite generateTokens_eq. cbv zeta.
  assert (Hsame : forall tk,
             existsb (prisma.refreshToken.has_token tk)
               (refreshTokens (revoke_by_id (RefreshToken.id row)
                                 (log_call refreshToken_findUnique s)))
             = existsb (prisma.refreshToken.has_token tk) (refreshTokens s)).
  { intros tk. simpl. apply existsb_map_same. intros r.
    apply (has_token_revoke_if tk
             (fun r => Nat.eqb (RefreshToken.id r) (RefreshToken.id row))). }
  rewrite Hsame.
  destruct (existsb (prisma.refreshToken.has_token _) (refreshTokens s)); [reflexivity|].
  assert (Hfk : existsb (prisma.user_matches (prisma.where_id (User.id owner)))
                  (users (revoke_by_id (RefreshToken.id row)
                            (log_call refreshToken_findUnique s))) = true).
  { simpl. apply existsb_user_id. exists owner. split; [|reflexivity].
    apply (find_some _ _ Hown). }
  rewrite Hfk. reflexivity.
Qed.

(** [refreshAccessToken] does not look at [isActive]: switching the flag of
    any account changes neither the outcome nor what is written. *)
Lemma refresh_ignores_isActive (cfg : Host) now t i b s :
  refreshAccessToken cfg now t (with_isActive i b s)
  = (with_isActive i b (fst (refreshAccessToken cfg now t s)),
     snd (refreshAccessToken cfg now t s)).
Proof.
  set (g := fun u => if Nat.eqb (User.id u) i then User.set_isActive b u else u).
  assert (Hid : forall u, User.id (g u) = User.id u).
  { intros u. unfold g. destruct (Nat.eqb (User.id u) i); reflexivity. }
  assert (Hem : forall u, User.email (g u) = User.email u).
  { intros u. unfold g. destruct (Nat.eqb (User.id u) i); reflexivity. }
  assert (Hro : forall u, User.role (g u) = User.role u).
  { intros u. unfold g. destruct (Nat.eqb (User.id u) i); reflexivity. }
  rewrite !refreshAccessToken_eq.
  destruct (verify_refresh cfg now t) as [payload|e]; [|reflexivity].
  destruct (TokenType_eq_dec _ _); [|reflexivity].
  cbv zeta.
  change (stored t (with_isActive i b s)) with (stored t s).
  destruct (stored t s) as [row|]; [|reflexivity].
  change (users (with_isActive i b s)) with (List.map g (users s)).
  rewrite (find_map_same _ g).
  2:{ intros u. simpl. now rewrite Hid. }
  destruct (find _ (users s)) as [owner|]; [|reflexivity].
  cbn [option_map].
  destruct (RefreshToken.isRevoked row); [reflexivity|].
  destruct (elapsed _ _); [reflexivity|].
  rewrite Hid, Hem, Hro, !generateTokens_eq. cbv zeta.
  change (refreshTokens (revoke_by_id (RefreshToken.id row)
            (log_call refreshToken_findUnique (with_isActive i b s))))
    with (refreshTokens (revoke_by_id (RefreshToken.id row)
            (log_call refreshToken_findUnique s))).
  destruct (existsb (prisma.refreshToken.has_token _) _); [reflexivity|].
  change (users (revoke_by_id (RefreshToken.id row)
            (log_call refreshToken_findUnique (with_isActive i b s))))
    with (List.map g (users s)).
  rewrite (existsb_map_same _ g).
  2:{ intros u. simpl. now rewrite Hid. }
  change (users (revoke_by_id (RefreshToken.id row)
            (log_call refreshToken_findUnique s))) with (users s).
  destruct (negb _); reflexivity.
Qed.

(** C1 (amended).  Let [refreshAccessToken] return a pair for [t] at time
    [now], in a store that satisfies the invariants every run maintains.
    Then the row stored for [t] has isRevoked = true, and after any further
    run of the service a call with [t] fails: with "Token has been revoked"
    as long as [t] still passes [jwt.verify], and with "Invalid refresh
    token" once its embedded expiry has elapsed.  The refresh token of the
    returned pair has a row of its own that is not revoked, and it is
    accepted when it is presented next, at a later clock second, while it
    passes [jwt.verify] and the expiresAt of that row has not elapsed. *)
Theorem rotation_is_single_use (cfg : Host) clock now t s s1 pair
        (Hwf : wf cfg clock s) (Hclock : clock <= now)
        (Hok : refreshAccessToken cfg now t s = (s1, Return pair)) :
  (exists row, stored t s1 = Some row /\ RefreshToken.isRevoked row = true)
  /\ (forall trace now', chronological now trace ->
        snd (refreshAccessToken cfg now' t (run cfg trace s1))
        = Throw (new_AuthenticationError
                   match jwt_verify t (config.secret cfg) now' with
                   | Return _ => "Token has been revoked"
                   | Throw _ => "Invalid refresh token"
                   end))
  /\ (exists row',
        stored (refreshToken pair) s1 = Some row'
        /\ RefreshToken.isRevoked row' = false)
  /\ (forall now' payload row',
        clockTimestamp now < clockTimestamp now' ->
        jwt_verify (refreshToken pair) (config.secret cfg) now' = Return payload ->
        stored (refreshToken pair) s1 = Some row' ->
        elapsed (RefreshToken.expiresAt row') now' = false ->
        exists pair',
          snd (refreshAccessToken cfg now' (refreshToken pair) s1) = Return pair').
Proof.
  assert (Hwf0 : wf cfg now s) by (eapply wf_mono; eassumption).
  assert (Hwf1 : wf cfg now s1).
  { replace s1 with (fst (refreshAccessToken cfg now t s)) by now rewrite Hok.
    eapply wf_tsteps; [apply stepping_refreshAccessToken | assumption]. }
  destruct (refresh_Return_dead _ _ _ _ _ _ _ Hwf Hok) as [Hdead Hrow].
  split; [exact Hrow|]. split; [|split].
  - intros trace now' Hch.
    pose proof (wf_run cfg trace now s1 Hwf1 Hch) as Hwf2.
    pose proof (dead_run cfg t trace s1 Hdead) as Hdead2.
    apply refresh_Return_inv in Hok.
    destruct Hok as (payload & iat & exp & row & owner & -> & Hty & _).
    rewrite (refresh_dead_fails cfg _ now' payload iat exp _ Hwf2 Hty Hdead2).
    unfold jwt_verify.
    destruct (string_dec (config.secret cfg) (config.secret cfg)); [|contradiction].
    destruct (exp <=? clockTimestamp now'); reflexivity.
  - apply refresh_Return_inv in Hok.
    destruct Hok as (p0 & iat & exp & row & owner & _ & _ & _ & _ & _ & _ & _ & Hg).
    apply generateTokens_Return in Hg. destruct Hg as (-> & _ & _ & _ & Hst & _).
    eexists. split; [exact Hst|reflexivity].
  - intros now' payload row' Hlater Hv Hrow' Hstore.
    apply (minted_token_accepted cfg clock now now' t s s1 pair row'); try assumption.
    apply refresh_Return_inv in Hok.
    destruct Hok as (p0 & iat & exp & row & owner & _ & _ & _ & _ & _ & _ & _ & Hg).
    apply generateTokens_Return in Hg. destruct Hg as (-> & _).
    unfold minted in Hv. cbn [refreshToken] in Hv. unfold jwt_sign, jwt_verify in Hv.
    destruct (string_dec (config.secret cfg) (config.secret cfg)); [|contradiction].
    destruct (_ <=? clockTimestamp now') eqn:E; [discriminate|].
    apply Z.leb_gt in E. exact E.
Qed.

Lemma rotation_is_single_use_witness :
  snd (refreshAccessToken cfg0 9000 alice_refresh_token
         (run cfg0 [(8000, op_login (mkLoginInput "a@x.com" "Passw0rd"))]
              (fst (refreshAccessToken cfg0 7000 alice_refresh_token db_two_users))))
  = Throw (new_AuthenticationError "Token has been revoked")
  /\ exists pair',
      snd (refreshAccessToken cfg0 8000
             (Jws "s3cret" (TokenPayload.mk 0%nat "a@x.com" USER refresh) 7 604807)
             (fst (refreshAccessToken cfg0 7000 alice_refresh_token db_two_users)))
      = Return pair'.
Proof.
  destruct (rotation_is_single_use cfg0 6000 7000 alice_refresh_token db_two_users
              (fst (refreshAccessToken cfg0 7000 alice_refresh_token db_two_users))
              (mkTokenPair
                 (Jws "s3cret" (TokenPayload.mk 0%nat "a@x.com" USER access) 7 907)
                 (Jws "s3cret" (TokenPayload.mk 0%nat "a@x.com" USER refresh) 7 604807)))
    as (_ & Hreplay & _ & Hnext).
  - apply (wf_run cfg0 [(5000, op_register "salt-a" alice);
                        (6000, op_register "salt-b" bob)] 0 empty_db (wf_empty cfg0 0)).
    simpl. lia.
  - lia.
  - vm_compute. reflexivity.
  - split.
    + apply (Hreplay [(8000, op_login (mkLoginInput "a@x.com" "Passw0rd"))] 9000).
      simpl. lia.
    + eapply (Hnext 8000 (TokenPayload.mk 0%nat "a@x.com" USER refresh)).
      * vm_compute. reflexivity.
      * reflexivity.
      * vm_compute. reflexivity.
      * reflexivity.
Defined.

(** C1 (as stated, refuted).  Alice's refresh token is rotated at t = 7 s.
    Replayed after its embedded expiry (7 days after it was signed) it is
    turned away by [jwt.verify], with "Invalid refresh token", not with the
    revoked-token message; and the new refresh token, presented next but
    within the second it was signed in, is not accepted: the call signs the
    same string again and the insert violates the unique index. *)
Lemma rotated_token_replay_counterexample :
  exists s1 pair,
    refreshAccessToken cfg0 7000 alice_refresh_token db_two_users = (s1, Return pair)
    /\ snd (refreshAccessToken cfg0 604806000 alice_refresh_token s1)
       = Throw (new_AuthenticationError "Invalid refresh token")
    /\ snd (refreshAccessToken cfg0 604806000 alice_refresh_token s1)
       <> Throw (new_AuthenticationError "Token has been revoked")
    /\ snd (refreshAccessToken cfg0 7999 (refreshToken pair) s1)
       = Throw (prisma_error "P2002" "token").
Proof.
  eexists. eexists. split; [vm_compute; reflexivity|].
  split; [vm_compute; reflexivity|].
  split; [vm_compute; discriminate|].
  vm_compute. reflexivity.
Qed.

Lemma refresh_collision_eq (cfg : Host) now t payload row owner s :
  verify_refresh cfg now t = Return payload ->
  TokenPayload.type payload = refresh ->
  stored t s = Some row ->
  find (prisma.user_matches (prisma.where_id (RefreshToken.userId row))) (users s)
  = Some owner ->
  RefreshToken.isRevoked row = false ->
  elapsed (RefreshToken.expiresAt row) now = false ->
  t = refreshToken (minted cfg now (User.id owner) (User.email owner) (User.role owner)) ->
  refreshAccessToken cfg now t s
  = (log_call refreshToken_create
       (revoke_by_id (RefreshToken.id row) (log_call refreshToken_findUnique s)),
     Throw (prisma_error "P2002" "token")).
Proof.
  intros Hv Hty Hrow Hown Hrev Hel Ht.
  rewrite refreshAccessToken_eq, Hv.
  destruct (TokenType_eq_dec _ _); [|contradiction].
  cbv zeta. rewrite Hrow, Hown, Hrev, Hel.
  rewrite generateTokens_eq. cbv zeta. rewrite <- Ht.
  assert (Hdup : existsb (prisma.refreshToken.has_token t)
                   (refreshTokens (revoke_by_id (RefreshToken.id row)
                                     (log_call refreshToken_findUnique s))) = true).
  { rewrite find_existsb.
    change (find (prisma.refreshToken.has_token t)
                 (refreshTokens (revoke_by_id (RefreshToken.id row)
                                   (log_call refreshToken_findUnique s))))
      with (stored t (revoke_by_id (RefreshToken.id row)
                        (log_call refreshToken_findUnique s))).
    rewrite stored_revoke_by_id.
    change (stored t (log_call refreshToken_findUnique s)) with (stored t s).
    now rewrite Hrow. }
  rewrite Hdup. reflexivity.
Qed.

(** The collision in general.  A refresh token presented within the clock
    second it was signed in, by an owner whose e-mail address and role are
    unchanged, passes [jwt.verify] as a refresh token, has its row in the
    store, not revoked and not expired, and yet no pair is minted: the call
    revokes the row, signs the very same string again and fails on the
    unique index of the token column with P2002.  The row is left revoked. *)
Lemma refresh_in_issuing_second_fails (cfg : Host) now s row owner
        (Hwindow : 0 < parseDuration (config.refreshTokenExpiresIn cfg))
        (Hrow : stored (refreshToken (minted cfg now (User.id owner) (User.email owner)
                                             (User.role owner))) s = Some row)
        (Hown : find (prisma.user_matches (prisma.where_id (RefreshToken.userId row)))
                     (users s) = Some owner)
        (Hlive : RefreshToken.isRevoked row = false)
        (Hfresh : elapsed (RefreshToken.expiresAt row) now = false) :
  let t := refreshToken (minted cfg now (User.id owner) (User.email owner)
                                (User.role owner)) in
  jwt_verify t (config.secret cfg) now
  = Return (TokenPayload.mk (User.id owner) (User.email owner) (User.role owner) refresh)
  /\ snd (refreshAccessToken cfg now t s) = Throw (prisma_error "P2002" "token")
  /\ stored t (fst (refreshAccessToken cfg now t s)) = Some (RefreshToken.revoke row).
Proof.
  intros t. fold t in Hrow.
  assert (Hv : jwt_verify t (config.secret cfg) now
               = Return (TokenPayload.mk (User.id owner) (User.email owner)
                                         (User.role owner) refresh)).
  { unfold t, minted. cbn [refreshToken]. unfold jwt_sign, jwt_verify.
    destruct (string_dec (config.secret cfg) (config.secret cfg)); [|contradiction].
    assert (E : (clockTimestamp now + parseDuration (config.refreshTokenExpiresIn cfg)
                 <=? clockTimestamp now) = false) by (apply Z.leb_gt; lia).
    now rewrite E. }
  split; [exact Hv|].
  rewrite (refresh_collision_eq cfg now t
             (TokenPayload.mk (User.id owner) (User.email owner) (User.role owner) refresh)
             row owner s); try assumption; try reflexivity.
  - split; [reflexivity|]. cbn [fst].
    change (stored t (log_call refreshToken_create
                        (revoke_by_id (RefreshToken.id row)
                           (log_call refreshToken_findUnique s))))
      with (stored t (revoke_by_id (RefreshToken.id row)
                        (log_call refreshToken_findUnique s))).
    rewrite stored_revoke_by_id.
    change (stored t (log_call refreshToken_findUnique s)) with (stored t s).
    rewrite Hrow. cbn [option_map]. now rewrite Nat.eqb_refl.
  - unfold verify_refresh. now rewrite Hv.
Qed.

Lemma verify_refresh_of_jwt_verify cfg now t payload :
  jwt_verify t (config.secret cfg) now = Return payload ->
  verify_refresh cfg now t = Return payload.
Proof. unfold verify_refresh. now intros ->. Qed.







(* ===================================================================== *)
(** ** 14. Durations *)
(* ===================================================================== *)

Lemma parseInt_acc_nonneg ds : forall acc,
  0 <= acc -> forallb is_digit ds = true ->
  0 <= fold_left (fun a c => 10 * a + (Z.of_N (N_of_ascii c) - 48)) ds acc.
Proof.
  induction ds as [|c ds IH]; cbn [fold_left forallb]; intros acc Hacc Hd;
    [assumption|].
  apply andb_true_iff in Hd. destruct Hd as [Hc Hd].
  apply IH; [|assumption].
  unfold is_digit in Hc. apply andb_true_iff in Hc. destruct Hc as [Hlo _].
  apply N.leb_le in Hlo. lia.
Qed.

Lemma parseInt_nonneg ds : forallb is_digit ds = true -> 0 <= parseInt ds.
Proof. intros H. apply parseInt_acc_nonneg; [lia | assumption]. Qed.

Lemma forallb_rev {A} (p : A -> bool) l : forallb p (rev l) = forallb p l.
Proof.
  induction l as [|a l IH]; simpl; [reflexivity|].
  rewrite forallb_app, IH. simpl. rewrite andb_true_r. apply andb_comm.
Qed.

(** X1.  On a string made of one or more decimal digits followed by one of
    the unit letters s, m, h, d, [parseDuration] returns the number the
    digits spell times the length of the unit in seconds (1, 60, 3600,
    86400), as long as that product is a safe integer, at most 2^53 - 1:
    up to there [parseInt] and the multiplications are exact in JavaScript
    numbers. *)
Theorem parseDuration_well_formed ds unit k
        (Hnonempty : ds <> [])
        (Hdigits : forallb is_digit ds = true)
        (Hunit : unit_seconds unit = Some k)
        (Hexact : parseInt ds * k <= MAX_SAFE_INTEGER) :
  parseDuration (string_of_list_ascii (ds ++ [unit])) = parseInt ds * k
  /\ 0 <= parseDuration (string_of_list_ascii (ds ++ [unit])) <= MAX_SAFE_INTEGER.
Proof.
  unfold parseDuration.
  rewrite list_ascii_of_string_of_list_ascii, rev_app_distr. simpl.
  destruct (rev ds) as [|d rds] eqn:Hrev.
  { apply (f_equal (@rev ascii)) in Hrev. rewrite rev_involutive in Hrev.
    simpl in Hrev. contradiction. }
  rewrite <- Hrev, forallb_rev, Hdigits, rev_involutive.
  pose proof (parseInt_nonneg ds Hdigits) as Hpos.
  unfold unit_seconds in Hunit.
  destruct (Ascii.eqb unit "s"); [injection Hunit as <-; lia|].
  destruct (Ascii.eqb unit "m"); [injection Hunit as <-; lia|].
  destruct (Ascii.eqb unit "h"); [injection Hunit as <-; lia|].
  destruct (Ascii.eqb unit "d"); [injection Hunit as <-; lia|].
  discriminate.
Qed.

Lemma parseDuration_well_formed_witness :
  parseDuration "90m" = 90 * 60
  /\ 0 <= parseDuration "90m" <= MAX_SAFE_INTEGER.
Proof.
  apply (parseDuration_well_formed ["9"; "0"]%char "m"%char 60).
  - discriminate.
  - reflexivity.
  - reflexivity.
  - vm_compute. discriminate.
Defined.

(** X2.  [parseDuration] never returns a negative number, whatever the
    string; so every token [generateTokens] signs has [exp >= iat]. *)
Theorem parseDuration_nonneg duration : 0 <= parseDuration duration.
Proof.
  unfold parseDuration.
  destruct (rev (list_ascii_of_string duration)) as [|unit [|d rds]]; try lia.
  destruct (forallb is_digit (d :: rds)) eqn:Hd; [|lia].
  assert (Hv : 0 <= parseInt (rev (d :: rds))).
  { apply parseInt_nonneg. now rewrite forallb_rev. }
  destruct (Ascii.eqb unit "s"); [assumption|].
  destruct (Ascii.eqb unit "m"); [lia|].
  destruct (Ascii.eqb unit "h"); [lia|].
  destruct (Ascii.eqb unit "d"); lia.
Qed.

(* ===================================================================== *)
(** ** 15. More on the session service *)
(* ===================================================================== *)

(** X3.  Unless the presented string passes [jwt.verify] with the type
    "refresh", [refreshAccessToken] fails before it reaches the database:
    the store, query log included, is untouched.  Every verification
    failure (malformed, bad signature, expired) gets the one message
    "Invalid refresh token"; a verified token of the other type gets
    "Invalid token type", so an access token cannot be exchanged for a new
    pair. *)
Theorem refresh_needs_refresh_token (cfg : Host) now t s
        (Hnot : forall payload,
            jwt_verify t (config.secret cfg) now = Return payload ->
            TokenPayload.type payload = access) :
  refreshAccessToken cfg now t s
  = (s, Throw (new_AuthenticationError
                 match jwt_verify t (config.secret cfg) now with
                 | Return _ => "Invalid token type"
                 | Throw _ => "Invalid refresh token"
                 end)).
Proof.
  rewrite refreshAccessToken_eq. unfold verify_refresh.
  destruct (jwt_verify t (config.secret cfg) now) as [payload|e]; [|reflexivity].
  specialize (Hnot payload eq_refl).
  destruct (TokenType_eq_dec _ _) as [Heq|]; [congruence | reflexivity].
Qed.

Lemma refresh_needs_refresh_token_witness :
  refreshAccessToken cfg0 9000 alice_access_token db_two_users
  = (db_two_users, Throw (new_AuthenticationError "Invalid token type")).
Proof.
  apply (refresh_needs_refresh_token cfg0 9000 alice_access_token db_two_users).
  intros payload H. vm_compute in H. injection H as <-. reflexivity.
Defined.

Lemma login_Return_inv (cfg : Host) now data s s' r :
  login cfg now data s = (s', Return r) ->
  exists u u0,
    account (login_email data) s = Some u
    /\ User.isActive u = true
    /\ verifyPassword (login_password data) (User.passwordHash u) = true
    /\ find (prisma.user_matches (prisma.where_id (User.id u))) (users s) = Some u0
    /\ generateTokens cfg now (User.id u) (User.email u) (User.role u)
         (mkDb (List.map (fun x => if prisma.user_matches (prisma.where_id (User.id u)) x
                                   then User.set_updatedAt now
                                          (User.set_lastLoginAt (Some now) u0)
                                   else x) (users s))
               (refreshTokens s) (nextUuid s)
               ((calls s ++ [user_findUnique]) ++ [user_update]))
       = (s', Return (tokens r))
    /\ user r = toSafeUser (userObject u).
Proof.
  unfold login, account, prisma.user.findUnique, prisma.user.update.
  async_unfold. simpl.
  destruct (find (prisma.user_matches (prisma.where_email _)) (users s)) as [u|];
    [|discriminate].
  destruct (User.isActive u) eqn:Hact; simpl; [|discriminate].
  destruct (verifyPassword _ _) eqn:Hpw; simpl; [|discriminate].
  destruct (find (prisma.user_matches (prisma.where_id _)) (users s)) as [u0|] eqn:Hid;
    simpl; [|discriminate].
  destruct (generateTokens _ _ _ _ _ _) as [s2 [pr|e]] eqn:Hg; [|discriminate].
  intros H. injection H as <- <-.
  exists u, u0.
  split; [reflexivity|]. split; [assumption|]. split; [assumption|].
  split; [assumption|]. split; [exact Hg | reflexivity].
Qed.

Lemma login_pass_eq (cfg : Host) now data s u u0 :
  account (login_email data) s = Some u ->
  User.isActive u = true ->
  verifyPassword (login_password data) (User.passwordHash u) = true ->
  find (prisma.user_matches (prisma.where_id (User.id u))) (users s) = Some u0 ->
  login cfg now data s
  = match generateTokens cfg now (User.id u) (User.email u) (User.role u)
            (mkDb (List.map (fun x => if prisma.user_matches (prisma.where_id (User.id u)) x
                                      then User.set_updatedAt now
                                             (User.set_lastLoginAt (Some now) u0)
                                      else x) (users s))
                  (refreshTokens s) (nextUuid s)
                  ((calls s ++ [user_findUnique]) ++ [user_update])) with
    | (s2, Return pr) => (s2, Return (mkAuthResult (toSafeUser (userObject u)) pr))
    | (s2, Throw e) => (s2, Throw e)
    end.
Proof.
  unfold login, account, prisma.user.findUnique, prisma.user.update.
  async_unfold. simpl.
  intros -> -> -> Hid. simpl. rewrite Hid. simpl.
  destruct (generateTokens _ _ _ _ _ _) as [s2 [pr|e]]; reflexivity.
Qed.

(** X4.  A login that is turned away with an AuthenticationError has
    written nothing: the users table (lastLoginAt included) and the
    refresh-token table are as before. *)
Theorem login_rejection_writes_nothing (cfg : Host) now data s e
        (Hthrow : snd (login cfg now data s) = Throw e)
        (Hauth : err_class e = AuthenticationError) :
  tables (fst (login cfg now data s)) = tables s.
Proof.
  revert Hthrow.
  unfold login, prisma.user.findUnique, prisma.user.update.
  async_unfold. simpl.
  destruct (find (prisma.user_matches (prisma.where_email _)) (users s)) as [u|];
    [|reflexivity].
  destruct (User.isActive u); simpl; [|reflexivity].
  destruct (verifyPassword _ _); simpl; [|reflexivity].
  destruct (find (prisma.user_matches (prisma.where_id _)) (users s)) as [u0|];
    simpl.
  - rewrite generateTokens_eq. cbv zeta.
    destruct (existsb (prisma.refreshToken.has_token _) _); simpl.
    { intros H. injection H as <-. discriminate. }
    destruct (negb _); simpl.
    { intros H. injection H as <-. discriminate. }
    discriminate.
  - intros H. injection H as <-. discriminate.
Qed.

Lemma login_rejection_writes_nothing_witness :
  tables (fst (login cfg0 9500 (mkLoginInput "a@x.com" "wrong") db_two_users))
  = tables db_two_users.
Proof.
  apply (login_rejection_writes_nothing cfg0 9500 (mkLoginInput "a@x.com" "wrong")
           db_two_users (new_AuthenticationError "Invalid email or password"));
    reflexivity.
Defined.

(** X5.  A login that returns has stamped lastLoginAt (and updatedAt) with
    the time of the call on the row of the account and touched no other
    user; it has appended one row to the refresh-token table, unrevoked,
    owned by the account and holding the returned refresh token, and has
    left every earlier row exactly as it was: no prior session is revoked. *)
Theorem login_success_effects cfg now data s s' r
        (Hok : login cfg now data s = (s', Return r)) :
  exists u u0 row,
    account (login_email data) s = Some u
    /\ find (prisma.user_matches (prisma.where_id (User.id u))) (users s) = Some u0
    /\ users s'
       = List.map (fun x => if Nat.eqb (User.id x) (User.id u)
                            then User.set_updatedAt now
                                   (User.set_lastLoginAt (Some now) u0)
                            else x) (users s)
    /\ refreshTokens s' = (refreshTokens s ++ [row])%list
    /\ RefreshToken.token row = refreshToken (tokens r)
    /\ RefreshToken.userId row = User.id u
    /\ RefreshToken.isRevoked row = false
    /\ user r = toSafeUser (userObject u).
Proof.
  apply login_Return_inv in Hok.
  destruct Hok as (u & u0 & Hacc & _ & _ & Hid & Hg & Huser).
  apply generateTokens_Return in Hg.
  destruct Hg as (Hpair & _ & Hus & Hrs & _ & _).
  exists u, u0, (minted_row cfg now (User.id u) (User.email u) (User.role u)
                   (mkDb (List.map (fun x => if prisma.user_matches
                                                  (prisma.where_id (User.id u)) x
                                             then User.set_updatedAt now
                                                    (User.set_lastLoginAt (Some now) u0)
                                             else x) (users s))
                         (refreshTokens s) (nextUuid s)
                         ((calls s ++ [user_findUnique]) ++ [user_update]))).
  split; [assumption|]. split; [assumption|].
  split; [exact Hus|]. split; [exact Hrs|].
  split; [now rewrite Hpair|]. repeat split. exact Huser.
Qed.

Lemma login_success_effects_witness :
  exists u u0 row,
    account "a@x.com" db_two_users = Some u
    /\ find (prisma.user_matches (prisma.where_id (User.id u))) (users db_two_users)
       = Some u0
    /\ users (fst (login cfg0 8000 (mkLoginInput "a@x.com" "Passw0rd") db_two_users))
       = List.map (fun x => if Nat.eqb (User.id x) (User.id u)
                            then User.set_updatedAt 8000
                                   (User.set_lastLoginAt (Some 8000) u0)
                            else x) (users db_two_users)
    /\ refreshTokens (fst (login cfg0 8000 (mkLoginInput "a@x.com" "Passw0rd")
                                 db_two_users))
       = (refreshTokens db_two_users ++ [row])%list
    /\ RefreshToken.token row
       = Jws "s3cret" (TokenPayload.mk 0%nat "a@x.com" USER refresh) 8 604808
    /\ RefreshToken.userId row = User.id u
    /\ RefreshToken.isRevoked row = false
    /\ toSafeUser (userObject
         (User.mk 0%nat "a@x.com" "alice" (Bcrypt.mk 12 "salt-a" "Passw0rd")
                  None None true false USER None 5000 5000))
       = toSafeUser (userObject u).
Proof.
  apply (login_success_effects cfg0 8000 (mkLoginInput "a@x.com" "Passw0rd") db_two_users
           (fst (login cfg0 8000 (mkLoginInput "a@x.com" "Passw0rd") db_two_users))
           (mkAuthResult
              (toSafeUser (userObject
                 (User.mk 0%nat "a@x.com" "alice" (Bcrypt.mk 12 "salt-a" "Passw0rd")
                          None None true false USER None 5000 5000)))
              (mkTokenPair
                 (Jws "s3cret" (TokenPayload.mk 0%nat "a@x.com" USER access) 8 908)
                 (Jws "s3cret" (TokenPayload.mk 0%nat "a@x.com" USER refresh) 8 604808)))).
  vm_compute. reflexivity.
Defined.

Lemma minted_fresh_later cfg clock now id email role s :
  wf cfg clock s -> clockTimestamp clock < clockTimestamp now ->
  existsb (prisma.refreshToken.has_token (refreshToken (minted cfg now id email role)))
          (refreshTokens s) = false.
Proof.
  intros [W1 _ _ _] Hlt. apply not_true_is_false. intros Hex.
  apply existsb_exists in Hex. destruct Hex as [r [Hr Hhas]].
  rewrite Forall_forall in W1. unfold minted in Hhas. cbn [refreshToken] in Hhas.
  rewrite (issued_token_older cfg clock now _ _ _ _ r (W1 r Hr) Hlt) in Hhas.
  discriminate.
Qed.

Lemma minted_fresh_new_user cfg clock now email role s :
  wf cfg clock s ->
  existsb (prisma.refreshToken.has_token
             (refreshToken (minted cfg now (nextUuid s) email role)))
          (refreshTokens s) = false.
Proof.
  intros [W1 _ W3 W4]. apply not_true_is_false. intros Hex.
  apply existsb_exists in Hex. destruct Hex as [r [Hr Hhas]].
  apply has_token_true in Hhas.
  rewrite Forall_forall in W1. destruct (W1 r Hr) as (p & iat & exp & Ht & Hs & _).
  rewrite Ht in Hhas. unfold minted, jwt_sign in Hhas. cbn [refreshToken] in Hhas.
  injection Hhas as -> _ _. cbn [TokenPayload.sub] in Hs.
  destruct (W3 r Hr) as [u [Hu Hid]]. specialize (W4 u Hu). lia.
Qed.

Lemma find_unique_id us u :
  NoDup (List.map User.id us) -> In u us ->
  find (prisma.user_matches (prisma.where_id (User.id u))) us = Some u.
Proof.
  intros Hnd Hin.
  destruct (find _ us) as [v|] eqn:Hf.
  - apply find_user_id in Hf. destruct Hf as [Hv Hid].
    f_equal. apply (NoDup_map_inj User.id us); assumption.
  - exfalso. apply (find_none _ _ Hf) in Hin. simpl in Hin.
    now rewrite Nat.eqb_refl in Hin.
Qed.

Lemma find_map_same_In {A} (p : A -> bool) (g : A -> A) l :
  (forall x, In x l -> p (g x) = p x) ->
  find p (List.map g l) = option_map g (find p l).
Proof.
  induction l as [|x l IH]; simpl; intros Hp; [reflexivity|].
  rewrite (Hp x (or_introl eq_refl)).
  destruct (p x); [reflexivity|]. apply IH. intros y Hy. apply Hp. now right.
Qed.

Lemma register_pass_eq (cfg : Host) now salt data s :
  email_taken (reg_email data) s = false ->
  username_taken (reg_username data) s = false ->
  register cfg now salt data s
  = let u := User.mk (nextUuid s) (reg_email data) (reg_username data)
                     (hashPassword salt (reg_password data))
                     (reg_firstName data) (reg_lastName data)
                     true false USER None now now in
    match generateTokens cfg now (nextUuid s) (reg_email data) USER
            (mkDb (users s ++ [u]) (refreshTokens s) (S (nextUuid s))
                  (((calls s ++ [user_findUnique]) ++ [user_findUnique])
                   ++ [user_create])) with
    | (s2, Return pr) => (s2, Return (mkAuthResult (toSafeUser (userObject u)) pr))
    | (s2, Throw e) => (s2, Throw e)
    end.
Proof.
  unfold email_taken, username_taken. intros He Hn.
  unfold register, prisma.user.findUnique, prisma.user.create.
  async_unfold. simpl.
  pose proof He as He'. pose proof Hn as Hn'.
  rewrite find_existsb in He', Hn'.
  destruct (find (prisma.user_matches (prisma.where_email _)) (users s));
    [discriminate|].
  simpl.
  destruct (find (prisma.user_matches (prisma.where_username _)) (users s));
    [discriminate|].
  simpl in *. rewrite He, Hn. simpl.
  destruct (generateTokens _ _ _ _ _ _) as [s2 [pr|e]]; reflexivity.
Qed.



Lemma login_succeeds (cfg : Host) clock now data s u :
  wf cfg clock s -> clockTimestamp clock < clockTimestamp now ->
  account (login_email data) s = Some u ->
  User.isActive u = true ->
  verifyPassword (login_password data) (User.passwordHash u) = true ->
  snd (login cfg now data s)
  = Return (mkAuthResult (toSafeUser (userObject u))
                         (minted cfg now (User.id u) (User.email u) (User.role u))).
Proof.
  intros Hwf Hlt Hacc Hact Hpw.
  assert (Hin : In u (users s)) by (apply (find_some _ _ Hacc)).
  destruct (find_owner_exists (users s) (User.id u)) as [u0 Hid]; [eauto|].
  rewrite (login_pass_eq cfg now data s u u0 Hacc Hact Hpw Hid).
  rewrite generateTokens_eq. cbv zeta. cbn [refreshTokens users nextUuid calls].
  rewrite (minted_fresh_later cfg clock now _ _ _ s Hwf Hlt).
  rewrite existsb_map_same.
  2:{ intros x. simpl. destruct (Nat.eqb (User.id x) (User.id u)) eqn:E; [|exact E].
      simpl. apply find_user_id in Hid. destruct Hid as [_ ->]. apply Nat.eqb_refl. }
  assert (Hex : existsb (prisma.user_matches (prisma.where_id (User.id u))) (users s)
                = true) by (apply existsb_user_id; eauto).
  rewrite Hex. reflexivity.
Qed.



(** X8.  Two logins of the same account within one clock second: when the
    first has returned, the second, with the same credentials, signs the
    same refresh token again and fails on the unique index of the token
    column with P2002 (user ids being unique, as the primary key makes
    them). *)
Theorem login_twice_in_one_second (cfg : Host) now now' data s s1 r
        (Hids : NoDup (List.map User.id (users s)))
        (Hok : login cfg now data s = (s1, Return r))
        (Hsame : clockTimestamp now' = clockTimestamp now) :
  snd (login cfg now' data s1) = Throw (prisma_error "P2002" "token").
Proof.
  apply login_Return_inv in Hok.
  destruct Hok as (u & u0 & Hacc & Hact & Hpw & Hid & Hg & _).
  assert (Hin : In u (users s)) by (apply (find_some _ _ Hacc)).
  rewrite (find_unique_id _ _ Hids Hin) in Hid. injection Hid as <-.
  apply generateTokens_Return in Hg.
  destruct Hg as (Hpair & _ & Hus & Hrs & Hst & _).
  cbn [users refreshTokens] in Hus, Hrs.
  set (u' := User.set_updatedAt now (User.set_lastLoginAt (Some now) u)) in *.
  set (g := fun x => if prisma.user_matches (prisma.where_id (User.id u)) x
                     then u' else x) in *.
  assert (Hgu : g u = u').
  { unfold g. simpl. now rewrite Nat.eqb_refl. }
  assert (Hacc1 : account (login_email data) s1 = Some u').
  { unfold account. rewrite Hus, find_map_same_In.
    - unfold account in Hacc. rewrite Hacc. simpl. now rewrite Hgu.
    - intros x Hx. unfold g. simpl.
      destruct (Nat.eqb (User.id x) (User.id u)) eqn:E; [|reflexivity].
      apply Nat.eqb_eq in E.
      assert (x = u) by (apply (NoDup_map_inj User.id (users s)); assumption).
      subst x. reflexivity. }
  destruct (find_owner_exists (users s1) (User.id u')) as [u1 Hid1].
  { exists u'. split; [|reflexivity]. apply (find_some _ _ Hacc1). }
  rewrite (login_pass_eq cfg now' data s1 u' u1 Hacc1 Hact Hpw Hid1).
  rewrite generateTokens_eq. cbv zeta. cbn [refreshTokens users nextUuid calls].
  assert (Hdup : existsb (prisma.refreshToken.has_token
                    (refreshToken (minted cfg now' (User.id u') (User.email u')
                                          (User.role u'))))
                    (refreshTokens s1) = true).
  { rewrite find_existsb.
    assert (Heq : refreshToken (minted cfg now' (User.id u') (User.email u') (User.role u'))
                  = refreshToken (tokens r)).
    { rewrite Hpair. unfold minted, jwt_sign. cbn [refreshToken]. now rewrite Hsame. }
    rewrite Heq. unfold stored in Hst. now rewrite Hst. }
  rewrite Hdup. reflexivity.
Qed.

Lemma login_twice_in_one_second_witness :
  snd (login cfg0 8999 (mkLoginInput "a@x.com" "Passw0rd")
         (fst (login cfg0 8000 (mkLoginInput "a@x.com" "Passw0rd") db_two_users)))
  = Throw (prisma_error "P2002" "token").
Proof.
  apply (login_twice_in_one_second cfg0 8000 8999 (mkLoginInput "a@x.com" "Passw0rd")
           db_two_users
           (fst (login cfg0 8000 (mkLoginInput "a@x.com" "Passw0rd") db_two_users))
           (mkAuthResult
              (toSafeUser (userObject
                 (User.mk 0%nat "a@x.com" "alice" (Bcrypt.mk 12 "salt-a" "Passw0rd")
                          None None true false USER None 5000 5000)))
              (mkTokenPair
                 (Jws "s3cret" (TokenPayload.mk 0%nat "a@x.com" USER access) 8 908)
                 (Jws "s3cret" (TokenPayload.mk 0%nat "a@x.com" USER refresh) 8 604808)))).
  - vm_compute. repeat constructor; simpl; intuition discriminate.
  - vm_compute. reflexivity.
  - reflexivity.
Defined.

(* ===================================================================== *)
(** ** 16. More on the Authorization Gate *)
(* ===================================================================== *)

Lemma authenticate_attaches_live_user_aux cfg now req s s' attached :
  (exists token payload row,
      authorization req = Some (Bearer token)
      /\ jwt_verify token (config.secret cfg) now = Return payload
      /\ TokenPayload.type payload = access
      /\ find (prisma.user_matches (prisma.where_id (TokenPayload.sub payload)))
              (users s) = Some row
      /\ User.isActive row = true
      /\ attached = mkRequestUser (User.id row) (User.email row) (User.role row)
      /\ s' = log_call user_findUnique s) ->
  authenticate cfg now req s = (s', next attached).
Proof.
  unfold authenticate, authenticate_try, extractToken.
  intros (token & payload & row & -> & Hv & Hty & Hrow & Hact & -> & ->). simpl.
  assert (Ht : truthy token = true).
  { destruct token as [k p i e|str]; [reflexivity | discriminate]. }
  rewrite Ht. simpl. async_unfold. rewrite Hv. simpl.
  destruct (TokenType_eq_dec _ _); [|contradiction].
  unfold prisma.user.findUnique. async_unfold. simpl.
  rewrite Hrow. simpl. rewrite Hact. reflexivity.
Qed.

(** X9.  [authenticate] attaches a user exactly when the header is a bearer
    token that passes [jwt.verify] with the type "access" and the users
    table holds an active row for the token's subject; the identity it
    attaches is the id, e-mail address and role of that row, not the claims
    of the token; and it has made one query and written nothing. *)
Theorem authenticate_attaches_live_user cfg now req s s' attached :
  authenticate cfg now req s = (s', next attached)
  <-> exists token payload row,
        authorization req = Some (Bearer token)
        /\ jwt_verify token (config.secret cfg) now = Return payload
        /\ TokenPayload.type payload = access
        /\ find (prisma.user_matches (prisma.where_id (TokenPayload.sub payload)))
                (users s) = Some row
        /\ User.isActive row = true
        /\ attached = mkRequestUser (User.id row) (User.email row) (User.role row)
        /\ s' = log_call user_findUnique s.
Proof.
  unfold authenticate, authenticate_try, extractToken.
  split.
  - destruct (authorization req) as [[token|str]|]; simpl; try discriminate.
    destruct (truthy token); simpl; [|discriminate].
    async_unfold.
    destruct (jwt_verify token (config.secret cfg) now) as [payload|e] eqn:Hv; simpl.
    2:{ unfold authenticate_catch. intros H. injection H as _ H.
        destruct (instanceof e JsonWebTokenError); [discriminate|].
        destruct (instanceof e TokenExpiredError); discriminate. }
    destruct (TokenType_eq_dec _ _) as [Hty|]; simpl; [|discriminate].
    unfold prisma.user.findUnique. async_unfold. simpl.
    destruct (find _ (users s)) as [row|] eqn:Hrow; simpl; [|discriminate].
    destruct (User.isActive row) eqn:Hact; simpl; [|discriminate].
    intros H. injection H as <- <-.
    exists token, payload, row. repeat split; assumption.
  - fold (extractToken req).
    change (match authenticate_try cfg now req s with
            | (s1, Return u) => (s1, next u)
            | (s1, Throw error) => (s1, authenticate_catch error)
            end) with (authenticate cfg now req s).
    apply authenticate_attaches_live_user_aux.
Qed.

Lemma authenticate_cases cfg now req s :
  tables (fst (authenticate cfg now req s)) = tables s
  /\ ((exists attached, snd (authenticate cfg now req s) = next attached)
      \/ exists msg,
           In msg ["No token provided"; "Invalid token"; "Invalid token type";
                   "User not found or inactive"]
           /\ snd (authenticate cfg now req s)
              = next_error (new_AuthenticationError msg)).
Proof.
  unfold authenticate, authenticate_try, extractToken.
  destruct (authorization req) as [[token|str]|]; simpl;
    try (split; [reflexivity | right; eexists; split; [|reflexivity]; simpl; tauto]).
  destruct (truthy token); simpl;
    try (split; [reflexivity | right; eexists; split; [|reflexivity]; simpl; tauto]).
  async_unfold.
  destruct token as [key payload iat exp|str]; simpl;
    try (split; [reflexivity | right; eexists; split; [|reflexivity]; simpl; tauto]).
  destruct (string_dec key (config.secret cfg)); simpl;
    try (split; [reflexivity | right; eexists; split; [|reflexivity]; simpl; tauto]).
  destruct (exp <=? clockTimestamp now); simpl;
    try (split; [reflexivity | right; eexists; split; [|reflexivity]; simpl; tauto]).
  destruct (TokenType_eq_dec _ _); simpl;
    try (split; [reflexivity | right; eexists; split; [|reflexivity]; simpl; tauto]).
  unfold prisma.user.findUnique. async_unfold. simpl.
  destruct (find _ (users s)) as [row|]; simpl;
    try (split; [reflexivity | right; eexists; split; [|reflexivity]; simpl; tauto]).
  destruct (User.isActive row); simpl;
    try (split; [reflexivity | right; eexists; split; [|reflexivity]; simpl; tauto]).
  split; [reflexivity | left; eauto].
Qed.

(** X10.  Whatever the request, [authenticate] writes nothing, and it
    either attaches a user or hands [next] an AuthenticationError (401) with
    one of four messages: "No token provided", "Invalid token", "Invalid
    token type", "User not found or inactive".  No library error is passed
    through, and "Token expired" is never among the answers. *)
Theorem authenticate_outcomes cfg now req s :
  tables (fst (authenticate cfg now req s)) = tables s
  /\ ((exists attached, snd (authenticate cfg now req s) = next attached)
      \/ exists msg,
           In msg ["No token provided"; "Invalid token"; "Invalid token type";
                   "User not found or inactive"]
           /\ snd (authenticate cfg now req s)
              = next_error (new_AuthenticationError msg)).
Proof. exact (authenticate_cases cfg now req s). Qed.

(** X11.  [authorize(allowedRoles)]: a request without an attached user is
    answered with AuthenticationError("User not authenticated"), whatever
    the list; with an attached user the request passes exactly when the
    user's role is a member of the list, and is otherwise answered with
    AuthorizationError("Insufficient permissions", 403).  The check is
    membership, not rank: SUPER_ADMIN is refused by a list that names only
    ADMIN. *)
Theorem authorize_is_membership allowedRoles :
  authorize allowedRoles None = Some (new_AuthenticationError "User not authenticated")
  /\ (forall u, authorize allowedRoles (Some u) = None <-> In (ru_role u) allowedRoles)
  /\ (forall u, ~ In (ru_role u) allowedRoles ->
        authorize allowedRoles (Some u)
        = Some (new_AuthorizationError "Insufficient permissions"))
  /\ (forall i e, authorize [ADMIN] (Some (mkRequestUser i e SUPER_ADMIN))
                  = Some (new_AuthorizationError "Insufficient permissions")).
Proof.
  assert (Hmem : forall u, existsb (Role_eqb (ru_role u)) allowedRoles = true
                           <-> In (ru_role u) allowedRoles).
  { intros u. rewrite existsb_exists. unfold Role_eqb. split.
    - intros [x [Hx H]]. destruct (Role_eq_dec (ru_role u) x); [now subst | discriminate].
    - intros H. exists (ru_role u). split; [assumption|].
      destruct (Role_eq_dec (ru_role u) (ru_role u)); [reflexivity | contradiction]. }
  split; [reflexivity|]. split; [|split].
  - intros u. unfold authorize. rewrite <- Hmem.
    destruct (existsb _ allowedRoles); simpl; split; intros H;
      try reflexivity; discriminate.
  - intros u Hn. unfold authorize.
    destruct (existsb (Role_eqb (ru_role u)) allowedRoles) eqn:E; [|reflexivity].
    apply Hmem in E. contradiction.
  - reflexivity.
Qed.

Lemma authenticate_sound_aux cfg now req s s' attached :
  authenticate cfg now req s = (s', next attached) ->
  exists row,
    find (prisma.user_matches (prisma.where_id (ru_id attached))) (users s) = Some row
    /\ User.isActive row = true
    /\ attached = mkRequestUser (User.id row) (User.email row) (User.role row).
Proof.
  unfold authenticate, authenticate_try, extractToken.
  destruct (authorization req) as [[token|str]|]; simpl; try discriminate.
  destruct (truthy token); simpl; [|discriminate].
  async_unfold.
  destruct (jwt_verify token (config.secret cfg) now) as [payload|e]; simpl.
  2:{ unfold authenticate_catch. intros H. injection H as _ H.
      destruct (instanceof e JsonWebTokenError); [discriminate|].
      destruct (instanceof e TokenExpiredError); discriminate. }
  destruct (TokenType_eq_dec _ _); simpl; [|discriminate].
  unfold prisma.user.findUnique. async_unfold. simpl.
  destruct (find _ (users s)) as [row|] eqn:Hrow; simpl; [|discriminate].
  destruct (User.isActive row) eqn:Hact; simpl; [|discriminate].
  intros H. injection H as _ <-.
  exists row. simpl. repeat split; try assumption.
  pose proof (find_user_id _ _ _ Hrow) as [_ Hid]. now rewrite Hid.
Qed.

Lemma deleteUser_Return_inv now id s s1 :
  deleteUser now id s = (s1, Return tt) ->
  exists u0,
    find (prisma.user_matches (prisma.where_id id)) (users s) = Some u0
    /\ users s1
       = List.map (fun x => if Nat.eqb (User.id x) id
                            then User.set_updatedAt now (User.set_isActive false u0)
                            else x) (users s)
    /\ refreshTokens s1 = refreshTokens s.
Proof.
  unfold deleteUser, prisma.user.findUnique, prisma.user.update.
  async_unfold. simpl.
  destruct (find _ (users s)) as [u0|] eqn:Hf; simpl; [|discriminate].
  rewrite Hf. simpl. intros H. injection H as <-.
  exists u0. repeat split.
Qed.



(** X13.  The access token of a pair that [login] has just returned is
    accepted by the Gate at any time before its embedded expiry (the
    configured access duration after the second of the login), and the
    identity attached is the account that logged in (user ids being unique,
    as the primary key makes them). *)
Theorem login_then_authenticate cfg now now' data s s1 r
        (Hids : NoDup (List.map User.id (users s)))
        (Hok : login cfg now data s = (s1, Return r))
        (Hwindow : clockTimestamp now'
                   < clockTimestamp now + parseDuration (config.accessTokenExpiresIn cfg)) :
  exists u,
    account (login_email data) s = Some u
    /\ authenticate cfg now' (mkRequest (Some (Bearer (accessToken (tokens r))))) s1
       = (log_call user_findUnique s1,
          next (mkRequestUser (User.id u) (User.email u) (User.role u))).
Proof.
  apply login_Return_inv in Hok.
  destruct Hok as (u & u0 & Hacc & Hact & Hpw & Hid & Hg & _).
  assert (Hin : In u (users s)) by (apply (find_some _ _ Hacc)).
  rewrite (find_unique_id _ _ Hids Hin) in Hid. injection Hid as <-.
  apply generateTokens_Return in Hg.
  destruct Hg as (Hpair & _ & Hus & _).
  cbn [users] in Hus.
  exists u. split; [assumption|].
  apply (authenticate_attaches_live_user_aux cfg now'); clear Hpw.
  exists (accessToken (tokens r)),
         (TokenPayload.mk (User.id u) (User.email u) (User.role u) access),
         (User.set_updatedAt now (User.set_lastLoginAt (Some now) u)).
  split; [reflexivity|]. split.
  - rewrite Hpair. unfold minted, jwt_sign, jwt_verify. cbn [accessToken].
    destruct (string_dec (config.secret cfg) (config.secret cfg)); [|contradiction].
    assert (E : (clockTimestamp now + parseDuration (config.accessTokenExpiresIn cfg)
                 <=? clockTimestamp now') = false) by (apply Z.leb_gt; lia).
    now rewrite E.
  - split; [reflexivity|]. split.
    + cbn [TokenPayload.sub]. rewrite Hus, find_map_same.
      * rewrite (find_unique_id _ _ Hids Hin). simpl. now rewrite Nat.eqb_refl.
      * intros x. simpl.
        destruct (Nat.eqb (User.id x) (User.id u)) eqn:E; [|exact E].
        simpl. apply Nat.eqb_refl.
    + split; [exact Hact|]. split; reflexivity.
Qed.

Lemma login_then_authenticate_witness :
  exists u,
    account "a@x.com" db_two_users = Some u
    /\ authenticate cfg0 9000
         (mkRequest (Some (Bearer
            (Jws "s3cret" (TokenPayload.mk 0%nat "a@x.com" USER access) 8 908))))
         (fst (login cfg0 8000 (mkLoginInput "a@x.com" "Passw0rd") db_two_users))
       = (log_call user_findUnique
            (fst (login cfg0 8000 (mkLoginInput "a@x.com" "Passw0rd") db_two_users)),
          next (mkRequestUser (User.id u) (User.email u) (User.role u))).
Proof.
  apply (login_then_authenticate cfg0 8000 9000 (mkLoginInput "a@x.com" "Passw0rd")
           db_two_users
           (fst (login cfg0 8000 (mkLoginInput "a@x.com" "Passw0rd") db_two_users))
           (mkAuthResult
              (toSafeUser (userObject
                 (User.mk 0%nat "a@x.com" "alice" (Bcrypt.mk 12 "salt-a" "Passw0rd")
                          None None true false USER None 5000 5000)))
              (mkTokenPair
                 (Jws "s3cret" (TokenPayload.mk 0%nat "a@x.com" USER access) 8 908)
                 (Jws "s3cret" (TokenPayload.mk 0%nat "a@x.com" USER refresh) 8 604808)))).
  - vm_compute. repeat constructor; simpl; intuition discriminate.
  - vm_compute. reflexivity.
  - vm_compute. reflexivity.
Defined.

(* ===================================================================== *)
(** ** 17. Revocation, deletion and the invariants of a run *)
(* ===================================================================== *)

Lemma logout_all_eq userId s :
  logout userId None s
  = (mkDb (users s)
          (List.map (fun r => if Nat.eqb (RefreshToken.userId r) userId
                              then RefreshToken.revoke r else r) (refreshTokens s))
          (nextUuid s) (calls s ++ [refreshToken_updateMany]),
     Return tt).
Proof. reflexivity. Qed.

(** The outcome of a refresh after some rows have been revoked in bulk,
    when the row of the presented token was not among them. *)
Lemma refresh_after_bulk_revoke (cfg : Host) now t (q : RefreshToken.t -> bool) s c :
  (forall row, stored t s = Some row -> q row = false) ->
  snd (refreshAccessToken cfg now t
         (mkDb (users s)
               (List.map (fun r => if q r then RefreshToken.revoke r else r)
                         (refreshTokens s))
               (nextUuid s) c))
  = snd (refreshAccessToken cfg now t s).
Proof.
  intros Hq. rewrite !refreshAccessToken_eq.
  destruct (verify_refresh cfg now t) as [payload|e]; [|reflexivity].
  destruct (TokenType_eq_dec _ _); [|reflexivity].
  cbv zeta.
  assert (Hst : stored t (mkDb (users s)
                   (List.map (fun r => if q r then RefreshToken.revoke r else r)
                             (refreshTokens s)) (nextUuid s) c)
                = option_map (fun r => if q r then RefreshToken.revoke r else r)
                             (stored t s)).
  { unfold stored. cbn [refreshTokens]. apply find_map_same. intros r.
    apply (has_token_revoke_if t q). }
  rewrite Hst.
  destruct (stored t s) as [row|] eqn:Hrow; [|reflexivity].
  cbn [option_map]. rewrite (Hq row eq_refl). cbn [users].
  destruct (find _ (users s)) as [owner|]; [|reflexivity].
  destruct (RefreshToken.isRevoked row); [reflexivity|].
  destruct (elapsed _ _); [reflexivity|].
  rewrite !generateTokens_eq. cbv zeta.
  assert (Hsame : forall tk l (p1 p2 : RefreshToken.t -> bool),
             existsb (prisma.refreshToken.has_token tk)
               (List.map (fun r => if p1 r then RefreshToken.revoke r else r)
                  (List.map (fun r => if p2 r then RefreshToken.revoke r else r) l))
             = existsb (prisma.refreshToken.has_token tk)
                 (List.map (fun r => if p1 r then RefreshToken.revoke r else r) l)).
  { intros tk l p1 p2. rewrite !existsb_map_same; try reflexivity.
    - intros r. apply (has_token_revoke_if tk p1).
    - intros r. apply (has_token_revoke_if tk p2).
    - intros r. apply (has_token_revoke_if tk p1). }
  cbn [refreshTokens revoke_by_id log_call users].
  rewrite Hsame.
  destruct (existsb (prisma.refreshToken.has_token _) _); [reflexivity|].
  destruct (negb _); reflexivity.
Qed.

(** X14.  After [logout(userId)] without a token argument, every refresh
    token whose row belongs to that user is refused with "Token has been
    revoked" (as long as it passes [jwt.verify]); and for any token whose
    row belongs to someone else, or that has no row, [refreshAccessToken]
    answers exactly as it would have before the logout. *)
Theorem global_logout_ends_sessions (cfg : Host) clock now userId t s
        (Hwf : wf cfg clock s) :
  (forall payload row,
      jwt_verify t (config.secret cfg) now = Return payload ->
      TokenPayload.type payload = refresh ->
      stored t s = Some row -> RefreshToken.userId row = userId ->
      snd (refreshAccessToken cfg now t (fst (logout userId None s)))
      = Throw (new_AuthenticationError "Token has been revoked"))
  /\ ((forall row, stored t s = Some row -> RefreshToken.userId row <> userId) ->
      snd (refreshAccessToken cfg now t (fst (logout userId None s)))
      = snd (refreshAccessToken cfg now t s)).
Proof.
  rewrite logout_all_eq. cbn [fst]. split.
  - intros payload row Hv Hty Hrow Huid.
    rewrite refreshAccessToken_eq, (verify_refresh_of_jwt_verify _ _ _ _ Hv).
    destruct (TokenType_eq_dec _ _); [|contradiction].
    cbv zeta.
    assert (Hst : stored t (mkDb (users s)
                     (List.map (fun r => if Nat.eqb (RefreshToken.userId r) userId
                                         then RefreshToken.revoke r else r)
                               (refreshTokens s))
                     (nextUuid s) (calls s ++ [refreshToken_updateMany]))
                  = Some (RefreshToken.revoke row)).
    { unfold stored. cbn [refreshTokens]. rewrite find_map_same.
      - unfold stored in Hrow. rewrite Hrow. simpl.
        rewrite Huid, Nat.eqb_refl. reflexivity.
      - intros r.
        apply (has_token_revoke_if t (fun r => Nat.eqb (RefreshToken.userId r) userId)). }
    rewrite Hst. cbn [users RefreshToken.revoke RefreshToken.userId RefreshToken.isRevoked].
    apply stored_Some in Hrow. destruct Hrow as [Hin _].
    destruct Hwf as [_ _ W3 _].
    destruct (find_owner_exists _ _ (W3 row Hin)) as [owner ->]. reflexivity.
  - intros Hother.
    apply (refresh_after_bulk_revoke cfg now t
             (fun r => Nat.eqb (RefreshToken.userId r) userId) s).
    intros row Hrow. apply Nat.eqb_neq. now apply Hother.
Qed.

Lemma global_logout_ends_sessions_witness :
  snd (refreshAccessToken cfg0 9000 alice_refresh_token
         (fst (logout 0%nat None db_two_users)))
  = Throw (new_AuthenticationError "Token has been revoked")
  /\ snd (refreshAccessToken cfg0 9000 bob_refresh_token
            (fst (logout 0%nat None db_two_users)))
     = snd (refreshAccessToken cfg0 9000 bob_refresh_token db_two_users).
Proof.
  assert (Hwf : wf cfg0 6000 db_two_users).
  { apply (wf_run cfg0 [(5000, op_register "salt-a" alice);
                        (6000, op_register "salt-b" bob)] 0 empty_db (wf_empty cfg0 0)).
    simpl. lia. }
  split.
  - apply (proj1 (global_logout_ends_sessions cfg0 6000 9000 0%nat alice_refresh_token
                    db_two_users Hwf)
                 (TokenPayload.mk 0%nat "a@x.com" USER refresh)
                 (RefreshToken.mk 1%nat alice_refresh_token 0%nat 604805000 false 5000));
      reflexivity.
  - apply (proj2 (global_logout_ends_sessions cfg0 6000 9000 0%nat bob_refresh_token
                    db_two_users Hwf)).
    intros row Hrow. vm_compute in Hrow. injection Hrow as <-. simpl. discriminate.
Defined.

Lemma hardDeleteUser_Return_inv id s s1 :
  hardDeleteUser id s = (s1, Return tt) ->
  users s1 = filter (fun x => negb (Nat.eqb (User.id x) id)) (users s)
  /\ refreshTokens s1
     = filter (fun r => negb (Nat.eqb (RefreshToken.userId r) id)) (refreshTokens s)
  /\ nextUuid s1 = nextUuid s.
Proof.
  unfold hardDeleteUser, prisma.user.findUnique, prisma.user.delete.
  async_unfold. simpl.
  destruct (find _ (users s)) as [u0|] eqn:Hf; simpl; [|discriminate].
  rewrite Hf. simpl. intros H. injection H as <-. repeat split.
Qed.

(** X15.  When [hardDeleteUser] has returned, no user with that id and no
    refresh-token row owned by it are left, every other user and row is
    kept as it was and in order, and (in a store that satisfies the
    invariants every run maintains) a refresh token of the deleted user
    that still passes [jwt.verify] is refused with "Token has been
    revoked", its row being gone. *)
Theorem hardDelete_cascades (cfg : Host) clock id s s1
        (Hwf : wf cfg clock s)
        (Hdel : hardDeleteUser id s = (s1, Return tt)) :
  users s1 = filter (fun x => negb (Nat.eqb (User.id x) id)) (users s)
  /\ refreshTokens s1
     = filter (fun r => negb (Nat.eqb (RefreshToken.userId r) id)) (refreshTokens s)
  /\ (forall u, In u (users s1) -> User.id u <> id)
  /\ (forall r, In r (refreshTokens s1) -> RefreshToken.userId r <> id)
  /\ (forall now t payload row,
        jwt_verify t (config.secret cfg) now = Return payload ->
        TokenPayload.type payload = refresh ->
        stored t s = Some row -> RefreshToken.userId row = id ->
        snd (refreshAccessToken cfg now t s1)
        = Throw (new_AuthenticationError "Token has been revoked")).
Proof.
  apply hardDeleteUser_Return_inv in Hdel. destruct Hdel as (Hus & Hrs & _).
  split; [exact Hus|]. split; [exact Hrs|]. split; [|split].
  - intros u Hin. rewrite Hus in Hin. apply filter_In in Hin.
    destruct Hin as [_ H]. now apply negb_true_iff, Nat.eqb_neq in H.
  - intros r Hin. rewrite Hrs in Hin. apply filter_In in Hin.
    destruct Hin as [_ H]. now apply negb_true_iff, Nat.eqb_neq in H.
  - intros now t payload row Hv Hty Hrow Huid.
    rewrite refreshAccessToken_eq, (verify_refresh_of_jwt_verify _ _ _ _ Hv).
    destruct (TokenType_eq_dec _ _); [|contradiction].
    cbv zeta.
    destruct (stored t s1) as [row1|] eqn:Hrow1; [|reflexivity].
    exfalso.
    apply stored_Some in Hrow. destruct Hrow as [Hin Htok].
    apply stored_Some in Hrow1. destruct Hrow1 as [Hin1 Htok1].
    rewrite Hrs in Hin1. apply filter_In in Hin1. destruct Hin1 as [Hin1 Hne].
    destruct Hwf as [_ W2 _ _].
    assert (row1 = row).
    { apply (NoDup_map_inj RefreshToken.token (refreshTokens s)); try assumption.
      congruence. }
    subst row1. rewrite Huid, Nat.eqb_refl in Hne. discriminate.
Qed.

Lemma hardDelete_cascades_witness :
  List.map User.id (users (fst (hardDeleteUser 0%nat db_two_users))) = [2%nat]
  /\ List.map RefreshToken.userId
       (refreshTokens (fst (hardDeleteUser 0%nat db_two_users))) = [2%nat]
  /\ snd (refreshAccessToken cfg0 9000 alice_refresh_token
            (fst (hardDeleteUser 0%nat db_two_users)))
     = Throw (new_AuthenticationError "Token has been revoked").
Proof.
  destruct (hardDelete_cascades cfg0 6000 0%nat db_two_users
              (fst (hardDeleteUser 0%nat db_two_users)))
    as (Hus & Hrs & _ & _ & Hdead).
  - apply (wf_run cfg0 [(5000, op_register "salt-a" alice);
                        (6000, op_register "salt-b" bob)] 0 empty_db (wf_empty cfg0 0)).
    simpl. lia.
  - vm_compute. reflexivity.
  - split; [rewrite Hus; reflexivity|]. split; [rewrite Hrs; reflexivity|].
    apply (Hdead 9000 alice_refresh_token (TokenPayload.mk 0%nat "a@x.com" USER refresh)
                 (RefreshToken.mk 1%nat alice_refresh_token 0%nat 604805000 false 5000));
      reflexivity.
Defined.

Lemma ids_tstep cfg now s s' :
  wf cfg now s -> NoDup (List.map User.id (users s)) -> tstep cfg now s s' ->
  NoDup (List.map User.id (users s')).
Proof.
  intros [_ _ _ W4] Hnd Hstep.
  destruct Hstep as [Hu Hr Hn | u Hu Hid Hr Hn | g Hg Hu Hr Hn | i Hu Hr Hn
                    | r p exp Hr Ht Hs Hown Hfresh Hu Hn | p Hr Hu Hn];
    rewrite Hu; try assumption.
  - rewrite map_app. simpl. apply NoDup_snoc; [assumption|].
    intros Hin. apply in_map_iff in Hin. destruct Hin as [x [Hx Hin]].
    specialize (W4 x Hin). lia.
  - rewrite map_map.
    replace (List.map (fun x => User.id (g x)) (users s))
      with (List.map User.id (users s)); [assumption|].
    apply map_ext. intros x. now rewrite Hg.
  - now apply NoDup_filter_map.
Qed.

Lemma ids_tsteps cfg now s s' :
  tsteps cfg now s s' -> wf cfg now s -> NoDup (List.map User.id (users s)) ->
  NoDup (List.map User.id (users s')).
Proof.
  induction 1; intros Hwf Hnd; [assumption|].
  apply IHtsteps; [eapply wf_tstep | eapply ids_tstep]; eassumption.
Qed.

Lemma ids_run (cfg : Host) trace : forall clock s,
  wf cfg clock s -> NoDup (List.map User.id (users s)) ->
  chronological clock trace ->
  NoDup (List.map User.id (users (run cfg trace s))).
Proof.
  induction trace as [|[now op] rest IH]; intros clock s Hwf Hnd Hch; simpl in *.
  - exact Hnd.
  - destruct Hch as [Hle Hch].
    apply (IH now); [eapply wf_exec; eassumption | | assumption].
    eapply ids_tsteps; [apply exec_tsteps | eapply wf_mono; eassumption | assumption].
Qed.

(** X16.  Along every run of the service from the empty store in which
    time does not go backwards, whatever the calls and their outcomes:
    the stored refresh-token strings are pairwise distinct; every row holds
    a token signed with the configured secret for the owner of the row, no
    later than the time of the last call; the owner of every row is in the
    users table (also after deletions); user ids are pairwise distinct and
    below the next identifier to be drawn. *)
Theorem run_keeps_store_invariants (cfg : Host) clock trace
        (Hchrono : chronological clock trace) :
  NoDup (List.map RefreshToken.token (refreshTokens (run cfg trace empty_db)))
  /\ (forall r, In r (refreshTokens (run cfg trace empty_db)) ->
        exists payload iat exp,
          RefreshToken.token r = Jws (config.secret cfg) payload iat exp
          /\ TokenPayload.sub payload = RefreshToken.userId r
          /\ iat <= clockTimestamp (end_of clock trace))
  /\ (forall r, In r (refreshTokens (run cfg trace empty_db)) ->
        exists u, In u (users (run cfg trace empty_db))
                  /\ User.id u = RefreshToken.userId r)
  /\ NoDup (List.map User.id (users (run cfg trace empty_db)))
  /\ (forall u, In u (users (run cfg trace empty_db)) ->
        (User.id u < nextUuid (run cfg trace empty_db))%nat).
Proof.
  pose proof (wf_run cfg trace clock empty_db (wf_empty cfg clock) Hchrono)
    as [W1 W2 W3 W4].
  split; [exact W2|]. split.
  { intros r Hr. rewrite Forall_forall in W1. exact (W1 r Hr). }
  split; [exact W3|]. split; [|exact W4].
  apply (ids_run cfg trace clock empty_db (wf_empty cfg clock)); [constructor | assumption].
Qed.

Lemma run_keeps_store_invariants_witness :
  NoDup (List.map RefreshToken.token (refreshTokens db_two_sessions))
  /\ NoDup (List.map User.id (users db_two_sessions)).
Proof.
  destruct (run_keeps_store_invariants cfg0 0
              [(5000, op_register "salt-a" alice);
               (8000, op_login (mkLoginInput "a@x.com" "Passw0rd"))])
    as (H1 & _ & _ & H4 & _).
  - simpl. lia.
  - split; [exact H1 | exact H4].
Defined.

Lemma revoked_row_dead cfg clock s r :
  wf cfg clock s -> In r (refreshTokens s) -> RefreshToken.isRevoked r = true ->
  dead (RefreshToken.token r) s.
Proof.
  intros [W1 W2 W3 W4] Hin Hrev.
  rewrite Forall_forall in W1.
  destruct (W1 r Hin) as (p & iat & exp & Ht & Hs & _).
  rewrite Ht. unfold dead. split; [|split].
  - destruct (W3 r Hin) as [u [Hu Hid]]. specialize (W4 u Hu). lia.
  - intros r' Hin' Ht'.
    assert (r' = r).
    { apply (NoDup_map_inj RefreshToken.token (refreshTokens s)); try assumption.
      congruence. }
    subst r'. split; [assumption | now symmetry].
  - left. exists r. split; assumption.
Qed.

(** X17.  Revocation is final.  In a store that satisfies the invariants
    every run maintains, once a refresh-token row is revoked (by rotation or
    by logout), no run of the service brings the token back: whatever calls
    follow, any row that holds that token string is revoked, and no call
    ever sets isRevoked back to false. *)
Theorem revoked_stays_revoked (cfg : Host) clock s r trace r'
        (Hwf : wf cfg clock s)
        (Hin : In r (refreshTokens s))
        (Hrevoked : RefreshToken.isRevoked r = true)
        (Hin' : In r' (refreshTokens (run cfg trace s)))
        (Hsame : RefreshToken.token r' = RefreshToken.token r) :
  RefreshToken.isRevoked r' = true.
Proof.
  pose proof (revoked_row_dead cfg clock s r Hwf Hin Hrevoked) as Hdead.
  apply (dead_run cfg _ trace) in Hdead.
  destruct Hwf as [W1 _ _ _]. rewrite Forall_forall in W1.
  destruct (W1 r Hin) as (p & iat & exp & Ht & _).
  rewrite Ht in Hdead, Hsame. unfold dead in Hdead.
  destruct Hdead as (_ & D2 & _).
  now destruct (D2 r' Hin' Hsame).
Qed.

Lemma revoked_stays_revoked_witness :
  RefreshToken.isRevoked
    (RefreshToken.mk 1%nat alice_refresh_token 0%nat 604805000 true 5000) = true.
Proof.
  apply (revoked_stays_revoked cfg0 6000 (fst (logout 0%nat None db_two_users))
           (RefreshToken.mk 1%nat alice_refresh_token 0%nat 604805000 true 5000)
           [(8000, op_login (mkLoginInput "a@x.com" "Passw0rd"));
            (9000, op_refresh alice_refresh_token)]
           (RefreshToken.mk 1%nat alice_refresh_token 0%nat 604805000 true 5000)).
  - apply (wf_tsteps cfg0 6000 db_two_users); [apply (stepping_logout cfg0 6000)|].
    apply (wf_run cfg0 [(5000, op_register "salt-a" alice);
                        (6000, op_register "salt-b" bob)] 0 empty_db (wf_empty cfg0 0)).
    simpl. lia.
  - vm_compute. left. reflexivity.
  - reflexivity.
  - vm_compute. left. reflexivity.
  - reflexivity.
Defined.

(* ===================================================================== *)
(** ** 18. What the client is answered *)
(* ===================================================================== *)

Lemma instanceof_ValidationError_AppError e :
  instanceof e ValidationError = true -> instanceof e AppError = true.
Proof. unfold instanceof. destruct (err_class e); simpl; congruence. Qed.

Lemma errorHandler_on_foreign err errors :
  instanceof err AppError = false ->
  In (errorHandler_on true err errors)
     [ sendError "A record with this value already exists" (Some 409) None;
       sendError "Record not found" (Some 404) None;
       sendError "Related record not found" (Some 400) None;
       sendError "Database error" (Some 500) None;
       sendError "Invalid token" (Some 401) None;
       sendError "Token expired" (Some 401) None;
       sendError "Internal server error" (Some 500) None ].
Proof.
  intros Hforeign. unfold errorHandler_on.
  destruct (instanceof err ValidationError) eqn:Hv.
  { apply instanceof_ValidationError_AppError in Hv. congruence. }
  rewrite Hforeign.
  destruct (instanceof err PrismaClientKnownRequestError).
  - destruct (code err) as [c|]; [|simpl; tauto].
    destruct (String.eqb c "P2002") eqn:E1.
    { apply String.eqb_eq in E1. subst c. simpl. tauto. }
    destruct (String.eqb c "P2025") eqn:E2.
    { apply String.eqb_eq in E2. subst c. simpl. tauto. }
    destruct (String.eqb c "P2003") eqn:E3.
    { apply String.eqb_eq in E3. subst c. simpl. tauto. }
    assert (Hdef : match c with
                   | "P2002" => sendError "A record with this value already exists"
                                          (Some 409) None
                   | "P2025" => sendError "Record not found" (Some 404) None
                   | "P2003" => sendError "Related record not found" (Some 400) None
                   | _ => sendError "Database error" (Some 500) None
                   end = sendError "Database error" (Some 500) None).
    { apply String.eqb_neq in E1, E2, E3.
      repeat match goal with
             | |- context [match ?x with EmptyString => _ | String _ _ => _ end] =>
                 destruct x; try reflexivity
             | |- context [match ?a with Ascii _ _ _ _ _ _ _ _ => _ end] =>
                 destruct a as [[] [] [] [] [] [] [] []]; try reflexivity
             end; congruence. }
    rewrite Hdef. simpl. tauto.
  - destruct (String.eqb (name err) "JsonWebTokenError"); [simpl; tauto|].
    destruct (String.eqb (name err) "TokenExpiredError"); simpl; tauto.
Qed.

Lemma own_property_In k o msgs :
  own_property k o = Some msgs -> In (k, msgs) o.
Proof.
  unfold own_property. destruct (find _ o) as [[k' v]|] eqn:Hf; [|discriminate].
  simpl. intros H. injection H as <-.
  apply find_some in Hf. destruct Hf as [Hin Heq]. simpl in Heq.
  apply String.eqb_eq in Heq. now subst k'.
Qed.

Lemma In_insert_index n k v o x :
  In x (insert_index n k v o) -> x = (k, v) \/ In x o.
Proof.
  induction o as [|kv o IH]; simpl.
  - intros [H|[]]. now left.
  - destruct (array_index (fst kv)) as [n'|].
    + destruct (n' <? n)%N; simpl.
      * intros [H|H]; [right; now left|].
        destruct (IH H) as [H1|H1]; [now left | right; now right].
      * intros [H|H]; [now left | now right].
    + simpl. intros [H|H]; [now left | now right].
Qed.

Lemma In_define_property k v o x :
  In x (define_property k v o) -> x = (k, v) \/ In x o.
Proof.
  unfold define_property. destruct (array_index k) as [n|].
  - apply In_insert_index.
  - intros H. apply in_app_or in H. destruct H as [H|[H|[]]]; [now right | now left].
Qed.

Lemma In_push_property p m o k msgs :
  In (k, msgs) (push_property p m o) ->
  exists msgs0,
    In (k, msgs0) o /\ (msgs = msgs0 \/ (k = p /\ msgs = (msgs0 ++ [m])%list)).
Proof.
  unfold push_property. intros H. apply in_map_iff in H.
  destruct H as [[k0 v0] [Heq Hin]]. simpl in Heq.
  destruct (String.eqb k0 p) eqn:E.
  - injection Heq as <- <-. apply String.eqb_eq in E.
    exists v0. split; [assumption | right; split; [assumption | reflexivity]].
  - injection Heq as <- <-. exists v0. split; [assumption | now left].
Qed.

(** The loop either meets an issue whose key is an inherited property name,
    and throws, or returns an object made of the issues. *)
Lemma collect_issues_spec fallback all issues errors :
  incl issues all ->
  collected fallback all errors ->
  if existsb (fun i => inherited (issue_key fallback i)) issues
  then collect_issues fallback issues errors = Throw push_is_not_a_function
  else exists errors',
         collect_issues fallback issues errors = Return errors'
         /\ collected fallback all errors'.
Proof.
  revert errors. induction issues as [|err rest IH]; intros errors Hincl Hinv.
  - simpl. eauto.
  - assert (Hrest : incl rest all) by (intros x Hx; apply Hincl; now right).
    assert (Herr : In err all) by (apply Hincl; now left).
    cbn [existsb collect_issues]. cbv zeta.
    destruct (own_property (issue_key fallback err) errors) as [msgs0|] eqn:Hown.
    + apply own_property_In in Hown.
      destruct (Hinv _ _ Hown) as [Hnot _]. rewrite Hnot. cbn [orb].
      apply IH; [assumption|].
      intros k msgs Hin. apply In_push_property in Hin.
      destruct Hin as (m0 & Hin0 & [-> | [-> ->]]).
      * apply (Hinv _ _ Hin0).
      * destruct (Hinv _ _ Hin0) as (H1 & H2 & H3).
        split; [assumption|]. split; [now destruct m0|].
        intros m Hm. apply in_app_or in Hm. destruct Hm as [Hm|[<-|[]]].
        -- apply (H3 m Hm).
        -- exists err. repeat split; assumption.
    + destruct (inherited (issue_key fallback err)) eqn:Hinh; cbn [orb].
      * reflexivity.
      * apply IH; [assumption|].
        intros k msgs Hin. apply In_define_property in Hin.
        destruct Hin as [Heq|Hin]; [|apply (Hinv _ _ Hin)].
        injection Heq as -> ->.
        split; [assumption|]. split; [discriminate|].
        intros m [<-|[]]. exists err. repeat split; assumption.
Qed.

Lemma collected_nil fallback all : collected fallback all [].
Proof. intros k msgs []. Qed.





Lemma authenticate_next_inv cfg now req s s' attached :
  authenticate cfg now req s = (s', next attached) ->
  exists token payload row,
    authorization req = Some (Bearer token)
    /\ jwt_verify token (config.secret cfg) now = Return payload
    /\ TokenPayload.type payload = access
    /\ find (prisma.user_matches (prisma.where_id (TokenPayload.sub payload)))
            (users s) = Some row
    /\ User.isActive row = true
    /\ attached = mkRequestUser (User.id row) (User.email row) (User.role row)
    /\ s' = log_call user_findUnique s.
Proof.
  unfold authenticate, authenticate_try, extractToken.
  destruct (authorization req) as [[token|str]|]; simpl; try discriminate.
  destruct (truthy token); simpl; [|discriminate].
  async_unfold.
  destruct (jwt_verify token (config.secret cfg) now) as [payload|e] eqn:Hv; simpl.
  2:{ unfold authenticate_catch. intros H. injection H as _ H.
      destruct (instanceof e JsonWebTokenError); [discriminate|].
      destruct (instanceof e TokenExpiredError); discriminate. }
  destruct (TokenType_eq_dec _ _) as [Hty|]; simpl; [|discriminate].
  unfold prisma.user.findUnique. async_unfold. simpl.
  destruct (find _ (users s)) as [row|] eqn:Hrow; simpl; [|discriminate].
  destruct (User.isActive row) eqn:Hact; simpl; [|discriminate].
  intros H. injection H as <- <-.
  exists token, payload, row. repeat split; assumption.
Qed.

(** X20.  GET /auth/me: the chain [authenticate, me] writes nothing and
    answers either 401 with one of the four messages of the Gate, or 200
    with the safe projection of one particular row: the request carries a
    bearer token that passes [jwt.verify] with the type "access", and the
    row is the active row the users table holds for the subject of that
    token.  It never answers 404 or 500: the row the Gate has just found is
    the row [getCurrentUser] finds. *)
Theorem get_me_answers isProduction (cfg : Host) now req s :
  tables (fst (authRoutes.get_me isProduction cfg now req s)) = tables s
  /\ ((exists token payload row,
          authorization req = Some (Bearer token)
          /\ jwt_verify token (config.secret cfg) now = Return payload
          /\ TokenPayload.type payload = access
          /\ find (prisma.user_matches (prisma.where_id (TokenPayload.sub payload)))
                  (users s) = Some row
          /\ User.isActive row = true
          /\ snd (authRoutes.get_me isProduction cfg now req s)
             = sendSuccess (VObject (toSafeUser (userObject row)))
                           "User retrieved successfully" 200)
      \/ exists msg,
           In msg ["No token provided"; "Invalid token"; "Invalid token type";
                   "User not found or inactive"]
           /\ snd (authRoutes.get_me isProduction cfg now req s)
              = sendError msg (Some 401) None).
Proof.
  unfold authRoutes.get_me.
  destruct (authenticate_cases cfg now req s) as [Htab [[attached Hn] | (msg & Hmsg & Hn)]].
  - destruct (authenticate cfg now req s) as [s1 nx] eqn:Ha. simpl in Hn, Htab. subst nx.
    pose proof (authenticate_next_inv _ _ _ _ _ _ Ha)
      as (token & payload & row & Hreq & Hv & Hty & Hrow & Hact & Hatt & Hs1).
    unfold authController.me, authService.getCurrentUser, getCurrentUser,
      prisma.user.findUnique.
    async_unfold. simpl.
    assert (Hus : users s1 = users s) by (unfold tables in Htab; congruence).
    destruct (find_user_id _ _ _ Hrow) as [_ Hid].
    rewrite Hatt. cbn [ru_id]. rewrite Hus, Hid, Hrow. simpl.
    split.
    + unfold tables in *. simpl. injection Htab as _ Hr Hn. now rewrite Hr, Hn.
    + left. exists token, payload, row. repeat split; assumption.
  - destruct (authenticate cfg now req s) as [s1 nx] eqn:Ha. simpl in Hn, Htab. subst nx.
    simpl. split; [exact Htab|].
    right. exists msg. split; [assumption | reflexivity].
Qed.

Lemma logoutSchema_issue_key err :
  logoutSchema_issue err ->
  (issue_key "body" err = "body" \/ issue_key "body" err = "refreshToken")
  /\ inherited (issue_key "body" err) = false.
Proof.
  unfold issue_key. intros [-> | ->]; split; try reflexivity; [now left | now right].
Qed.

Lemma logoutSchema_never_inherited issues :
  Forall logoutSchema_issue issues ->
  existsb (fun i => inherited (issue_key "body" i)) issues = false.
Proof.
  induction 1 as [|err rest Herr _ IH]; [reflexivity|].
  simpl. destruct (logoutSchema_issue_key err Herr) as [_ ->]. exact IH.
Qed.



(* ===================================================================== *)
(** ** 19. Configuration and the user service *)
(* ===================================================================== *)

Lemma getEnvVar_Return env key defaultValue v :
  getEnvVar env key defaultValue = Return v ->
  (env key = Some v /\ v <> "") \/ defaultValue = Some v.
Proof.
  unfold getEnvVar.
  destruct (env key) as [x|].
  - destruct (String.eqb x "") eqn:E.
    + destruct defaultValue as [d|]; [|discriminate].
      intros H. injection H as <-. now right.
    + apply String.eqb_neq in E. intros H. injection H as <-. now left.
  - destruct defaultValue as [d|]; [|discriminate].
    intros H. injection H as <-. now right.
Qed.

Lemma getEnvVar_required env key :
  (exists v, getEnvVar env key None = Return v)
  <-> exists v, env key = Some v /\ v <> "".
Proof.
  split.
  - intros [v H]. apply getEnvVar_Return in H.
    destruct H as [H|H]; [eauto | discriminate].
  - intros [v [H Hne]]. exists v. unfold getEnvVar. rewrite H.
    apply String.eqb_neq in Hne. now rewrite Hne.
Qed.

Lemma getEnvVar_default env key d :
  exists v, getEnvVar env key (Some d) = Return v.
Proof.
  unfold getEnvVar. destruct (env key) as [x|]; [destruct (String.eqb x "")|]; eauto.
Qed.


Lemma updateUser_Throw_or_update now id data s :
  (exists e, updateUser now id data s
             = (log_call_many s (fst (updateUser now id data s)), Throw e)
             /\ (err_class e = NotFoundError \/ err_class e = ConflictError))
  \/ exists u0,
       find (prisma.user_matches (prisma.where_id id)) (users s) = Some u0
       /\ snd (updateUser now id data s) = Return tt
       /\ users (fst (updateUser now id data s))
          = List.map (fun x => if Nat.eqb (User.id x) id
                               then User.set_updatedAt now (apply_update data u0)
                               else x) (users s)
       /\ refreshTokens (fst (updateUser now id data s)) = refreshTokens s
       /\ nextUuid (fst (updateUser now id data s)) = nextUuid s.
Proof.
  unfold log_call_many.
  unfold updateUser, prisma.user.findUnique, prisma.user.update.
  async_unfold. simpl.
  destruct (find (prisma.user_matches (prisma.where_id id)) (users s)) as [e0|] eqn:Hf; simpl.
  2:{ left. eexists. split; [reflexivity | now left]. }
  destruct (changes (upd_email data) (User.email e0)) as [x|]; simpl.
  - destruct (find (prisma.user_matches (prisma.where_email x)) (users s)); simpl.
    { left. eexists. split; [reflexivity | now right]. }
    destruct (changes (upd_username data) (User.username e0)) as [y|]; simpl.
    + destruct (find (prisma.user_matches (prisma.where_username y)) (users s)); simpl.
      { left. eexists. split; [reflexivity | now right]. }
      rewrite Hf. simpl. right. exists e0. repeat split.
    + rewrite Hf. simpl. right. exists e0. repeat split.
  - destruct (changes (upd_username data) (User.username e0)) as [y|]; simpl.
    + destruct (find (prisma.user_matches (prisma.where_username y)) (users s)); simpl.
      { left. eexists. split; [reflexivity | now right]. }
      rewrite Hf. simpl. right. exists e0. repeat split.
    + rewrite Hf. simpl. right. exists e0. repeat split.
Qed.

Lemma apply_update_keeps data u :
  User.id (apply_update data u) = User.id u
  /\ User.role (apply_update data u) = User.role u
  /\ User.passwordHash (apply_update data u) = User.passwordHash u
  /\ User.isVerified (apply_update data u) = User.isVerified u
  /\ User.createdAt (apply_update data u) = User.createdAt u
  /\ User.lastLoginAt (apply_update data u) = User.lastLoginAt u.
Proof.
  unfold apply_update, apply_opt.
  destruct (upd_isActive data), (upd_lastName data), (upd_firstName data),
    (upd_username data), (upd_email data); repeat split.
Qed.

(** X23.  [updateUser] either throws a NotFoundError or a ConflictError,
    having written nothing, or returns having replaced the row with that id
    and nothing else: the refresh-token table and every other user are as
    before, and on the replaced row the id, role, password hash,
    verification flag, creation time and last login are unchanged, so the
    call can neither grant a role nor change a password. *)
Theorem updateUser_effects now id data s :
  match snd (updateUser now id data s) with
  | Throw e =>
      tables (fst (updateUser now id data s)) = tables s
      /\ (err_class e = NotFoundError \/ err_class e = ConflictError)
  | Return _ =>
      exists u0 u',
        find (prisma.user_matches (prisma.where_id id)) (users s) = Some u0
        /\ users (fst (updateUser now id data s))
           = List.map (fun x => if Nat.eqb (User.id x) id then u' else x) (users s)
        /\ refreshTokens (fst (updateUser now id data s)) = refreshTokens s
        /\ User.id u' = User.id u0
        /\ User.role u' = User.role u0
        /\ User.passwordHash u' = User.passwordHash u0
        /\ User.isVerified u' = User.isVerified u0
        /\ User.createdAt u' = User.createdAt u0
        /\ User.lastLoginAt u' = User.lastLoginAt u0
        /\ User.updatedAt u' = now
  end.
Proof.
  destruct (updateUser_Throw_or_update now id data s)
    as [(e & He & Hcls) | (u0 & Hf & Hret & Hus & Hrs & Hn)].
  - rewrite He. cbn [snd fst]. split; [reflexivity | assumption].
  - rewrite Hret.
    exists u0, (User.set_updatedAt now (apply_update data u0)).
    destruct (apply_update_keeps data u0) as (K1 & K2 & K3 & K4 & K5 & K6).
    split; [assumption|]. split; [assumption|]. split; [assumption|].
    cbn. repeat split; assumption.
Qed.

(** X24.  Looking a user up by id writes nothing.  For an id that has no
    row, [getCurrentUser] and [getUserById] both throw the NotFoundError
    whose message is "User not found", which the error handler answers with
    404 and that message.  For an id that has a row, [getCurrentUser]
    returns its nine-property projection and [getUserById] the same nine
    properties and [updatedAt]; [passwordHash] occurs in neither. *)
Theorem lookup_by_id isProduction id s :
  tables (fst (getCurrentUser id s)) = tables s
  /\ tables (fst (getUserById id s)) = tables s
  /\ match find (prisma.user_matches (prisma.where_id id)) (users s) with
     | None =>
         snd (getCurrentUser id s) = Throw (new_NotFoundError "User")
         /\ snd (getUserById id s) = Throw (new_NotFoundError "User")
         /\ next_to_errorHandler isProduction (new_NotFoundError "User")
            = sendError "User not found" (Some 404) None
     | Some u =>
         snd (getCurrentUser id s) = Return (toSafeUser (userObject u))
         /\ snd (getUserById id s) = Return (safeUserSelect u)
         /\ safeUserSelect u = (toSafeUser (userObject u)
                                ++ [("updatedAt", VDate (User.updatedAt u))])%list
         /\ mentions "passwordHash" (VObject (safeUserSelect u)) = false
         /\ User.id u = id
     end.
Proof.
  unfold getCurrentUser, getUserById, prisma.user.findUnique. async_unfold. simpl.
  destruct (find _ (users s)) as [u|] eqn:Hf; simpl.
  - split; [reflexivity|]. split; [reflexivity|].
    split; [reflexivity|]. split; [reflexivity|].
    split; [reflexivity|]. split.
    + destruct u as [i e n h f l a v r ll c up]. destruct f, l; reflexivity.
    + apply (find_user_id _ _ _ Hf).
  - repeat split.
Qed.
